(** * The create-container interceptor of the weave proxy

    A shallow embedding of [proxy/create_container_interceptor.go] and the
    properties its specification states about it.

    Go values are modelled as follows.
    - A [string] is a sequence of bytes: Rocq's [string]; [len] counts bytes.
    - A [[]string] is a [Slice]: [None] is the nil slice, [Some l] a non-nil
      slice holding [l] (so [Some []] is the empty, non-nil slice).
    - A pointer to a struct is an [option]: [None] is nil. Where the code
      reads through a pointer without a nil check, the function's result is
      an [option] and [None] stands for the run-time panic.
    - A function that mutates the struct behind a pointer returns the struct
      as it is when the function returns, next to the function's own result.
    - Calls to collaborators (the docker client, [http.Get], the loggers) are
      recorded, in order, as a list of [event]s.
    - The structs [docker.Config] and [docker.HostConfig] belong to
      go-dockerclient. The fields this file reads or writes are spelled
      out; all their other fields travel together as one value of a type
      that is left open ([ConfigRest], [HostRest]). *)

From Stdlib Require Import String Ascii List ZArith Bool Lia.
From Stdlib Require Import Permutation DecimalString.
Import ListNotations.

Local Open Scope list_scope.
Local Open Scope string_scope.
Local Open Scope Z_scope.

(** ** Go preliminaries *)

Inductive result (E A : Type) : Type :=
| Ok (a : A)
| Err (e : E).
Arguments Ok {E A} a.
Arguments Err {E A} e.

(** [len] of a string, as a Go [int]. *)
Definition slen (s : string) : Z := Z.of_nat (String.length s).

Definition Slice : Type := option (list string).

Definition elems (s : Slice) : list string :=
  match s with
  | None => []
  | Some l => l
  end.

Definition len (s : Slice) : Z := Z.of_nat (List.length (elems s)).

(** [append(s, xs...)]: with nothing to add the slice itself comes back (a
    nil slice stays nil), otherwise the result is a non-nil slice. *)
Definition append (s : Slice) (xs : list string) : Slice :=
  match xs with
  | [] => s
  | _ :: _ => Some (elems s ++ xs)%list
  end.

(** [strings.Split(s, sep)] for a separator of one byte: the fields between
    the separators, one more than there are separators. *)
Fixpoint strings_Split (s : string) (sep : ascii) : list string :=
  match s with
  | EmptyString => [EmptyString]
  | String c s' =>
      if Ascii.eqb c sep then EmptyString :: strings_Split s' sep
      else
        match strings_Split s' sep with
        | f :: fs => String c f :: fs
        | [] => [String c EmptyString]
        end
  end.

Definition strings_HasSuffix (s suffix : string) : bool :=
  (String.length suffix <=? String.length s)%nat
  && String.eqb
       (substring (String.length s - String.length suffix)
                  (String.length suffix) s)
       suffix.

Definition strings_TrimSuffix (s suffix : string) : string :=
  if strings_HasSuffix s suffix
  then substring 0 (String.length s - String.length suffix) s
  else s.

(** [strings.Join(a, sep)]. *)
Definition strings_Join (a : list string) (sep : string) : string :=
  String.concat sep a.

(** The verb [%d] of [fmt]. *)
Definition fmt_d (n : Z) : string := NilEmpty.string_of_int (Z.to_int n).

Definition dquote : string := String (ascii_of_nat 34) EmptyString.

(** ** Errors *)

(** Error values made outside this file: go-dockerclient's sentinel
    [docker.ErrNoSuchImage], and any other error of a collaborator (the
    docker client, [ioutil], [encoding/json], the address resolver), kept
    with its message. *)
Inductive foreignError : Type :=
| docker_ErrNoSuchImage
| otherError (msg : string).

Definition foreignError_Error (e : foreignError) : string :=
  match e with
  | docker_ErrNoSuchImage => "no such image"
  | otherError msg => msg
  end.

(** The errors [InterceptRequest] can return: the two this file declares,
    and foreign ones handed on as they are. *)
Inductive error : Type :=
| ErrNoCommandSpecified
| ErrNoSuchImage (Name : string)
| Foreign (e : foreignError).

Definition error_Error (err : error) : string :=
  match err with
  | ErrNoCommandSpecified => "No command specified"
  | ErrNoSuchImage Name => "No such image: " ++ Name
  | Foreign e => foreignError_Error e
  end.

(** ** The docker client's types

    go-dockerclient declares these. [Rest] is the type of what a struct
    holds besides the fields named here. *)
Module docker.

Record Config (Rest : Type) : Type := mkConfig {
  Hostname : string;
  Domainname : string;
  Cmd : Slice;
  Image : string;
  Entrypoint : Slice;
  ConfigRest : Rest
}.
Arguments mkConfig {Rest}.
Arguments Hostname {Rest}.
Arguments Domainname {Rest}.
Arguments Cmd {Rest}.
Arguments Image {Rest}.
Arguments Entrypoint {Rest}.
Arguments ConfigRest {Rest}.

Record HostConfig (Rest : Type) : Type := mkHostConfig {
  Binds : Slice;
  DNS : Slice;
  DNSSearch : Slice;
  HostConfigRest : Rest
}.
Arguments mkHostConfig {Rest}.
Arguments Binds {Rest}.
Arguments DNS {Rest}.
Arguments DNSSearch {Rest}.
Arguments HostConfigRest {Rest}.

(** What [InspectImage] hands back ([docker.Image] in Go; the name [Image]
    is taken by the field of [Config]), as far as it is read: [image.Config],
    a pointer. *)
Record APIImage (Rest : Type) : Type := mkImage {
  ImageConfig : option (Config Rest)
}.
Arguments mkImage {Rest}.
Arguments ImageConfig {Rest}.

Record NetworkSettings : Type := mkNetworkSettings {
  IPAddress : string
}.

Record Container : Type := mkContainer {
  ContainerNetworkSettings : option NetworkSettings
}.

(** [&docker.Config{}] and [&docker.HostConfig{}], [rest] being the other
    fields at their zero values. *)
Definition zeroConfig {Rest : Type} (rest : Rest) : Config Rest :=
  mkConfig "" "" None "" None rest.
Definition zeroHostConfig {Rest : Type} (rest : Rest) : HostConfig Rest :=
  mkHostConfig None None None rest.

Definition setCmd {Rest : Type} (c : Config Rest) (v : Slice) : Config Rest :=
  mkConfig (Hostname c) (Domainname c) v (Image c) (Entrypoint c)
    (ConfigRest c).
Definition setEntrypoint {Rest : Type} (c : Config Rest) (v : Slice)
    : Config Rest :=
  mkConfig (Hostname c) (Domainname c) (Cmd c) (Image c) v (ConfigRest c).
Definition setHostname {Rest : Type} (c : Config Rest) (v : string)
    : Config Rest :=
  mkConfig v (Domainname c) (Cmd c) (Image c) (Entrypoint c) (ConfigRest c).
Definition setDomainname {Rest : Type} (c : Config Rest) (v : string)
    : Config Rest :=
  mkConfig (Hostname c) v (Cmd c) (Image c) (Entrypoint c) (ConfigRest c).

Definition setBinds {Rest : Type} (h : HostConfig Rest) (v : Slice)
    : HostConfig Rest :=
  mkHostConfig v (DNS h) (DNSSearch h) (HostConfigRest h).
Definition setDNS {Rest : Type} (h : HostConfig Rest) (v : Slice)
    : HostConfig Rest :=
  mkHostConfig (Binds h) v (DNSSearch h) (HostConfigRest h).
Definition setDNSSearch {Rest : Type} (h : HostConfig Rest) (v : Slice)
    : HostConfig Rest :=
  mkHostConfig (Binds h) (DNS h) v (HostConfigRest h).

End docker.

(** ** The interceptor's data *)

Definition MaxDockerHostname : Z := 64.

Record createContainerRequestBody (ConfigRest HostRest : Type) : Type :=
mkBody {
  Config : option (docker.Config ConfigRest);
  HostConfig : option (docker.HostConfig HostRest);
  MacAddress : string
}.
Arguments mkBody {ConfigRest HostRest}.
Arguments Config {ConfigRest HostRest}.
Arguments HostConfig {ConfigRest HostRest}.
Arguments MacAddress {ConfigRest HostRest}.

(** The docker client, as far as the interceptor calls it. *)
Record Client (ConfigRest : Type) : Type := mkClient {
  InspectImage : string -> result foreignError (docker.APIImage ConfigRest);
  InspectContainer : string -> result foreignError docker.Container
}.
Arguments mkClient {ConfigRest}.
Arguments InspectImage {ConfigRest}.
Arguments InspectContainer {ConfigRest}.

(** The members of [*Proxy] the interceptor uses, and its method
    [weaveCIDRsFromConfig]. *)
Record Proxy (ConfigRest HostRest : Type) : Type := mkProxy {
  WithoutDNS : bool;
  WithDNS : bool;
  weaveWaitVolume : string;
  dockerBridgeIP : string;
  client : Client ConfigRest;
  weaveCIDRsFromConfig :
    option (docker.Config ConfigRest) -> option (docker.HostConfig HostRest) ->
    result foreignError (list string)
}.
Arguments mkProxy {ConfigRest HostRest}.
Arguments WithoutDNS {ConfigRest HostRest}.
Arguments WithDNS {ConfigRest HostRest}.
Arguments weaveWaitVolume {ConfigRest HostRest}.
Arguments dockerBridgeIP {ConfigRest HostRest}.
Arguments client {ConfigRest HostRest}.
Arguments weaveCIDRsFromConfig {ConfigRest HostRest}.

Record createContainerInterceptor (ConfigRest HostRest : Type) : Type :=
mkInterceptor { proxy : Proxy ConfigRest HostRest }.
Arguments mkInterceptor {ConfigRest HostRest}.
Arguments proxy {ConfigRest HostRest}.

(** What [http.Get] hands back: the status code, and what reading the
    response body to its end yields. *)
Record Response : Type := mkResponse {
  StatusCode : Z;
  ReadAllBody : result foreignError string
}.

Definition http_StatusOK : Z := 200.

(** The request, as far as the interceptor uses it: what reading [r.Body]
    to its end yields, [r.ContentLength], and [r.URL.Query().Get("name")]
    (empty when the query has no such parameter). *)
Record Request (Bytes : Type) : Type := mkRequest {
  Body : result foreignError Bytes;
  ContentLength : Z;
  QueryName : string
}.
Arguments mkRequest {Bytes}.
Arguments Body {Bytes}.
Arguments ContentLength {Bytes}.
Arguments QueryName {Bytes}.

Inductive event : Type :=
| CallInspectImage (name : string)
| CallInspectContainer (name : string)
| CallHttpGet (url : string)
| LogInfo (msg : string)
| LogWarning (msg : string).

(** ** The wire format

    [InterceptRequest] hands the body to [json.Unmarshal] and the struct to
    [json.Marshal]. The text of a JSON document and its bytes stay abstract
    ([jsonParse], [jsonText], [byteLen] below); what [encoding/json] does
    with a parsed document and a struct of this shape is written out. *)
Module json.

Local Set Warnings "-register-all".

Inductive value : Type :=
| Null
| Bool (b : bool)
| Number (literal : string)
| Str (s : string)
| Arr (xs : list value)
| Obj (members : list (string * value)).

Definition member : Type := (string * value)%type.

(** ASCII letters compared without case, as [encoding/json] folds them. *)
Definition foldByte (a : ascii) : ascii :=
  let n := nat_of_ascii a in
  if ((65 <=? n) && (n <=? 90))%nat then ascii_of_nat (n + 32) else a.

(** Whether the key [t] of a document selects the field named [s], where
    [s] consists of ASCII letters: the bytes agree up to the case of
    letters; besides, the decoder lets U+017F (bytes C5 BF) stand for an
    [s] and U+212A (bytes E2 84 AA) for a [k]. *)
Fixpoint equalFold (s t : string) : bool :=
  match s, t with
  | EmptyString, EmptyString => true
  | String a s', String b t' =>
      if Ascii.eqb (foldByte a) (foldByte b) then equalFold s' t'
      else if Ascii.eqb (foldByte a) "s"%char then
        match t with
        | String "197"%char (String "191"%char t'') => equalFold s' t''
        | _ => false
        end
      else if Ascii.eqb (foldByte a) "k"%char then
        match t with
        | String "226"%char (String "132"%char (String "170"%char t'')) =>
            equalFold s' t''
        | _ => false
        end
      else false
  | _, _ => false
  end.

(** The field of a struct that a key selects: the one whose name is the
    key if there is one, otherwise the first whose name matches it without
    case. Of the struct's fields only [fields] are spelled out; [others]
    tells whether this rule, applied to all of them, ends at a field that
    is not. *)
Inductive selection (F : Type) : Type :=
| Declared (f : F)
| Other
| NoField.
Arguments Declared {F} f.
Arguments Other {F}.
Arguments NoField {F}.

Definition selectField {F : Type} (name : F -> string) (fields : list F)
    (others : string -> bool) (key : string) : selection F :=
  match find (fun f => String.eqb (name f) key) fields with
  | Some f => Declared f
  | None =>
      if others key then Other
      else
        match find (fun f => equalFold (name f) key) fields with
        | Some f => Declared f
        | None => NoField
        end
  end.

(** A document value stored into a field of type [string]: [null] leaves
    the field as it is, a string sets it, anything else is refused. *)
Definition storeString (v : value) (old : string) : option string :=
  match v with
  | Null => Some old
  | Str s => Some s
  | _ => None
  end.

(** A field of type [[]string] while the decoder fills it: the backing
    array, whose length is the capacity, and the number of elements in use;
    [None] is the nil slice. What lies in the array beyond the elements in
    use is kept: an array stored later writes over it element by element,
    and [null] leaves an element as it is. *)
Definition buffer : Type := option (list string * nat).

(** The slice the rest of the program sees. *)
Definition visible (b : buffer) : Slice :=
  match b with
  | None => None
  | Some (backing, n) => Some (firstn n backing)
  end.

Fixpoint setNth (i : nat) (s : string) (l : list string) : list string :=
  match l, i with
  | [], _ => []
  | _ :: l', O => s :: l'
  | x :: l', S i' => x :: setNth i' s l'
  end.

(** The array the decoder moves to when the index reaches the capacity:
    half as large again and four at least, the [n] elements in use copied
    and the others empty. *)
Definition grow (backing : list string) (n : nat) : list string :=
  let cap := List.length backing in
  let newcap := Nat.max 4 (cap + cap / 2) in
  (firstn n backing ++ repeat "" (newcap - n))%list.

(** The elements of a document array stored one after the other, [i]
    being the index of the next one: the array grows when [i] reaches its
    capacity, the length grows when [i] reaches it, and the element is
    stored at [i] as into a field of type [string]. *)
Fixpoint fillArray (xs : list value) (i : nat) (backing : list string)
    (n : nat) : option (list string * nat) :=
  match xs with
  | [] => Some (backing, n)
  | x :: xs' =>
      let backing :=
        if (List.length backing <=? i)%nat then grow backing n
        else backing in
      let n := if (n <=? i)%nat then S i else n in
      match storeString x (nth i backing "") with
      | Some s => fillArray xs' (S i) (setNth i s backing) n
      | None => None
      end
  end.

(** A document value stored into a field of type [[]string]: [null]
    makes it nil; an array is stored into the slice that is there, which
    is then cut to the number of elements of the array (an empty array
    gives a new, empty slice); anything else is refused. *)
Definition storeSlice (v : value) (old : buffer) : option buffer :=
  match v with
  | Null => Some None
  | Arr xs =>
      let '(backing, n) :=
        match old with
        | Some b => b
        | None => ([], 0%nat)
        end in
      match fillArray xs 0 backing n with
      | None => None
      | Some (backing', n') =>
          let i := List.length xs in
          if (i =? 0)%nat then Some (Some ([], 0%nat))
          else Some (Some (backing', if (i <? n')%nat then i else n'))
      end
  | _ => None
  end.

(** The member a field of type [string] contributes to the encoding. *)
Definition stringMember (omitempty : bool) (name s : string)
    : list member :=
  if omitempty && String.eqb s "" then [] else [(name, Str s)].

Definition sliceValue (s : Slice) : value :=
  match s with
  | None => Null
  | Some l => Arr (map Str l)
  end.

(** The member a field of type [[]string] contributes. *)
Definition sliceMember (omitempty : bool) (name : string) (s : Slice)
    : list member :=
  if omitempty && (len s =? 0) then [] else [(name, sliceValue s)].

End json.

(** ** addWeaveWaitVolume *)

(** The test of the loop body: [len(s) >= 2 && s[1] == "/w"]. *)
Definition mountsW (bind : string) : bool :=
  let s := strings_Split bind ":"%char in
  (2 <=? Z.of_nat (List.length s)) && String.eqb (nth 1 s "") "/w".

Definition addWeaveWaitVolume {ConfigRest HostRest : Type}
    (i : createContainerInterceptor ConfigRest HostRest)
    (hostConfig : docker.HostConfig HostRest) : docker.HostConfig HostRest :=
  let binds :=
    fold_left
      (fun (binds : Slice) (bind : string) =>
         if mountsW bind then binds else append binds [bind])
      (elems (docker.Binds hostConfig)) None in
  docker.setBinds hostConfig
    (append binds [weaveWaitVolume (proxy i) ++ ":/w:ro"]).

(** ** The structs while [json.Unmarshal] fills them

    The fields as in the structs, the slices with their backing arrays. *)
Record configState (Rest : Type) : Type := mkConfigState {
  sHostname : string;
  sDomainname : string;
  sCmd : json.buffer;
  sImage : string;
  sEntrypoint : json.buffer;
  sConfigRest : Rest
}.
Arguments mkConfigState {Rest}.
Arguments sHostname {Rest}.
Arguments sDomainname {Rest}.
Arguments sCmd {Rest}.
Arguments sImage {Rest}.
Arguments sEntrypoint {Rest}.
Arguments sConfigRest {Rest}.

Record hostConfigState (Rest : Type) : Type := mkHostConfigState {
  sBinds : json.buffer;
  sDNS : json.buffer;
  sDNSSearch : json.buffer;
  sHostConfigRest : Rest
}.
Arguments mkHostConfigState {Rest}.
Arguments sBinds {Rest}.
Arguments sDNS {Rest}.
Arguments sDNSSearch {Rest}.
Arguments sHostConfigRest {Rest}.

Record bodyState (ConfigRest HostRest : Type) : Type := mkBodyState {
  sConfig : option (configState ConfigRest);
  sHostConfig : option (hostConfigState HostRest);
  sMacAddress : string
}.
Arguments mkBodyState {ConfigRest HostRest}.
Arguments sConfig {ConfigRest HostRest}.
Arguments sHostConfig {ConfigRest HostRest}.
Arguments sMacAddress {ConfigRest HostRest}.

(** ** What the file takes from the rest of the program

    [weaveWaitEntrypoint] is a variable of the package, declared in another
    file; [setWeaveWaitEntrypoint] reads its element 0 whenever the
    container's entrypoint is not empty, so it is taken as a first element
    and the elements after it. [DefaultLocalDomain] and [DefaultHTTPPort] are
    constants of the package [nameserver]; [http_Get] is [net/http]'s.

    [ConfigRest] and [HostRest] hold the fields of [docker.Config] and
    [docker.HostConfig] that this file neither reads nor writes;
    [zeroConfigRest] and [zeroHostRest] are their values in [docker.Config{}]
    and [docker.HostConfig{}]. *)
Section Interceptor.

Variable weaveWaitBinary : string.
Variable weaveWaitArgs : list string.
Variable nameserver_DefaultLocalDomain : string.
Variable nameserver_DefaultHTTPPort : Z.
Variable http_Get : string -> result foreignError Response.
Variable ConfigRest : Type.
Variable HostRest : Type.
Variable zeroConfigRest : ConfigRest.
Variable zeroHostRest : HostRest.

Local Abbreviation ConfigT := (docker.Config ConfigRest).
Local Abbreviation HostConfigT := (docker.HostConfig HostRest).
Local Abbreviation ImageT := (docker.APIImage ConfigRest).
Local Abbreviation BodyT := (createContainerRequestBody ConfigRest HostRest).
Local Abbreviation InterceptorT := (createContainerInterceptor ConfigRest HostRest).

Definition weaveWaitEntrypoint : list string :=
  weaveWaitBinary :: weaveWaitArgs.

(** ** setWeaveWaitEntrypoint *)

(** Lines 113 to 121, which both branches of the first test reach: the
    configuration as the function leaves it, and the error it returns. *)
Definition wrapEntrypoint (container : ConfigT) : ConfigT * option error :=
  if (len (docker.Entrypoint container) =? 0)
     && (len (docker.Cmd container) =? 0)
  then (container, Some ErrNoCommandSpecified)
  else
    match elems (docker.Entrypoint container) with
    | first :: _ =>
        if String.eqb first weaveWaitBinary
        then (container, None)
        else (docker.setEntrypoint container
                (append (Some weaveWaitEntrypoint)
                        (elems (docker.Entrypoint container))), None)
    | [] =>
        (docker.setEntrypoint container
           (append (Some weaveWaitEntrypoint)
                   (elems (docker.Entrypoint container))), None)
    end.

(** The image-default step, lines 104 to 110. [image.Config] is a pointer,
    and both assignments read through it without a nil check: [None] is the
    panic of the one that is reached while the pointer is nil. *)
Definition imageDefaults (container : ConfigT) (image : ImageT)
    : option ConfigT :=
  let afterCmd :=
    if len (docker.Cmd container) =? 0 then
      match docker.ImageConfig image with
      | Some imageConfig =>
          Some (docker.setCmd container (docker.Cmd imageConfig))
      | None => None
      end
    else Some container in
  match afterCmd with
  | None => None
  | Some container =>
      match docker.Entrypoint container with
      | None =>
          match docker.ImageConfig image with
          | Some imageConfig =>
              Some (docker.setEntrypoint container
                      (docker.Entrypoint imageConfig))
          | None => None
          end
      | Some _ => Some container
      end
  end.

(** The configuration as the function leaves it, the error it returns and
    the calls it makes; [None] when it panics. *)
Definition setWeaveWaitEntrypoint (i : InterceptorT) (container : ConfigT)
    : option (ConfigT * option error * list event) :=
  if len (docker.Entrypoint container) =? 0 then
    let call := CallInspectImage (docker.Image container) in
    match InspectImage (client (proxy i)) (docker.Image container) with
    | Err docker_ErrNoSuchImage =>
        Some (container, Some (ErrNoSuchImage (docker.Image container)),
              [call])
    | Err err => Some (container, Some (Foreign err), [call])
    | Ok image =>
        match imageDefaults container image with
        | None => None
        | Some container =>
            let '(container, err) := wrapEntrypoint container in
            Some (container, err, [call])
        end
    end
  else
    let '(container, err) := wrapEntrypoint container in
    Some (container, err, []).

(** ** getDNSDomain and setWeaveDNS *)

Definition getDNSDomain (i : InterceptorT) : string * bool * list event :=
  let domain := nameserver_DefaultLocalDomain in
  let inspect := CallInspectContainer "weavedns" in
  match InspectContainer (client (proxy i)) "weavedns" with
  | Err _ => (domain, false, [inspect])
  | Ok dnsContainer =>
      match docker.ContainerNetworkSettings dnsContainer with
      | None => (domain, false, [inspect])
      | Some settings =>
          if String.eqb (docker.IPAddress settings) ""
          then (domain, false, [inspect])
          else
            let url :=
              "http://" ++ docker.IPAddress settings ++ ":"
              ++ fmt_d nameserver_DefaultHTTPPort ++ "/domain" in
            let get := CallHttpGet url in
            match http_Get url with
            | Err _ => (domain, false, [inspect; get])
            | Ok resp =>
                if negb (StatusCode resp =? http_StatusOK)
                then (domain, false, [inspect; get])
                else
                  match ReadAllBody resp with
                  | Err _ => (domain, false, [inspect; get])
                  | Ok b => (b, true, [inspect; get])
                  end
            end
      end
  end.

(** The hostname step, lines 136 to 146. *)
Definition hostnameStep (dnsDomain name : string) (config : ConfigT)
    : ConfigT * list event :=
  if String.eqb (docker.Hostname config) "" && negb (String.eqb name "") then
    let trimmedDNSDomain := strings_TrimSuffix dnsDomain "." in
    if slen name + 1 + slen trimmedDNSDomain >? MaxDockerHostname
    then (config,
          [LogWarning ("Container name [" ++ name
                       ++ "] too long to be used as hostname")])
    else (docker.setDomainname (docker.setHostname config name)
            trimmedDNSDomain, [])
  else (config, []).

(** The search-domain step, lines 148 to 154. *)
Definition dnsSearchStep (dnsDomain : string) (config : ConfigT)
    (hostConfig : HostConfigT) : HostConfigT :=
  if len (docker.DNSSearch hostConfig) =? 0 then
    if String.eqb (docker.Hostname config) ""
    then docker.setDNSSearch hostConfig (Some [dnsDomain])
    else docker.setDNSSearch hostConfig (Some ["."])
  else hostConfig.

(** [setWeaveDNS] reads through [container.HostConfig] and
    [container.Config] without a nil check once it goes on past line 132:
    [None] stands for the run-time panic of a nil dereference. Otherwise the
    result is the body as the function leaves it, the error returned (always
    nil) and the calls made. *)
Definition setWeaveDNS {Bytes : Type} (i : InterceptorT)
    (container : BodyT) (r : Request Bytes)
    : option (BodyT * option error * list event) :=
  if WithoutDNS (proxy i) then Some (container, None, [])
  else
    let '(dnsDomain, dnsRunning, calls) := getDNSDomain i in
    if negb (dnsRunning || WithDNS (proxy i)) then Some (container, None, calls)
    else
      match HostConfig container with
      | None => None
      | Some hostConfig =>
          let hostConfig :=
            docker.setDNS hostConfig
              (append (docker.DNS hostConfig) [dockerBridgeIP (proxy i)]) in
          let name := QueryName r in
          match Config container with
          | None => None
          | Some config =>
              let '(config, logs) := hostnameStep dnsDomain name config in
              let hostConfig := dnsSearchStep dnsDomain config hostConfig in
              Some (mkBody (Some config) (Some hostConfig)
                      (MacAddress container),
                    None, (calls ++ logs)%list)
          end
      end.

(** *** The body's struct under [encoding/json]

    The names under which go-dockerclient's fields travel are those of the
    docker API; whether a field carries [omitempty] is left open
    ([dockerTags]). The two fields this file declares carry it. *)
Record dockerTags : Type := mkTags {
  omitHostname : bool;
  omitDomainname : bool;
  omitCmd : bool;
  omitImage : bool;
  omitEntrypoint : bool;
  omitBinds : bool;
  omitDNS : bool;
  omitDNSSearch : bool
}.

(** The fields of [createContainerRequestBody] that are spelled out, in
    the order of the struct: those the embedded [*docker.Config] lends it,
    then its own two. *)
Inductive bodyField : Type :=
| FHostname | FDomainname | FCmd | FImage | FEntrypoint
| FHostConfig | FMacAddress.

Definition bodyFieldName (f : bodyField) : string :=
  match f with
  | FHostname => "Hostname"
  | FDomainname => "Domainname"
  | FCmd => "Cmd"
  | FImage => "Image"
  | FEntrypoint => "Entrypoint"
  | FHostConfig => "HostConfig"
  | FMacAddress => "MacAddress"
  end.

Definition bodyFields : list bodyField :=
  [FHostname; FDomainname; FCmd; FImage; FEntrypoint; FHostConfig;
   FMacAddress].

Inductive hostConfigField : Type := FBinds | FDNS | FDNSSearch.

Definition hostConfigFieldName (f : hostConfigField) : string :=
  match f with
  | FBinds => "Binds"
  | FDNS => "Dns"
  | FDNSSearch => "DnsSearch"
  end.

Definition hostConfigFields : list hostConfigField :=
  [FBinds; FDNS; FDNSSearch].

(** How the other fields of the two structs travel. [configRestSelects]
    tells whether a key of the body selects one of the other fields that
    [docker.Config] lends it (a field of [docker.Config] named like one the
    body declares itself is hidden by that one, and no key selects it);
    [storeConfigRest] stores the value of such a member, [None] when it
    does not fit the field; [configRestMembers] gives the members the
    encoder writes for them. Likewise for [docker.HostConfig]. *)
Variable configRestSelects : string -> bool.
Variable storeConfigRest :
  string -> json.value -> ConfigRest -> option ConfigRest.
Variable configRestMembers : ConfigRest -> list json.member.
Variable hostRestSelects : string -> bool.
Variable storeHostRest : string -> json.value -> HostRest -> option HostRest.
Variable hostRestMembers : HostRest -> list json.member.

Local Abbreviation ConfigStateT := (configState ConfigRest).
Local Abbreviation HostConfigStateT := (hostConfigState HostRest).
Local Abbreviation BodyStateT := (bodyState ConfigRest HostRest).

(** The members of an object are stored one after the other, a later one
    over an earlier one of the same field; one refused member makes the
    whole decoding fail. *)
Fixpoint storeMembers {S : Type} (store : S -> json.member -> option S)
    (members : list json.member) (s : S) : option S :=
  match members with
  | [] => Some s
  | m :: members' =>
      match store s m with
      | Some s' => storeMembers store members' s'
      | None => None
      end
  end.

(** [docker.HostConfig{}], [docker.Config{}] and
    [createContainerRequestBody{}] *)
Definition zeroHostConfigState : HostConfigStateT :=
  mkHostConfigState None None None zeroHostRest.

Definition zeroConfigState : ConfigStateT :=
  mkConfigState "" "" None "" None zeroConfigRest.

Definition zeroBodyState : BodyStateT := mkBodyState None None "".

Definition storeHostConfigMember (h : HostConfigStateT) (m : json.member)
    : option HostConfigStateT :=
  let '(key, v) := m in
  match
    json.selectField hostConfigFieldName hostConfigFields hostRestSelects key
  with
  | json.NoField => Some h
  | json.Other =>
      option_map
        (fun rest => mkHostConfigState (sBinds h) (sDNS h) (sDNSSearch h) rest)
        (storeHostRest key v (sHostConfigRest h))
  | json.Declared FBinds =>
      option_map
        (fun b =>
           mkHostConfigState b (sDNS h) (sDNSSearch h) (sHostConfigRest h))
        (json.storeSlice v (sBinds h))
  | json.Declared FDNS =>
      option_map
        (fun b =>
           mkHostConfigState (sBinds h) b (sDNSSearch h) (sHostConfigRest h))
        (json.storeSlice v (sDNS h))
  | json.Declared FDNSSearch =>
      option_map
        (fun b => mkHostConfigState (sBinds h) (sDNS h) b (sHostConfigRest h))
        (json.storeSlice v (sDNSSearch h))
  end.

(** Into the field [HostConfig], a pointer: [null] makes it nil, an object
    is stored into the struct it points to, allocated if need be. *)
Definition storeHostConfig (v : json.value) (old : option HostConfigStateT)
    : option (option HostConfigStateT) :=
  match v with
  | json.Null => Some None
  | json.Obj members =>
      option_map Some
        (storeMembers storeHostConfigMember members
           (match old with
            | Some h => h
            | None => zeroHostConfigState
            end))
  | _ => None
  end.

(** A key that selects a field of the embedded [*docker.Config] allocates
    it if it is nil; a key that selects no field is skipped. *)
Definition storeBodyMember (c : BodyStateT) (m : json.member)
    : option BodyStateT :=
  let '(key, v) := m in
  let config :=
    match sConfig c with
    | Some config => config
    | None => zeroConfigState
    end in
  let inConfig (config' : ConfigStateT) :=
    mkBodyState (Some config') (sHostConfig c) (sMacAddress c) in
  match json.selectField bodyFieldName bodyFields configRestSelects key with
  | json.NoField => Some c
  | json.Other =>
      option_map
        (fun rest =>
           inConfig
             (mkConfigState (sHostname config) (sDomainname config)
                (sCmd config) (sImage config) (sEntrypoint config) rest))
        (storeConfigRest key v (sConfigRest config))
  | json.Declared FHostname =>
      option_map
        (fun s =>
           inConfig
             (mkConfigState s (sDomainname config) (sCmd config)
                (sImage config) (sEntrypoint config) (sConfigRest config)))
        (json.storeString v (sHostname config))
  | json.Declared FDomainname =>
      option_map
        (fun s =>
           inConfig
             (mkConfigState (sHostname config) s (sCmd config)
                (sImage config) (sEntrypoint config) (sConfigRest config)))
        (json.storeString v (sDomainname config))
  | json.Declared FCmd =>
      option_map
        (fun b =>
           inConfig
             (mkConfigState (sHostname config) (sDomainname config) b
                (sImage config) (sEntrypoint config) (sConfigRest config)))
        (json.storeSlice v (sCmd config))
  | json.Declared FImage =>
      option_map
        (fun s =>
           inConfig
             (mkConfigState (sHostname config) (sDomainname config)
                (sCmd config) s (sEntrypoint config) (sConfigRest config)))
        (json.storeString v (sImage config))
  | json.Declared FEntrypoint =>
      option_map
        (fun b =>
           inConfig
             (mkConfigState (sHostname config) (sDomainname config)
                (sCmd config) (sImage config) b (sConfigRest config)))
        (json.storeSlice v (sEntrypoint config))
  | json.Declared FHostConfig =>
      option_map (fun h => mkBodyState (sConfig c) h (sMacAddress c))
        (storeHostConfig v (sHostConfig c))
  | json.Declared FMacAddress =>
      option_map (fun s => mkBodyState (sConfig c) (sHostConfig c) s)
        (json.storeString v (sMacAddress c))
  end.

(** The structs as the program sees them once decoding is over. *)
Definition sealConfig (s : ConfigStateT) : ConfigT :=
  docker.mkConfig (sHostname s) (sDomainname s) (json.visible (sCmd s))
    (sImage s) (json.visible (sEntrypoint s)) (sConfigRest s).

Definition sealHostConfig (s : HostConfigStateT) : HostConfigT :=
  docker.mkHostConfig (json.visible (sBinds s)) (json.visible (sDNS s))
    (json.visible (sDNSSearch s)) (sHostConfigRest s).

Definition sealBody (s : BodyStateT) : BodyT :=
  mkBody (option_map sealConfig (sConfig s))
    (option_map sealHostConfig (sHostConfig s)) (sMacAddress s).

(** [json.Unmarshal] of a parsed document into the zero body, while it
    runs. *)
Definition decodeState (doc : json.value) : option BodyStateT :=
  match doc with
  | json.Null => Some zeroBodyState
  | json.Obj members => storeMembers storeBodyMember members zeroBodyState
  | _ => None
  end.

(** [json.Unmarshal] of a parsed document into the zero body. *)
Definition decodeBody (doc : json.value) : option BodyT :=
  option_map sealBody (decodeState doc).

Variable tags : dockerTags.

(** The members the encoder writes for the fields spelled out, in the
    order of the struct. Where the members of the other fields stand among
    them is not reproduced: they are listed after. *)
Definition configMembers (config : ConfigT) : list json.member :=
  (json.stringMember (omitHostname tags) (bodyFieldName FHostname)
     (docker.Hostname config)
   ++ json.stringMember (omitDomainname tags) (bodyFieldName FDomainname)
        (docker.Domainname config)
   ++ json.sliceMember (omitCmd tags) (bodyFieldName FCmd)
        (docker.Cmd config)
   ++ json.stringMember (omitImage tags) (bodyFieldName FImage)
        (docker.Image config)
   ++ json.sliceMember (omitEntrypoint tags) (bodyFieldName FEntrypoint)
        (docker.Entrypoint config))%list.

Definition hostConfigMembers (h : HostConfigT) : list json.member :=
  (json.sliceMember (omitBinds tags) (hostConfigFieldName FBinds)
     (docker.Binds h)
   ++ json.sliceMember (omitDNS tags) (hostConfigFieldName FDNS)
        (docker.DNS h)
   ++ json.sliceMember (omitDNSSearch tags) (hostConfigFieldName FDNSSearch)
        (docker.DNSSearch h))%list.

(** The members [json.Marshal] writes for a body: the fields of the
    embedded configuration unless the pointer is nil, [HostConfig] unless it
    is nil, [MacAddress] unless it is empty. *)
Definition bodyMembers (c : BodyT) : list json.member :=
  (match Config c with
   | Some config =>
       configMembers config ++ configRestMembers (docker.ConfigRest config)
   | None => []
   end
   ++ match HostConfig c with
      | Some h =>
          [(bodyFieldName FHostConfig,
            json.Obj (hostConfigMembers h
                      ++ hostRestMembers (docker.HostConfigRest h)))]
      | None => []
      end
   ++ json.stringMember true (bodyFieldName FMacAddress) (MacAddress c))%list.

Definition encodeBody (c : BodyT) : json.value :=
  json.Obj (bodyMembers c).

(** The text of documents: parsing, printing, and the length in bytes. *)
Variable Bytes : Type.
Variable jsonParse : Bytes -> result foreignError json.value.
Variable jsonText : json.value -> Bytes.
Variable byteLen : Bytes -> Z.

(** The error of a document that does not fit the struct; its text is not
    modelled. *)
Definition json_UnmarshalTypeError : foreignError :=
  otherError "json: cannot unmarshal".

Definition json_Unmarshal (data : Bytes) : result foreignError BodyT :=
  match jsonParse data with
  | Err err => Err err
  | Ok doc =>
      match decodeBody doc with
      | Some container => Ok container
      | None => Err json_UnmarshalTypeError
      end
  end.

Definition json_Marshal (container : BodyT) : result foreignError Bytes :=
  Ok (jsonText (encodeBody container)).

(** ** InterceptRequest *)

(** Lines 73 to 80: the body is encoded anew and put into the request
    together with its length. *)
Definition forward (r : Request Bytes) (container : BodyT)
    : result error (Request Bytes) :=
  match json_Marshal container with
  | Err err => Err (Foreign err)
  | Ok newBody => Ok (mkRequest (Ok newBody) (byteLen newBody) (QueryName r))
  end.

(** The outcome of a request: [None] for a run-time panic; otherwise the
    request to forward or the error returned, and the calls and log lines
    made on the way. *)
Definition InterceptRequest (i : InterceptorT) (r : Request Bytes)
    : option (result error (Request Bytes) * list event) :=
  match Body r with
  | Err err => Some (Err (Foreign err), [])
  | Ok body =>
      match json_Unmarshal body with
      | Err err => Some (Err (Foreign err), [])
      | Ok container =>
          match weaveCIDRsFromConfig (proxy i) (Config container)
                  (HostConfig container) with
          | Err err =>
              Some (forward r container,
                    [LogInfo ("Ignoring container due to "
                              ++ foreignError_Error err)])
          | Ok cidrs =>
              let info :=
                LogInfo ("Creating container with WEAVE_CIDR " ++ dquote
                         ++ strings_Join cidrs " " ++ dquote) in
              let hostConfig :=
                match HostConfig container with
                | Some h => h
                | None => docker.zeroHostConfig zeroHostRest
                end in
              let config :=
                match Config container with
                | Some config => config
                | None => docker.zeroConfig zeroConfigRest
                end in
              let hostConfig := addWeaveWaitVolume i hostConfig in
              match setWeaveWaitEntrypoint i config with
              | None => None
              | Some (config, Some err, calls) =>
                  Some (Err err, info :: calls)
              | Some (config, None, calls) =>
                  match setWeaveDNS i
                          (mkBody (Some config) (Some hostConfig)
                             (MacAddress container)) r with
                  | None => None
                  | Some (container, Some err, calls') =>
                      Some (Err err, info :: (calls ++ calls')%list)
                  | Some (container, None, calls') =>
                      Some (forward r container,
                            info :: (calls ++ calls')%list)
                  end
              end
          end
      end
  end.

(** ** Notions the statements use *)

(** In the specification's words: the mount target of a bind is its second
    field between colons, and an entry mounts the support path when it has
    that field and the field is [/w]. [mountsW] above is the test as the
    code writes it. *)
Definition targetIsW (bind : string) : bool :=
  match strings_Split bind ":"%char with
  | _ :: target :: _ => String.eqb target "/w"
  | _ => false
  end.

(** An entry the volume injector keeps. *)
Definition keepBind (bind : string) : bool := negb (targetIsW bind).

(** Whether the byte [c] occurs in [s]. *)
Fixpoint hasByte (c : ascii) (s : string) : bool :=
  match s with
  | EmptyString => false
  | String a s' => Ascii.eqb a c || hasByte c s'
  end.

(** The entry the volume injector appends. *)
Definition supportBind (i : InterceptorT) : string :=
  weaveWaitVolume (proxy i) ++ ":/w:ro".

(** The outcome of step 1 of the entrypoint wrapper (the image is looked
    up only for an empty entrypoint): the configuration after it or the
    error of the lookup, [None] when the step panics. *)
Definition afterImageDefaults (i : InterceptorT) (container : ConfigT)
    : option (result foreignError ConfigT) :=
  if len (docker.Entrypoint container) =? 0 then
    match InspectImage (client (proxy i)) (docker.Image container) with
    | Err err => Some (Err err)
    | Ok image => option_map Ok (imageDefaults container image)
    end
  else Some (Ok container).

(** Nothing to run: entrypoint and command are both empty. *)
Definition nothingToRun (container : ConfigT) : bool :=
  (len (docker.Entrypoint container) =? 0)
  && (len (docker.Cmd container) =? 0).

(** An entrypoint counts as wrapped when its first element is the first
    element of the wrapper sequence. *)
Definition alreadyWrapped (entrypoint : Slice) : bool :=
  match elems entrypoint with
  | first :: _ => String.eqb first weaveWaitBinary
  | [] => false
  end.

(** The wrapper sequence put in front of an entrypoint. *)
Definition wrapped (entrypoint : Slice) : Slice :=
  Some (weaveWaitEntrypoint ++ elems entrypoint)%list.

(** When the DNS step goes on: the name service runs or DNS is forced. *)
Definition dnsProceeds (i : InterceptorT) : bool :=
  negb (WithoutDNS (proxy i))
  && (snd (fst (getDNSDomain i)) || WithDNS (proxy i)).

(** The domain the DNS step works with. *)
Definition dnsDomainOf (i : InterceptorT) : string :=
  fst (fst (getDNSDomain i)).


(** The configuration behind [container.Config], the zero one for nil. *)
Definition configOf (c : BodyT) : ConfigT :=
  match Config c with
  | Some config => config
  | None => docker.zeroConfig zeroConfigRest
  end.

(** The host configuration behind [container.HostConfig], the zero one
    for nil. *)
Definition hostConfigOf (c : BodyT) : HostConfigT :=
  match HostConfig c with
  | Some h => h
  | None => docker.zeroHostConfig zeroHostRest
  end.

(** The hostname a body ends with, when [setWeaveDNS] returns. *)
Definition hostnameAfter
    (out : option (BodyT * option error * list event)) : option string :=
  match out with
  | Some (container, _, _) => option_map docker.Hostname (Config container)
  | None => None
  end.

(** The line logged for a container that gets addresses. *)
Definition creatingLine (cidrs : list string) : event :=
  LogInfo ("Creating container with WEAVE_CIDR " ++ dquote
           ++ strings_Join cidrs " " ++ dquote).

(** The number of occurrences of the byte [c] in [s]. *)
Fixpoint countByte (c : ascii) (s : string) : nat :=
  match s with
  | EmptyString => 0%nat
  | String a s' => ((if Ascii.eqb a c then 1 else 0) + countByte c s')%nat
  end.

(** The document values a field of type [string] takes. *)
Definition fitsString (v : json.value) : bool :=
  match v with
  | json.Null | json.Str _ => true
  | _ => false
  end.

(** The document values a struct, or a pointer to one, takes. *)
Definition fitsStruct (v : json.value) : bool :=
  match v with
  | json.Null | json.Obj _ => true
  | _ => false
  end.

(** The fields of the body that are of type [string]. *)
Definition stringFields : list bodyField :=
  [FHostname; FDomainname; FImage; FMacAddress].

(** ** InterceptResponse

    The response passes through: the function returns nil. *)
Definition InterceptResponse (i : InterceptorT) (r : Response)
    : option error :=
  None.

(** ** Decoding, field by field

    [json.Unmarshal] stores the members of a document one after the
    other. The notions below read off a document what ends up in one
    field, for the statements to compare the two. *)





Definition selectsOther (key : string) : bool :=
  match json.selectField bodyFieldName bodyFields configRestSelects key with
  | json.Other => true
  | _ => false
  end.


Definition selectsNothing (key : string) : bool :=
  match json.selectField bodyFieldName bodyFields configRestSelects key with
  | json.NoField => true
  | _ => false
  end.


Definition hostSelectsOther (key : string) : bool :=
  match
    json.selectField hostConfigFieldName hostConfigFields hostRestSelects key
  with
  | json.Other => true
  | _ => false
  end.





(** The other fields after the members that select them are stored, in
    their order, over [start]. *)
Definition restAfter {Rest : Type}
    (store : string -> json.value -> Rest -> option Rest)
    (sel : string -> bool) (members : list json.member) (start : Rest)
    : option Rest :=
  storeMembers (fun rest m => store (fst m) (snd m) rest)
    (filter (fun m => sel (fst m)) members) start.

(** A slice of the decoder lies within its backing array. *)
Definition withinArray (b : json.buffer) : Prop :=
  match b with
  | None => True
  | Some (backing, n) => (n <= List.length backing)%nat
  end.




(** The configuration behind the pointer while decoding runs, the zero
    one for nil; likewise the host configuration. *)
Definition configStateOf (s : BodyStateT) : ConfigStateT :=
  match sConfig s with
  | Some config => config
  | None => zeroConfigState
  end.


(** ** The encoder's form

    What the statements on documents written by [json.Marshal] refer
    to. *)

(** The slice the decoder builds in a new struct from what the encoder
    wrote for [s]: nothing was written for an empty slice with [omitempty],
    and the slice stays nil. *)
Definition freshBuffer (omitempty : bool) (s : Slice) : json.buffer :=
  if omitempty && (len s =? 0) then None
  else
    match json.storeSlice (json.sliceValue s) None with
    | Some b => b
    | None => None
    end.

(** The other fields come back from their own encoding: the keys of the
    members written for them select them, and storing these members into
    the zero value succeeds and gives a value that is written the same
    way. *)
Definition configRestReturns : Prop :=
  forall rest,
    Forall (fun m => selectsOther (fst m) = true) (configRestMembers rest)
    /\ exists rest',
         restAfter storeConfigRest selectsOther (configRestMembers rest)
           zeroConfigRest = Some rest'
         /\ configRestMembers rest' = configRestMembers rest.

Definition hostRestReturns : Prop :=
  forall rest,
    Forall (fun m => hostSelectsOther (fst m) = true) (hostRestMembers rest)
    /\ exists rest',
         restAfter storeHostRest hostSelectsOther (hostRestMembers rest)
           zeroHostRest = Some rest'
         /\ hostRestMembers rest' = hostRestMembers rest.

(** ** Sample collaborators and requests

    Concrete values on which the statements below are exercised. Of the
    other fields of [docker.Config] they carry [User], of those of
    [docker.HostConfig] they carry [NetworkMode]; both are strings that the
    encoder leaves out when empty. *)
Definition userSelects (key : string) : bool := json.equalFold "User" key.

Definition storeUser (key : string) (v : json.value) (user : string)
    : option string :=
  json.storeString v user.

Definition userMembers (user : string) : list json.member :=
  json.stringMember true "User" user.

Definition networkModeSelects (key : string) : bool :=
  json.equalFold "NetworkMode" key.

Definition storeNetworkMode (key : string) (v : json.value) (mode : string)
    : option string :=
  json.storeString v mode.

Definition networkModeMembers (mode : string) : list json.member :=
  json.stringMember true "NetworkMode" mode.

Definition sampleConfig : Type := docker.Config string.
Definition sampleHostConfig : Type := docker.HostConfig string.
Definition sampleBodyT : Type := createContainerRequestBody string string.
Definition sampleInterceptorT : Type := createContainerInterceptor string string.

(** An image with the entrypoint [/bin/sh -c] and an empty command. *)
Definition shellConfig : sampleConfig :=
  docker.mkConfig "" "" (Some []) "" (Some ["/bin/sh"; "-c"]) "".

Definition shellImage : docker.APIImage string :=
  docker.mkImage (Some shellConfig).

(** An image that comes without a configuration. *)
Definition bareImage : docker.APIImage string := docker.mkImage None.

(** A docker client that knows every image as [shellImage] and sees the
    name service's container at an address. *)
Definition sampleClient : Client string :=
  mkClient
    (fun _ => Ok shellImage)
    (fun _ =>
       Ok (docker.mkContainer (Some (docker.mkNetworkSettings "10.32.0.2")))).

(** The name service answers with its domain. *)
Definition sampleGet (url : string) : result foreignError Response :=
  Ok (mkResponse 200 (Ok "weave.local.")).

(** The name service cannot be reached. *)
Definition failingGet (url : string) : result foreignError Response :=
  Err (otherError "connection refused").

(** A proxy whose resolver assigns an address. *)
Definition sampleProxy : Proxy string string :=
  mkProxy false false "/var/lib/weave/w" "172.17.42.1" sampleClient
    (fun _ _ => Ok ["10.2.1.1/24"]).

Definition sampleInterceptor : sampleInterceptorT :=
  mkInterceptor sampleProxy.

(** A proxy whose resolver turns every container down. *)
Definition ignoringInterceptor : sampleInterceptorT :=
  mkInterceptor
    (mkProxy false false "/var/lib/weave/w" "172.17.42.1" sampleClient
       (fun _ _ => Err (otherError "no address requested"))).

(** A proxy whose support volume has a colon in its path. *)
Definition colonInterceptor : sampleInterceptorT :=
  mkInterceptor
    (mkProxy false false "a:b" "172.17.42.1" sampleClient
       (fun _ _ => Ok ["10.2.1.1/24"])).

(** A docker client that knows every image as [bareImage]. *)
Definition bareInterceptor : sampleInterceptorT :=
  mkInterceptor
    (mkProxy false false "/var/lib/weave/w" "172.17.42.1"
       (mkClient (fun _ => Ok bareImage)
          (fun _ => Err (otherError "no such container")))
       (fun _ _ => Ok ["10.2.1.1/24"])).

(** A choice of options: [Cmd] and [Entrypoint] are always written, the
    other fields only when not empty. *)
Definition sampleTags : dockerTags :=
  mkTags true true false true false true true true.

Definition busybox : sampleConfig :=
  docker.mkConfig "" "" None "busybox" None "".

Definition sampleBody : sampleBodyT :=
  mkBody (Some busybox) (Some (docker.zeroHostConfig "")) "".

(** A request whose body is taken as the document itself. *)
Definition sampleRequest (doc : json.value) (name : string)
    : Request json.value :=
  mkRequest (Ok doc) 0 name.

(** The size of a document, standing in for the length of its text. *)
Definition docSize (doc : json.value) : Z :=
  match doc with
  | json.Obj members => Z.of_nat (List.length members)
  | _ => 0
  end.

(** Binds with a stale entry for [/w]. *)
Definition staleBinds : sampleHostConfig :=
  docker.mkHostConfig (Some ["/data:/w:rw"; "/home:/home"]) None None "host".

(** An entrypoint that is present but empty, and no command. *)
Definition emptyEntrypoint : sampleConfig :=
  docker.mkConfig "" "" None "busybox" (Some []) "".

(** An entrypoint that starts with the wrapper and goes on. *)
Definition wrappedAlready : sampleConfig :=
  docker.mkConfig "" "" None "busybox" (Some ["/w/w"; "-s"; "top"]) "".

(** An entrypoint and a command of the user's own. *)
Definition listing : sampleConfig :=
  docker.mkConfig "" "" (Some ["-l"]) "busybox" (Some ["/bin/ls"]) "".


(** A document as the encoder writes it. *)
Definition plainDoc : json.value :=
  json.Obj [("Cmd", json.Null); ("Image", json.Str "busybox");
            ("Entrypoint", json.Null);
            ("MacAddress", json.Str "02:42:ac:11:00:02")].

Definition plainBody : sampleBodyT :=
  mkBody (Some busybox) None "02:42:ac:11:00:02".

(** A name of [n] bytes. *)
Fixpoint letters (n : nat) : string :=
  match n with
  | O => ""
  | S n' => String "a" (letters n')
  end.

(** Binds whose only entry is the path [/w], without a colon. *)
Definition bareBinds : sampleHostConfig :=
  docker.mkHostConfig (Some ["/w"]) None None "".

(** An entrypoint reset to the empty sequence, and a command. *)
Definition resetEntrypoint : sampleConfig :=
  docker.mkConfig "" "" (Some ["top"]) "busybox" (Some []) "".

(** A configuration whose hostname the client chose. *)
Definition namedHost : sampleConfig :=
  docker.mkConfig "db" "" None "busybox" None "".

Definition namedBody : sampleBodyT :=
  mkBody (Some namedHost) (Some (docker.zeroHostConfig "")) "".




(** A document with a member the struct has no field for. *)
Definition labelledDoc : json.value :=
  json.Obj [("Image", json.Str "busybox"); ("X-Request-Note", json.Obj []);
            ("MacAddress", json.Str "02:42:ac:11:00:02")].

(** A document whose [MacAddress] is a number. *)
Definition numericMacDoc : json.value :=
  json.Obj [("Image", json.Str "busybox"); ("MacAddress", json.Number "7")].

(** A docker client that knows no image. *)
Definition emptyRegistry : sampleInterceptorT :=
  mkInterceptor
    (mkProxy false false "/var/lib/weave/w" "172.17.42.1"
       (mkClient (fun _ => Err docker_ErrNoSuchImage)
          (fun _ => Err (otherError "no such container")))
       (fun _ _ => Ok ["10.2.1.1/24"])).

(** A proxy with DNS integration switched off. *)
Definition plainInterceptor : sampleInterceptorT :=
  mkInterceptor
    (mkProxy true false "/var/lib/weave/w" "172.17.42.1" sampleClient
       (fun _ _ => Ok ["10.2.1.1/24"])).

(** * Properties *)

(** Hypotheses taken apart. *)
Ltac open_hyps :=
  repeat match goal with
    | H : exists _, _ |- _ => destruct H
    | H : _ /\ _ |- _ => destruct H
    | H : Some _ = Some _ |- _ => inversion H; clear H; subst
    | H : Ok _ = Ok _ |- _ => inversion H; clear H; subst
    | H : Err _ = Err _ |- _ => inversion H; clear H; subst
    | H : (_, _) = (_, _) |- _ => inversion H; clear H; subst
    end.

(** The parameters of the section a statement does not mention, put
    aside. *)
Ltac forget_parameters :=
  try clear byteLen; try clear jsonText; try clear jsonParse;
  try clear Bytes; try clear tags; try clear hostRestMembers;
  try clear storeHostRest; try clear hostRestSelects;
  try clear configRestMembers; try clear storeConfigRest;
  try clear configRestSelects; try clear zeroHostRest;
  try clear zeroConfigRest; try clear http_Get;
  try clear nameserver_DefaultHTTPPort;
  try clear nameserver_DefaultLocalDomain;
  try clear weaveWaitArgs; try clear weaveWaitBinary.

(** ** The volume injector *)

Lemma mountsW_targetIsW (bind : string) : mountsW bind = targetIsW bind.
Proof.
  unfold mountsW, targetIsW.
  destruct (strings_Split bind ":") as [|f [|target rest]];
    try reflexivity.
  cbn [List.length nth].
  assert (Hlen : (2 <=? Z.of_nat (S (S (List.length rest)))) = true)
    by (apply Z.leb_le; lia).
  now rewrite Hlen.
Qed.

(** Splitting at the first separator. *)
Lemma strings_Split_first (sep : ascii) (s rest : string) :
  hasByte sep s = false ->
  strings_Split (s ++ String sep rest) sep = s :: strings_Split rest sep.
Proof.
  induction s as [|c s IH]; simpl; intros Hno.
  - now rewrite Ascii.eqb_refl.
  - apply orb_false_iff in Hno. destruct Hno as [Hc Hs].
    rewrite Hc, (IH Hs). reflexivity.
Qed.

Lemma targetIsW_supportBind (i : InterceptorT) :
  hasByte ":" (weaveWaitVolume (proxy i)) = false ->
  targetIsW (supportBind i) = true.
Proof.
  intros Hno. unfold targetIsW, supportBind.
  change ":/w:ro" with (String ":" "/w:ro").
  rewrite (strings_Split_first _ _ _ Hno). reflexivity.
Qed.

(** The loop of [addWeaveWaitVolume] is a filter. *)
Lemma addWeaveWaitVolume_loop (l : list string) (binds : Slice) :
  elems
    (fold_left
       (fun (binds : Slice) (bind : string) =>
          if mountsW bind then binds else append binds [bind]) l binds)
  = (elems binds ++ filter keepBind l)%list.
Proof.
  revert binds. induction l as [|bind l IH]; intros binds; simpl.
  - now rewrite app_nil_r.
  - rewrite IH. unfold keepBind at 2. rewrite <- mountsW_targetIsW.
    destruct (mountsW bind); simpl; [reflexivity|].
    now rewrite <- app_assoc.
Qed.

Lemma filter_keepBind_idem (l : list string) :
  filter keepBind (filter keepBind l) = filter keepBind l.
Proof.
  induction l as [|b l IH]; simpl; [reflexivity|].
  destruct (keepBind b) eqn:Hb; simpl; [rewrite Hb, IH|]; auto.
Qed.

Lemma addWeaveWaitVolume_Binds (i : InterceptorT)
    (hostConfig : HostConfigT) :
  docker.Binds (addWeaveWaitVolume i hostConfig)
  = Some (filter keepBind (elems (docker.Binds hostConfig))
          ++ [supportBind i])%list.
Proof.
  unfold addWeaveWaitVolume. simpl. unfold append.
  now rewrite addWeaveWaitVolume_loop.
Qed.

(** C5, as amended. For every binds sequence, nil or not,
    [addWeaveWaitVolume] leaves a non-nil sequence made of the original
    entries whose mount target (second field between colons) is not [/w],
    in their order, followed by the one entry [<weaveWaitVolume>:/w:ro]; it
    is a function of the host configuration alone (no call, no failure) and
    changes nothing else in it. Applying it twice gives what applying it
    once gives, provided the source path holds no colon. *)
Theorem addWeaveWaitVolume_filters_then_appends
    (i : InterceptorT) (hostConfig : HostConfigT) :
  addWeaveWaitVolume i hostConfig
  = docker.mkHostConfig
      (Some (filter (fun bind => negb (targetIsW bind))
               (elems (docker.Binds hostConfig))
             ++ [supportBind i])%list)
      (docker.DNS hostConfig) (docker.DNSSearch hostConfig)
      (docker.HostConfigRest hostConfig)
  /\ (hasByte ":" (weaveWaitVolume (proxy i)) = false ->
      addWeaveWaitVolume i (addWeaveWaitVolume i hostConfig)
      = addWeaveWaitVolume i hostConfig).
Proof.
  assert (Hshape : forall h,
    addWeaveWaitVolume i h
    = docker.mkHostConfig
        (Some (filter keepBind (elems (docker.Binds h)) ++ [supportBind i])%list)
        (docker.DNS h) (docker.DNSSearch h) (docker.HostConfigRest h)).
  { intros h. pose proof (addWeaveWaitVolume_Binds i h) as Hb.
    unfold addWeaveWaitVolume in *. simpl in *. now rewrite Hb. }
  split; [apply Hshape|].
  intros Hno. rewrite (Hshape (addWeaveWaitVolume i hostConfig)).
  rewrite (Hshape hostConfig). simpl.
  rewrite filter_app, filter_keepBind_idem. simpl.
  unfold keepBind at 2. rewrite (targetIsW_supportBind i Hno). simpl.
  now rewrite app_nil_r.
Qed.

(** ** The entrypoint wrapper *)

Lemma setEntrypoint_same (c : ConfigT) :
  docker.setEntrypoint c (docker.Entrypoint c) = c.
Proof. now destruct c. Qed.

(** What lines 113 to 121 do. *)
Lemma wrapEntrypoint_spec (c : ConfigT) :
  wrapEntrypoint c
  = if nothingToRun c then (c, Some ErrNoCommandSpecified)
    else if alreadyWrapped (docker.Entrypoint c) then (c, None)
    else (docker.setEntrypoint c (wrapped (docker.Entrypoint c)), None).
Proof.
  unfold wrapEntrypoint, nothingToRun, alreadyWrapped, wrapped.
  destruct ((len (docker.Entrypoint c) =? 0) && (len (docker.Cmd c) =? 0));
    [reflexivity|].
  destruct (elems (docker.Entrypoint c)) as [|first rest]; simpl.
  - now rewrite app_nil_r.
  - destruct (String.eqb first weaveWaitBinary); reflexivity.
Qed.

(** The function in terms of its two steps. *)
Lemma setWeaveWaitEntrypoint_steps (i : InterceptorT) (c : ConfigT) :
  setWeaveWaitEntrypoint i c
  = let calls :=
      if len (docker.Entrypoint c) =? 0
      then [CallInspectImage (docker.Image c)] else [] in
    match afterImageDefaults i c with
    | None => None
    | Some (Err docker_ErrNoSuchImage) =>
        Some (c, Some (ErrNoSuchImage (docker.Image c)), calls)
    | Some (Err err) => Some (c, Some (Foreign err), calls)
    | Some (Ok c1) =>
        Some (fst (wrapEntrypoint c1), snd (wrapEntrypoint c1), calls)
    end.
Proof.
  unfold setWeaveWaitEntrypoint, afterImageDefaults.
  destruct (len (docker.Entrypoint c) =? 0).
  - destruct (InspectImage (client (proxy i)) (docker.Image c)) as [image|err].
    + destruct (imageDefaults c image) as [c1|]; cbn [option_map];
        [|reflexivity].
      now destruct (wrapEntrypoint c1).
    + now destruct err.
  - now destruct (wrapEntrypoint c).
Qed.

Lemma len_zero_iff (s : Slice) : (len s =? 0) = true <-> len s = 0.
Proof. apply Z.eqb_eq. Qed.

Lemma len_nonneg (s : Slice) : 0 <= len s.
Proof. unfold len. lia. Qed.

(** The image-default step on an image that has a configuration, and on
    one that has none. *)
Lemma imageDefaults_Some (c : ConfigT) (image : ImageT)
    (imageConfig : ConfigT) :
  docker.ImageConfig image = Some imageConfig ->
  imageDefaults c image
  = Some
      (docker.setEntrypoint
         (docker.setCmd c
            (if len (docker.Cmd c) =? 0 then docker.Cmd imageConfig
             else docker.Cmd c))
         match docker.Entrypoint c with
         | None => docker.Entrypoint imageConfig
         | Some _ => docker.Entrypoint c
         end).
Proof.
  intros Himg. unfold imageDefaults. rewrite Himg.
  destruct c as [h d cmd img [e|] rest]; simpl;
    destruct (len cmd =? 0); reflexivity.
Qed.

Lemma imageDefaults_None (c : ConfigT) (image : ImageT) :
  docker.ImageConfig image = None ->
  imageDefaults c image
  = if (len (docker.Cmd c) =? 0)
       || match docker.Entrypoint c with
          | None => true
          | Some _ => false
          end
    then None else Some c.
Proof.
  intros Himg. unfold imageDefaults. rewrite Himg.
  destruct c as [h d cmd img [e|] rest]; simpl;
    destruct (len cmd =? 0); reflexivity.
Qed.

Lemma afterImageDefaults_Err (i : InterceptorT) (c : ConfigT)
    (err : foreignError) :
  afterImageDefaults i c = Some (Err err) <->
  len (docker.Entrypoint c) = 0
  /\ InspectImage (client (proxy i)) (docker.Image c) = Err err.
Proof using Type.
  clear. unfold afterImageDefaults.
  destruct (len (docker.Entrypoint c) =? 0) eqn:Hlen.
  - apply Z.eqb_eq in Hlen.
    destruct (InspectImage (client (proxy i)) (docker.Image c)) as [image|e].
    + split; [|intros [_ H]; discriminate].
      destruct (imageDefaults c image); discriminate.
    + split; [intros H; now inversion H|]. intros [_ H]. now inversion H.
  - apply Z.eqb_neq in Hlen. split; [discriminate|]. intros [H _]. tauto.
Qed.

(** The outcome of [setWeaveWaitEntrypoint] when the inspection of the
    image succeeds, by what the image and the configuration hold. *)
Lemma setWeaveWaitEntrypoint_inspected (i : InterceptorT) (c : ConfigT)
    (image : ImageT) :
  len (docker.Entrypoint c) = 0 ->
  InspectImage (client (proxy i)) (docker.Image c) = Ok image ->
  match docker.ImageConfig image with
  | Some imageConfig =>
      exists c',
        setWeaveWaitEntrypoint i c
        = Some (c',
                if (len (docker.Cmd c) =? 0)
                   && (len (docker.Cmd imageConfig) =? 0)
                   && match docker.Entrypoint c with
                      | None => len (docker.Entrypoint imageConfig) =? 0
                      | Some _ => true
                      end
                then Some ErrNoCommandSpecified else None,
                [CallInspectImage (docker.Image c)])
  | None =>
      if (len (docker.Cmd c) =? 0)
         || match docker.Entrypoint c with
            | None => true
            | Some _ => false
            end
      then setWeaveWaitEntrypoint i c = None
      else exists c',
             setWeaveWaitEntrypoint i c
             = Some (c', None, [CallInspectImage (docker.Image c)])
  end.
Proof using Type.
  clear. intros Hlen Hins.
  assert (Hwrap : forall c1,
    exists c', (fst (wrapEntrypoint c1), snd (wrapEntrypoint c1))
               = (c', if (len (docker.Entrypoint c1) =? 0)
                         && (len (docker.Cmd c1) =? 0)
                      then Some ErrNoCommandSpecified else None)).
  { intros c1. unfold wrapEntrypoint.
    destruct ((len (docker.Entrypoint c1) =? 0) && (len (docker.Cmd c1) =? 0));
      [now eexists|].
    destruct (elems (docker.Entrypoint c1)) as [|first rest];
      [now eexists|].
    destruct (String.eqb first weaveWaitBinary); now eexists. }
  rewrite setWeaveWaitEntrypoint_steps. cbv zeta.
  unfold afterImageDefaults.
  rewrite (proj2 (len_zero_iff _) Hlen), Hins.
  destruct (docker.ImageConfig image) as [imageConfig|] eqn:Himg.
  - rewrite (imageDefaults_Some c image imageConfig Himg). cbn [option_map].
    match goal with
    | |- context [wrapEntrypoint ?c1] =>
        destruct (Hwrap c1) as [c' Hc']; exists c'
    end.
    inversion Hc' as [[Hfst Hsnd]]. rewrite Hfst, Hsnd.
    cbn [docker.setEntrypoint docker.setCmd docker.Entrypoint docker.Cmd].
    do 3 f_equal.
    destruct (docker.Entrypoint c) as [e|] eqn:Hent.
    + rewrite (proj2 (len_zero_iff _) Hlen).
      destruct (len (docker.Cmd c) =? 0) eqn:Hcmd; rewrite ?Hcmd;
        destruct (len (docker.Cmd imageConfig) =? 0); reflexivity.
    + destruct (len (docker.Cmd c) =? 0) eqn:Hcmd; rewrite ?Hcmd;
        destruct (len (docker.Cmd imageConfig) =? 0);
        destruct (len (docker.Entrypoint imageConfig) =? 0); reflexivity.
  - rewrite (imageDefaults_None c image Himg).
    destruct ((len (docker.Cmd c) =? 0)
              || match docker.Entrypoint c with
                 | None => true
                 | Some _ => false
                 end) eqn:Hpanic; cbn [option_map]; [reflexivity|].
    destruct (Hwrap c) as [c' Hc']. exists c'.
    inversion Hc' as [[Hfst Hsnd]]. rewrite Hfst, Hsnd.
    apply orb_false_iff in Hpanic. destruct Hpanic as [Hcmd _].
    rewrite Hcmd. now rewrite andb_false_r.
Qed.

(** C2. [setWeaveWaitEntrypoint] returns [ErrNoSuchImage] exactly when the
    entrypoint is empty and the image inspection reports
    [docker.ErrNoSuchImage], and then with the image of the configuration;
    it returns any other error of the inspection as it is. It returns
    [ErrNoCommandSpecified] exactly when the entrypoint is empty, the
    inspection yields an image with a configuration, the command is empty
    in the container's and in the image's configuration and, if the
    entrypoint is unset, the image's entrypoint is empty too. It succeeds
    exactly when the entrypoint is not empty, or the inspection yields an
    image and either the image has a configuration and one of the
    container's command, the image's command and (for an unset entrypoint)
    the image's entrypoint is not empty, or the image has none and the
    container has a command and an entrypoint that is present. In the one
    remaining case it does not return: the entrypoint is empty, the
    inspection yields an image without configuration ([image.Config] is
    nil), and the command is empty or the entrypoint unset, so that line
    105 or line 109 reads through the nil pointer. *)
Theorem setWeaveWaitEntrypoint_errors (i : InterceptorT) (c : ConfigT) :
  let returns (err : option error) :=
    exists c' calls, setWeaveWaitEntrypoint i c = Some (c', err, calls) in
  let inspected (image : ImageT) :=
    InspectImage (client (proxy i)) (docker.Image c) = Ok image in
  (forall name,
     returns (Some (ErrNoSuchImage name)) <->
     len (docker.Entrypoint c) = 0
     /\ InspectImage (client (proxy i)) (docker.Image c)
        = Err docker_ErrNoSuchImage
     /\ name = docker.Image c)
  /\ (forall e,
        returns (Some (Foreign e)) <->
        len (docker.Entrypoint c) = 0
        /\ InspectImage (client (proxy i)) (docker.Image c) = Err e
        /\ e <> docker_ErrNoSuchImage)
  /\ (returns (Some ErrNoCommandSpecified) <->
      len (docker.Entrypoint c) = 0
      /\ exists image imageConfig,
           inspected image
           /\ docker.ImageConfig image = Some imageConfig
           /\ len (docker.Cmd c) = 0
           /\ len (docker.Cmd imageConfig) = 0
           /\ (docker.Entrypoint c = None ->
               len (docker.Entrypoint imageConfig) = 0))
  /\ (returns None <->
      0 < len (docker.Entrypoint c)
      \/ (len (docker.Entrypoint c) = 0
          /\ exists image,
               inspected image
               /\ ((exists imageConfig,
                      docker.ImageConfig image = Some imageConfig
                      /\ (0 < len (docker.Cmd c)
                          \/ 0 < len (docker.Cmd imageConfig)
                          \/ (docker.Entrypoint c = None
                              /\ 0 < len (docker.Entrypoint imageConfig))))
                   \/ (docker.ImageConfig image = None
                       /\ 0 < len (docker.Cmd c)
                       /\ docker.Entrypoint c <> None))))
  /\ (setWeaveWaitEntrypoint i c = None <->
      len (docker.Entrypoint c) = 0
      /\ exists image,
           inspected image
           /\ docker.ImageConfig image = None
           /\ (len (docker.Cmd c) = 0 \/ docker.Entrypoint c = None)).
Proof using Type.
  forget_parameters. intros returns inspected. subst returns inspected.
  cbv beta.
  pose proof (len_nonneg (docker.Entrypoint c)) as Hnn.
  pose proof (len_nonneg (docker.Cmd c)) as Hnc.
  destruct (Z.eq_dec (len (docker.Entrypoint c)) 0) as [Hlen|Hlen].
  - destruct (InspectImage (client (proxy i)) (docker.Image c))
      as [image|e0] eqn:Hins.
    + pose proof (setWeaveWaitEntrypoint_inspected i c image Hlen Hins) as H.
      destruct (docker.ImageConfig image) as [imageConfig|] eqn:Himg.
      * destruct H as [c' Hrun]. rewrite Hrun.
        pose proof (len_nonneg (docker.Cmd imageConfig)) as Hni.
        pose proof (len_nonneg (docker.Entrypoint imageConfig)) as Hne.
        match type of Hrun with
        | _ = Some (_, if ?b then _ else _, _) => set (nothing := b) in *
        end.
        assert (Hnothing : nothing = true <->
                  len (docker.Cmd c) = 0 /\ len (docker.Cmd imageConfig) = 0
                  /\ (docker.Entrypoint c = None ->
                      len (docker.Entrypoint imageConfig) = 0)).
        { subst nothing. rewrite !andb_true_iff, !Z.eqb_eq.
          destruct (docker.Entrypoint c) as [e|].
          - intuition congruence.
          - rewrite Z.eqb_eq. intuition congruence. }
        assert (Hsome : nothing = false <->
                  0 < len (docker.Cmd c) \/ 0 < len (docker.Cmd imageConfig)
                  \/ (docker.Entrypoint c = None
                      /\ 0 < len (docker.Entrypoint imageConfig))).
        { destruct nothing.
          - split; [discriminate|]. intros Hq.
            destruct (proj1 Hnothing eq_refl) as (Ha & Hb & Hc).
            destruct Hq as [Hq|[Hq|[Hq1 Hq2]]]; try lia.
            specialize (Hc Hq1). lia.
          - split; [|reflexivity]. intros _.
            destruct (Z.eq_dec (len (docker.Cmd c)) 0) as [Ha|Ha]; [|left; lia].
            destruct (Z.eq_dec (len (docker.Cmd imageConfig)) 0) as [Hb|Hb];
              [|right; left; lia].
            right. right.
            destruct (docker.Entrypoint c) as [e|] eqn:Hent.
            + assert (false = true); [|discriminate].
              apply Hnothing. repeat split; auto. discriminate.
            + split; [reflexivity|].
              destruct (Z.eq_dec (len (docker.Entrypoint imageConfig)) 0)
                as [Hc|Hc]; [|lia].
              assert (false = true); [|discriminate].
              apply Hnothing. auto. }
        clearbody nothing.
        refine (conj _ (conj _ (conj _ (conj _ _))));
          [intros name|intros e'| | |].
        -- split; intros Hx; open_hyps; destruct nothing; congruence.
        -- split; intros Hx; open_hyps; destruct nothing; congruence.
        -- split.
           ++ intros (c0 & calls & Hx).
              assert (Hn : nothing = true)
                by (destruct nothing; [reflexivity|congruence]).
              split; [assumption|]. exists image, imageConfig.
              refine (conj eq_refl (conj Himg _)). now apply Hnothing.
           ++ intros (_ & image0 & imageConfig0 & Himage & Hconfig & Hp).
              inversion Himage; subst image0. rewrite Himg in Hconfig.
              inversion Hconfig; subst imageConfig0.
              rewrite (proj2 Hnothing Hp). now eexists _, _.
        -- split.
           ++ intros (c0 & calls & Hx).
              assert (Hn : nothing = false)
                by (destruct nothing; [congruence|reflexivity]).
              right. split; [assumption|]. exists image.
              split; [reflexivity|]. left. exists imageConfig.
              split; [exact Himg|]. now apply Hsome.
           ++ intros [Hx|(_ & image0 & Himage & Hx)]; [lia|].
              inversion Himage; subst image0.
              destruct Hx as [(imageConfig0 & Hconfig & Hq)|(Hconfig & _)];
                [|congruence].
              rewrite Himg in Hconfig. inversion Hconfig; subst imageConfig0.
              rewrite (proj2 Hsome Hq). now eexists _, _.
        -- split; [discriminate|].
           intros (_ & image0 & Himage & Hconfig & _).
           inversion Himage; subst image0. congruence.
      * match type of H with
        | if ?b then _ else _ => set (panics := b) in *
        end.
        assert (Hpanics : panics = true <->
                  len (docker.Cmd c) = 0 \/ docker.Entrypoint c = None).
        { subst panics. rewrite orb_true_iff, Z.eqb_eq.
          destruct (docker.Entrypoint c); intuition congruence. }
        assert (Hfine : panics = false <->
                  0 < len (docker.Cmd c) /\ docker.Entrypoint c <> None).
        { destruct panics.
          - split; [discriminate|]. intros [Ha Hb].
            destruct (proj1 Hpanics eq_refl); [lia|contradiction].
          - split; [|reflexivity]. intros _. split.
            + destruct (Z.eq_dec (len (docker.Cmd c)) 0) as [Ha|Ha]; [|lia].
              assert (false = true); [|discriminate]. apply Hpanics. auto.
            + intros Hb.
              assert (false = true); [|discriminate]. apply Hpanics. auto. }
        clearbody panics.
        destruct panics.
        -- rewrite H.
           pose proof (proj1 Hpanics eq_refl) as Hwhy.
           refine (conj _ (conj _ (conj _ (conj _ _))));
             [intros name|intros e'| | |].
           ++ split; intros Hx; open_hyps; congruence.
           ++ split; intros Hx; open_hyps; congruence.
           ++ split; [intros Hx; open_hyps; congruence|].
              intros (_ & image0 & imageConfig0 & Himage & Hconfig & _).
              inversion Himage; subst image0. congruence.
           ++ split; [intros Hx; open_hyps; congruence|].
              intros [Hx|(_ & image0 & Himage & Hx)]; [lia|].
              inversion Himage; subst image0.
              destruct Hx as [(imageConfig0 & Hconfig & _)|(_ & Ha & Hb)];
                [congruence|].
              destruct Hwhy; [lia|contradiction].
           ++ split; [|reflexivity]. intros _. split; [assumption|].
              exists image. auto.
        -- destruct H as [c' Hrun]. rewrite Hrun.
           destruct (proj1 Hfine eq_refl) as [Hcmd Hpresent].
           refine (conj _ (conj _ (conj _ (conj _ _))));
             [intros name|intros e'| | |].
           ++ split; intros Hx; open_hyps; congruence.
           ++ split; intros Hx; open_hyps; congruence.
           ++ split; [intros Hx; open_hyps; congruence|].
              intros (_ & image0 & imageConfig0 & Himage & Hconfig & _).
              inversion Himage; subst image0. congruence.
           ++ split; [|intros _; now eexists _, _].
              intros _. right. split; [assumption|]. exists image.
              split; [reflexivity|]. right. auto.
           ++ split; [discriminate|].
              intros (_ & image0 & Himage & _ & [Hx|Hx]);
                [lia|contradiction].
    + assert (Hrun : setWeaveWaitEntrypoint i c
                     = Some (c,
                             Some match e0 with
                                  | docker_ErrNoSuchImage =>
                                      ErrNoSuchImage (docker.Image c)
                                  | _ => Foreign e0
                                  end,
                             [CallInspectImage (docker.Image c)])).
      { unfold setWeaveWaitEntrypoint.
        rewrite (proj2 (len_zero_iff _) Hlen), Hins. now destruct e0. }
      rewrite Hrun.
      refine (conj _ (conj _ (conj _ (conj _ _))));
        [intros name|intros e'| | |].
      * split.
        -- intros (c0 & calls & Hx). destruct e0 as [|msg]; [|congruence].
           inversion Hx; subst. repeat split; auto.
        -- intros (_ & He & ->). inversion He. now eexists _, _.
      * split.
        -- intros (c0 & calls & Hx). destruct e0 as [|msg]; [congruence|].
           inversion Hx. repeat split; congruence.
        -- intros (_ & He & Hne). inversion He; subst e'.
           destruct e0 as [|msg]; [congruence|]. now eexists _, _.
      * split.
        -- intros (c0 & calls & Hx). destruct e0; congruence.
        -- intros (_ & image0 & imageConfig0 & Himage & _). discriminate.
      * split.
        -- intros (c0 & calls & Hx). destruct e0; congruence.
        -- intros [Hx|(_ & image0 & Himage & _)]; [lia|discriminate].
      * split; [discriminate|].
        intros (_ & image0 & Himage & _). discriminate.
  - assert (Hpos : 0 < len (docker.Entrypoint c)) by lia.
    assert (Hrun : exists c', setWeaveWaitEntrypoint i c = Some (c', None, [])).
    { unfold setWeaveWaitEntrypoint.
      rewrite (proj2 (Z.eqb_neq _ _) Hlen). unfold wrapEntrypoint.
      rewrite (proj2 (Z.eqb_neq _ _) Hlen). cbn [andb].
      destruct (elems (docker.Entrypoint c)) as [|first rest];
        [now eexists|].
      destruct (String.eqb first weaveWaitBinary); now eexists. }
    destruct Hrun as [c' Hrun]. rewrite Hrun.
    refine (conj _ (conj _ (conj _ (conj _ _))));
      [intros name|intros e'| | |].
    + split; intros Hx; open_hyps; congruence.
    + split; intros Hx; open_hyps; congruence.
    + split; intros Hx; open_hyps; congruence.
    + split; [auto|]. intros _. now eexists _, _.
    + split; [discriminate|]. intros [Hx _]. contradiction.
Qed.

Lemma nothingToRun_nonempty (c : ConfigT) :
  0 < len (docker.Entrypoint c) -> nothingToRun c = false.
Proof.
  intros Hpos. unfold nothingToRun.
  destruct (len (docker.Entrypoint c) =? 0) eqn:Hlen; [|reflexivity].
  apply Z.eqb_eq in Hlen. lia.
Qed.

Lemma afterImageDefaults_nonempty (i : InterceptorT) (c : ConfigT) :
  0 < len (docker.Entrypoint c) ->
  (len (docker.Entrypoint c) =? 0) = false
  /\ afterImageDefaults i c = Some (Ok c).
Proof.
  intros Hpos. unfold afterImageDefaults.
  destruct (len (docker.Entrypoint c) =? 0) eqn:Hlen; [|auto].
  apply Z.eqb_eq in Hlen. lia.
Qed.

(** C3, as amended. When the entrypoint is empty and the inspection of the
    image succeeds, the image is looked up once, an empty command becomes
    the image's command, and an unset (nil) entrypoint becomes the image's
    entrypoint, while an entrypoint that is present but empty stays as it
    is. For an image with entrypoint [/bin/sh -c] and an empty command, a
    configuration with unset entrypoint and empty command ends with the
    wrapper sequence followed by [/bin/sh -c] as entrypoint and the image's
    empty command, the first element of the wrapper not being [/bin/sh]. *)
Theorem setWeaveWaitEntrypoint_image_defaults
    (i : InterceptorT) (c : ConfigT) (image : ImageT)
    (imageConfig : ConfigT) :
  len (docker.Entrypoint c) = 0 ->
  InspectImage (client (proxy i)) (docker.Image c) = Ok image ->
  docker.ImageConfig image = Some imageConfig ->
  let cmd1 :=
    if len (docker.Cmd c) =? 0 then docker.Cmd imageConfig
    else docker.Cmd c in
  let entrypoint1 :=
    match docker.Entrypoint c with
    | None => docker.Entrypoint imageConfig
    | Some _ => docker.Entrypoint c
    end in
  exists c' err calls,
    setWeaveWaitEntrypoint i c = Some (c', err, calls)
    /\ calls = [CallInspectImage (docker.Image c)]
    /\ afterImageDefaults i c
       = Some (Ok (docker.setEntrypoint (docker.setCmd c cmd1) entrypoint1))
    /\ docker.Cmd c' = cmd1
    /\ (err = None ->
        docker.Entrypoint c'
        = if alreadyWrapped entrypoint1 then entrypoint1
          else wrapped entrypoint1)
    /\ (docker.Entrypoint c = None ->
        len (docker.Cmd c) = 0 ->
        elems (docker.Entrypoint imageConfig) = ["/bin/sh"; "-c"] ->
        len (docker.Cmd imageConfig) = 0 ->
        weaveWaitBinary <> "/bin/sh" ->
        err = None
        /\ docker.Entrypoint c'
           = Some (weaveWaitEntrypoint ++ ["/bin/sh"; "-c"])%list
        /\ docker.Cmd c' = docker.Cmd imageConfig
        /\ elems (docker.Cmd c') = []).
Proof.
  intros Hlen Hins Himg cmd1 entrypoint1.
  assert (Hstep : afterImageDefaults i c
                  = Some (Ok (docker.setEntrypoint (docker.setCmd c cmd1)
                                entrypoint1))).
  { unfold afterImageDefaults. rewrite (proj2 (len_zero_iff _) Hlen), Hins.
    now rewrite (imageDefaults_Some c image imageConfig Himg). }
  rewrite setWeaveWaitEntrypoint_steps. cbv zeta.
  rewrite Hstep, (proj2 (len_zero_iff _) Hlen), wrapEntrypoint_spec.
  set (c1 := docker.setEntrypoint (docker.setCmd c cmd1) entrypoint1).
  assert (He1 : docker.Entrypoint c1 = entrypoint1) by reflexivity.
  assert (Hc1 : docker.Cmd c1 = cmd1) by reflexivity.
  assert (Hconcrete :
    docker.Entrypoint c = None -> len (docker.Cmd c) = 0 ->
    elems (docker.Entrypoint imageConfig) = ["/bin/sh"; "-c"] ->
    len (docker.Cmd imageConfig) = 0 -> weaveWaitBinary <> "/bin/sh" ->
    nothingToRun c1 = false /\ alreadyWrapped entrypoint1 = false
    /\ wrapped entrypoint1 = Some (weaveWaitEntrypoint ++ ["/bin/sh"; "-c"])%list
    /\ cmd1 = docker.Cmd imageConfig /\ elems cmd1 = []).
  { intros Hnil Hcmd Himage Himgcmd Hne.
    assert (Hcmd1 : cmd1 = docker.Cmd imageConfig)
      by (subst cmd1; now rewrite (proj2 (len_zero_iff _) Hcmd)).
    assert (Hent1 : entrypoint1 = docker.Entrypoint imageConfig)
      by (subst entrypoint1; now rewrite Hnil).
    repeat split.
    - unfold nothingToRun. rewrite He1, Hent1. unfold len at 1.
      now rewrite Himage.
    - unfold alreadyWrapped. rewrite Hent1, Himage.
      apply String.eqb_neq. congruence.
    - unfold wrapped. now rewrite Hent1, Himage.
    - exact Hcmd1.
    - rewrite Hcmd1. unfold len in Himgcmd.
      destruct (elems (docker.Cmd imageConfig)); [reflexivity|].
      simpl in Himgcmd. lia. }
  destruct (nothingToRun c1) eqn:Hrun; cbn [fst snd].
  - eexists _, _, _.
    refine (conj eq_refl (conj eq_refl (conj eq_refl (conj Hc1 (conj _ _))))).
    + discriminate.
    + intros Hnil Hcmd Himage Himgcmd Hne.
      destruct (Hconcrete Hnil Hcmd Himage Himgcmd Hne) as [Hfalse _].
      discriminate.
  - rewrite He1.
    destruct (alreadyWrapped entrypoint1) eqn:Hw; cbn [fst snd];
      eexists _, _, _;
      (refine (conj eq_refl
                 (conj eq_refl (conj eq_refl (conj Hc1 (conj _ _)))));
       [intros _; exact He1 || reflexivity|]);
      intros Hnil Hcmd Himage Himgcmd Hne;
      destruct (Hconcrete Hnil Hcmd Himage Himgcmd Hne)
        as (_ & Hw' & Hwrapped & Hcmd1 & Hempty);
      [discriminate|].
    cbn [docker.setEntrypoint docker.Entrypoint docker.Cmd].
    rewrite Hwrapped. fold cmd1. rewrite Hc1. auto.
Qed.

Lemma alreadyWrapped_nonempty (e : Slice) :
  alreadyWrapped e = true -> 0 < len e.
Proof.
  unfold alreadyWrapped, len. destruct (elems e); [discriminate|].
  intros _. simpl List.length. lia.
Qed.

Lemma alreadyWrapped_wrapped (e : Slice) : alreadyWrapped (wrapped e) = true.
Proof. unfold alreadyWrapped, wrapped. simpl. apply String.eqb_refl. Qed.

(** An entrypoint that counts as wrapped goes through untouched, without
    any call. *)
Lemma setWeaveWaitEntrypoint_wrapped (i : InterceptorT) (c : ConfigT) :
  alreadyWrapped (docker.Entrypoint c) = true ->
  setWeaveWaitEntrypoint i c = Some (c, None, []).
Proof.
  intros Hw. pose proof (alreadyWrapped_nonempty _ Hw) as Hpos.
  rewrite setWeaveWaitEntrypoint_steps. cbv zeta.
  destruct (afterImageDefaults_nonempty i c Hpos) as [-> ->].
  rewrite wrapEntrypoint_spec, (nothingToRun_nonempty c Hpos), Hw.
  reflexivity.
Qed.

(** C4. Once the image defaults are in, and unless there is nothing to run,
    [setWeaveWaitEntrypoint] puts the wrapper sequence in front of the
    entrypoint exactly when the entrypoint is empty or its first element is
    not the first element of the wrapper sequence, and otherwise leaves it
    as it is. So a configuration whose entrypoint starts with the wrapper's
    first element, whatever follows it, comes back unchanged, and applying
    the function to its own successful result changes nothing. *)
Theorem setWeaveWaitEntrypoint_wraps_once (i : InterceptorT) (c : ConfigT) :
  (forall c1,
     afterImageDefaults i c = Some (Ok c1) -> nothingToRun c1 = false ->
     exists calls,
       setWeaveWaitEntrypoint i c
       = Some
           (docker.setEntrypoint c1
              (if (len (docker.Entrypoint c1) =? 0)
                  || negb (String.eqb (hd "" (elems (docker.Entrypoint c1)))
                             (hd "" weaveWaitEntrypoint))
               then
                 Some (weaveWaitEntrypoint
                       ++ elems (docker.Entrypoint c1))%list
               else docker.Entrypoint c1),
            None, calls))
  /\ (forall rest,
        elems (docker.Entrypoint c) = weaveWaitBinary :: rest ->
        setWeaveWaitEntrypoint i c = Some (c, None, []))
  /\ (forall c' calls,
        setWeaveWaitEntrypoint i c = Some (c', None, calls) ->
        setWeaveWaitEntrypoint i c' = Some (c', None, [])).
Proof.
  split; [|split].
  - intros c1 Hstep Hrun.
    rewrite setWeaveWaitEntrypoint_steps. cbv zeta.
    rewrite Hstep, wrapEntrypoint_spec, Hrun. cbn [fst].
    unfold alreadyWrapped, wrapped, len.
    destruct (elems (docker.Entrypoint c1)) as [|first rest] eqn:He.
    + now eexists.
    + cbn [hd weaveWaitEntrypoint List.length].
      replace (Z.of_nat (S (List.length rest)) =? 0) with false
        by (symmetry; apply Z.eqb_neq; lia).
      destruct (String.eqb first weaveWaitBinary); cbn [fst snd orb negb];
        eexists; [now rewrite (setEntrypoint_same c1)|reflexivity].
  - intros rest He. apply setWeaveWaitEntrypoint_wrapped.
    unfold alreadyWrapped. rewrite He. apply String.eqb_refl.
  - intros c' calls Hrun. apply setWeaveWaitEntrypoint_wrapped.
    rewrite setWeaveWaitEntrypoint_steps in Hrun. cbv zeta in Hrun.
    destruct (afterImageDefaults i c) as [[c1|[|msg]]|]; try discriminate.
    rewrite wrapEntrypoint_spec in Hrun.
    destruct (nothingToRun c1); [discriminate|].
    destruct (alreadyWrapped (docker.Entrypoint c1)) eqn:Hw;
      cbn [fst snd] in Hrun; inversion Hrun; subst; [assumption|].
    apply alreadyWrapped_wrapped.
Qed.

(** C10. On a configuration whose entrypoint is not empty,
    [setWeaveWaitEntrypoint] makes no call (the image is not inspected),
    returns no error and leaves the command and every other member alone:
    the configuration comes back as it is, or with the wrapper sequence in
    front of its entrypoint. *)
Theorem setWeaveWaitEntrypoint_nonempty_entrypoint
    (i : InterceptorT) (c : ConfigT) :
  0 < len (docker.Entrypoint c) ->
  exists c',
    setWeaveWaitEntrypoint i c = Some (c', None, [])
    /\ docker.Cmd c' = docker.Cmd c
    /\ (c' = c
        \/ c' = docker.setEntrypoint c
                  (Some (weaveWaitEntrypoint
                         ++ elems (docker.Entrypoint c))%list)).
Proof.
  intros Hpos. rewrite setWeaveWaitEntrypoint_steps. cbv zeta.
  destruct (afterImageDefaults_nonempty i c Hpos) as [-> ->].
  rewrite wrapEntrypoint_spec, (nothingToRun_nonempty c Hpos).
  destruct (alreadyWrapped (docker.Entrypoint c)); cbn [fst snd];
    eexists; repeat split; auto.
Qed.

(** ** The DNS configurator *)

Lemma substring_prefix (d rest : string) :
  substring 0 (String.length d) (d ++ rest) = d.
Proof. induction d as [|a d IH]; simpl; [now destruct rest|now rewrite IH]. Qed.

Lemma substring_suffix (d rest : string) :
  substring (String.length d) (String.length rest) (d ++ rest) = rest.
Proof.
  induction d as [|a d IH]; simpl; [|exact IH].
  induction rest as [|b rest IHr]; simpl; [reflexivity|now rewrite IHr].
Qed.

Lemma length_append (d rest : string) :
  String.length (d ++ rest) = (String.length d + String.length rest)%nat.
Proof. induction d as [|a d IH]; simpl; [reflexivity|now rewrite IH]. Qed.

Lemma strings_HasSuffix_append (d suffix : string) :
  strings_HasSuffix (d ++ suffix) suffix = true.
Proof.
  unfold strings_HasSuffix. rewrite length_append.
  replace (String.length d + String.length suffix - String.length suffix)%nat
    with (String.length d) by lia.
  rewrite substring_suffix, String.eqb_refl, andb_true_r.
  apply Nat.leb_le. lia.
Qed.

Lemma strings_TrimSuffix_append (d suffix : string) :
  strings_TrimSuffix (d ++ suffix) suffix = d.
Proof.
  unfold strings_TrimSuffix. rewrite strings_HasSuffix_append, length_append.
  replace (String.length d + String.length suffix - String.length suffix)%nat
    with (String.length d) by lia.
  apply substring_prefix.
Qed.

(** A string that has the suffix [.] ends with it. *)
Lemma strings_HasSuffix_dot (s : string) :
  strings_HasSuffix s "." = true -> exists d, s = d ++ ".".
Proof.
  unfold strings_HasSuffix.
  induction s as [|a s IH]; [discriminate|].
  destruct s as [|b s].
  - simpl. destruct (Ascii.eqb_spec a "."%char) as [->|]; [|discriminate].
    intros _. now exists "".
  - intros H.
    assert (Hs : exists d, String b s = d ++ ".").
    { apply IH. simpl String.length in *.
      replace (S (S (String.length s)) - 1)%nat
        with (S (S (String.length s) - 1)) in H by lia.
      exact H. }
    destruct Hs as [d Hd]. exists (String a d). simpl. now rewrite Hd.
Qed.

Lemma strings_TrimSuffix_no_dot (s : string) :
  (forall d, s <> d ++ ".") -> strings_TrimSuffix s "." = s.
Proof.
  intros Hno. unfold strings_TrimSuffix.
  destruct (strings_HasSuffix s ".") eqn:Hs; [|reflexivity].
  destruct (strings_HasSuffix_dot s Hs) as [d Hd]. now elim (Hno d).
Qed.

(** X13. The name service counts as running exactly when its container
    is found with an address and the request for its domain is answered with
    status 200 and a readable body, which then is the domain; in every
    other case the domain is the default one. *)
Theorem getDNSDomain_running (i : InterceptorT) :
  (snd (fst (getDNSDomain i)) = true <->
   exists dnsContainer settings resp b,
     InspectContainer (client (proxy i)) "weavedns" = Ok dnsContainer
     /\ docker.ContainerNetworkSettings dnsContainer = Some settings
     /\ docker.IPAddress settings <> ""
     /\ http_Get ("http://" ++ docker.IPAddress settings ++ ":"
                  ++ fmt_d nameserver_DefaultHTTPPort ++ "/domain") = Ok resp
     /\ StatusCode resp = http_StatusOK
     /\ ReadAllBody resp = Ok b
     /\ fst (fst (getDNSDomain i)) = b)
  /\ (snd (fst (getDNSDomain i)) = false ->
      fst (fst (getDNSDomain i)) = nameserver_DefaultLocalDomain).
Proof.
  assert (Hleft : forall (P : Prop) (d : string), ~ P ->
            (false = true <-> P) /\ (false = false -> d = d)).
  { intros P d HP. split; [split; [discriminate|contradiction]|reflexivity]. }
  unfold getDNSDomain.
  destruct (InspectContainer (client (proxy i)) "weavedns")
    as [dnsContainer|e] eqn:Hins; cbn [fst snd];
    [|apply Hleft; intros (c & s & resp & b & H1 & _); congruence].
  destruct (docker.ContainerNetworkSettings dnsContainer) as [settings|]
    eqn:Hset; cbn [fst snd];
    [|apply Hleft; intros (c & s & resp & b & H1 & H2 & _); congruence].
  destruct (String.eqb_spec (docker.IPAddress settings) "") as [Hip|Hip];
    cbn [fst snd];
    [apply Hleft; intros (c & s & resp & b & H1 & H2 & H3 & _); congruence|].
  destruct (http_Get _) as [resp|e] eqn:Hget; cbn [fst snd];
    [|apply Hleft; intros (c & s & resp & b & H1 & H2 & H3 & H4 & _);
      congruence].
  destruct (Z.eqb_spec (StatusCode resp) http_StatusOK) as [Hstatus|Hstatus];
    cbn [negb fst snd];
    [|apply Hleft;
      intros (c & s & resp' & b & H1 & H2 & H3 & H4 & H5 & _); congruence].
  destruct (ReadAllBody resp) as [b|e] eqn:Hread; cbn [fst snd];
    [|apply Hleft;
      intros (c & s & resp' & b & H1 & H2 & H3 & H4 & H5 & H6 & _);
      congruence].
  split; [|discriminate]. split; [intros _|reflexivity].
  exists dnsContainer, settings, resp, b. auto 10.
Qed.

Lemma setWeaveDNS_proceeds (i : InterceptorT)
    (container : BodyT) (r : Request Bytes)
    (config : ConfigT) (hostConfig : HostConfigT) :
  dnsProceeds i = true ->
  Config container = Some config ->
  HostConfig container = Some hostConfig ->
  let step := hostnameStep (dnsDomainOf i) (QueryName r) config in
  setWeaveDNS i container r
  = Some (mkBody (Some (fst step))
            (Some (dnsSearchStep (dnsDomainOf i) (fst step)
                     (docker.setDNS hostConfig
                        (Some (elems (docker.DNS hostConfig)
                               ++ [dockerBridgeIP (proxy i)])%list))))
            (MacAddress container),
          None, (snd (getDNSDomain i) ++ snd step)%list).
Proof.
  unfold dnsProceeds, dnsDomainOf, setWeaveDNS.
  intros Hgo Hc Hh. apply andb_true_iff in Hgo. destruct Hgo as [Hwo Hrun].
  apply negb_true_iff in Hwo. rewrite Hwo.
  destruct (getDNSDomain i) as [[dnsDomain dnsRunning] calls].
  cbn [fst snd] in *. rewrite Hrun, Hh, Hc. cbn [negb].
  now destruct (hostnameStep dnsDomain (QueryName r) config).
Qed.

(** C7. With DNS integration switched off, or with the name service not
    running and DNS not forced, [setWeaveDNS] returns nil and leaves the
    whole body as it found it, whatever the body and the request are. *)
Theorem setWeaveDNS_skipped (i : InterceptorT)
    (container : BodyT) (r : Request Bytes) :
  WithoutDNS (proxy i) = true
  \/ (snd (fst (getDNSDomain i)) = false /\ WithDNS (proxy i) = false) ->
  exists calls,
    setWeaveDNS i container r = Some (container, None, calls)
    /\ (forall msg, ~ In (LogWarning msg) calls)
    /\ (WithoutDNS (proxy i) = true -> calls = []).
Proof.
  unfold setWeaveDNS. intros Hskip.
  destruct (WithoutDNS (proxy i)) eqn:Hwo.
  - exists []. repeat split; auto.
  - destruct Hskip as [Hskip|[Hrun Hwith]]; [discriminate|].
    exists (snd (getDNSDomain i)).
    assert (Hlog : forall msg, ~ In (LogWarning msg) (snd (getDNSDomain i))).
    { intros msg. unfold getDNSDomain.
      repeat match goal with
        | |- context [match ?x with _ => _ end] => destruct x
        end; cbn [snd In]; intros H;
        repeat match goal with H : _ \/ _ |- _ => destruct H end;
        try discriminate; assumption. }
    destruct (getDNSDomain i) as [[dnsDomain dnsRunning] calls].
    cbn [fst snd] in *. rewrite Hrun, Hwith. cbn.
    repeat split; [exact Hlog | discriminate].
Qed.

(** C6. When the DNS step goes on, the body has no hostname and the
    request carries a name, the hostname stays unset, with a warning
    logged, if [len(name) + 1 + len(trimmedDomain)] exceeds 64; otherwise
    the hostname becomes the name and the domain name the trimmed domain,
    which is the DNS domain without one trailing period. The cut is exact:
    a sum of 64 sets the hostname, a sum of 65 does not, and a name of 64
    bytes never becomes the hostname. *)
Theorem setWeaveDNS_hostname (i : InterceptorT)
    (container : BodyT) (r : Request Bytes)
    (config : ConfigT) (hostConfig : HostConfigT) :
  dnsProceeds i = true ->
  Config container = Some config ->
  HostConfig container = Some hostConfig ->
  docker.Hostname config = "" ->
  QueryName r <> "" ->
  let name := QueryName r in
  let trimmedDomain := strings_TrimSuffix (dnsDomainOf i) "." in
  let total := slen name + 1 + slen trimmedDomain in
  exists container' config' calls,
    setWeaveDNS i container r = Some (container', None, calls)
    /\ Config container' = Some config'
    /\ (total > 64 ->
        config' = config
        /\ In (LogWarning ("Container name [" ++ name
                           ++ "] too long to be used as hostname")) calls)
    /\ (total <= 64 ->
        docker.Hostname config' = name
        /\ docker.Domainname config' = trimmedDomain
        /\ forall msg, ~ In (LogWarning msg) calls)
    /\ (total = 64 -> docker.Hostname config' = name)
    /\ (total = 65 -> docker.Hostname config' = "")
    /\ (slen name = 64 -> docker.Hostname config' = "")
    /\ (forall d, dnsDomainOf i = d ++ "." -> trimmedDomain = d)
    /\ ((forall d, dnsDomainOf i <> d ++ ".") ->
        trimmedDomain = dnsDomainOf i).
Proof.
  intros Hgo Hc Hh Hhost Hname name trimmedDomain total. subst name.
  pose proof (setWeaveDNS_proceeds i container r config hostConfig Hgo Hc Hh)
    as Hrun. cbv zeta in Hrun. rewrite Hrun. clear Hrun.
  assert (Hlog : forall msg, ~ In (LogWarning msg) (snd (getDNSDomain i))).
  { intros msg. unfold getDNSDomain.
    repeat match goal with
      | |- context [match ?x with _ => _ end] => destruct x
      end; cbn [snd In]; intros H;
      repeat match goal with H : _ \/ _ |- _ => destruct H end;
      try discriminate; assumption. }
  assert (Hpos : 0 <= slen trimmedDomain) by (unfold slen; lia).
  unfold hostnameStep. rewrite Hhost.
  apply String.eqb_neq in Hname. rewrite Hname. cbn [String.eqb andb negb].
  fold trimmedDomain. fold total. unfold MaxDockerHostname.
  assert (Htrim1 : forall d, dnsDomainOf i = d ++ "." -> trimmedDomain = d).
  { intros d Hd. subst trimmedDomain. rewrite Hd.
    apply strings_TrimSuffix_append. }
  assert (Htrim2 : (forall d, dnsDomainOf i <> d ++ ".") ->
                   trimmedDomain = dnsDomainOf i)
    by (intros Hd; now apply strings_TrimSuffix_no_dot).
  destruct (total >? 64) eqn:Hcut; cbn [fst snd].
  - apply Z.gtb_lt in Hcut.
    eexists _, config, _.
    refine (conj eq_refl (conj eq_refl (conj _ (conj _ (conj _ (conj _
              (conj _ (conj Htrim1 Htrim2)))))))).
    + intros _. split; [reflexivity|].
      apply in_or_app. right. left. reflexivity.
    + intros Hle. lia.
    + intros H64. lia.
    + intros _. exact Hhost.
    + intros _. exact Hhost.
  - assert (Hle : total <= 64)
      by (destruct (Z.gtb_spec total 64); [discriminate|assumption]).
    eexists _, _, _.
    refine (conj eq_refl (conj eq_refl (conj _ (conj _ (conj _ (conj _
              (conj _ (conj Htrim1 Htrim2)))))))).
    + intros Hgt. lia.
    + intros _. split; [reflexivity|]. split; [reflexivity|].
      rewrite app_nil_r. exact Hlog.
    + intros _. reflexivity.
    + intros H65. lia.
    + intros H64. exfalso. unfold total in Hle. lia.
Qed.

(** C8. When the DNS step goes on and [hostConfig.DNSSearch] is empty, it
    becomes the one-element sequence holding the DNS domain if the hostname
    is unset after the hostname step, and [.] if the body has a hostname
    by then; a sequence that is not empty stays as it is. *)
Theorem setWeaveDNS_search (i : InterceptorT)
    (container : BodyT) (r : Request Bytes)
    (config : ConfigT) (hostConfig : HostConfigT) :
  dnsProceeds i = true ->
  Config container = Some config ->
  HostConfig container = Some hostConfig ->
  exists container' config' hostConfig' calls,
    setWeaveDNS i container r = Some (container', None, calls)
    /\ Config container' = Some config'
    /\ HostConfig container' = Some hostConfig'
    /\ config' = fst (hostnameStep (dnsDomainOf i) (QueryName r) config)
    /\ (len (docker.DNSSearch hostConfig) = 0 ->
        docker.Hostname config' = "" ->
        docker.DNSSearch hostConfig' = Some [dnsDomainOf i])
    /\ (len (docker.DNSSearch hostConfig) = 0 ->
        docker.Hostname config' <> "" ->
        docker.DNSSearch hostConfig' = Some ["."])
    /\ (len (docker.DNSSearch hostConfig) <> 0 ->
        docker.DNSSearch hostConfig' = docker.DNSSearch hostConfig).
Proof.
  intros Hgo Hc Hh.
  pose proof (setWeaveDNS_proceeds i container r config hostConfig Hgo Hc Hh)
    as Hrun. cbv zeta in Hrun. rewrite Hrun. clear Hrun.
  eexists _, _, _, _. split; [reflexivity|].
  split; [reflexivity|]. split; [reflexivity|]. split; [reflexivity|].
  unfold dnsSearchStep. cbn [docker.setDNS docker.DNSSearch].
  destruct (len (docker.DNSSearch hostConfig) =? 0) eqn:Hlen.
  - apply Z.eqb_eq in Hlen.
    destruct (String.eqb_spec
                (docker.Hostname
                   (fst (hostnameStep (dnsDomainOf i) (QueryName r) config)))
                "") as [Hunset|Hset];
      repeat split; intros; try reflexivity; try contradiction.
  - apply Z.eqb_neq in Hlen.
    repeat split; intros; try reflexivity; contradiction.
Qed.

(** ** The body through decoding and encoding *)

Lemma storeMembers_app {S : Type} (store : S -> json.member -> option S)
    (ms1 ms2 : list json.member) (s : S) :
  storeMembers store (ms1 ++ ms2) s
  = match storeMembers store ms1 s with
    | Some s' => storeMembers store ms2 s'
    | None => None
    end.
Proof.
  revert s. induction ms1 as [|m ms1 IH]; intros s; simpl; [reflexivity|].
  destruct (store s m); [apply IH|reflexivity].
Qed.


(** *** An array stored into a slice *)

Lemma setNth_length (i : nat) (s : string) (l : list string) :
  List.length (json.setNth i s l) = List.length l.
Proof.
  revert i. induction l as [|x l IH]; intros [|i]; simpl; auto.
Qed.

Lemma firstn_setNth (i : nat) (s : string) (l : list string) :
  (i < List.length l)%nat ->
  firstn (S i) (json.setNth i s l) = (firstn i l ++ [s])%list.
Proof.
  revert i. induction l as [|x l IH]; intros [|i] Hi; simpl in *;
    try lia; [reflexivity|].
  f_equal. apply IH. lia.
Qed.

Lemma grow_length (backing : list string) (n : nat) :
  (n <= List.length backing)%nat ->
  (List.length backing < List.length (json.grow backing n))%nat.
Proof.
  intros Hn. unfold json.grow. cbv zeta.
  rewrite length_app, repeat_length, firstn_length_le by exact Hn.
  pose proof (Nat.div_mod_eq (List.length backing) 2) as Hdiv.
  pose proof (Nat.mod_upper_bound (List.length backing) 2) as Hmod.
  lia.
Qed.

Lemma grow_firstn (backing : list string) (n k : nat) :
  (k <= n)%nat -> (n <= List.length backing)%nat ->
  firstn k (json.grow backing n) = firstn k backing.
Proof.
  intros Hk Hn. unfold json.grow. cbv zeta.
  rewrite firstn_app, firstn_firstn, firstn_length_le by exact Hn.
  replace (k - n)%nat with 0%nat by lia.
  rewrite Nat.min_l by exact Hk. simpl. apply app_nil_r.
Qed.

(** One turn of the loop: the array has room for index [i], the length
    covers it, and what lies before [i] is as it was. *)
Lemma fillArray_room (i : nat) (backing : list string) (n : nat) :
  (i <= n)%nat -> (n <= List.length backing)%nat ->
  let backing1 :=
    if (List.length backing <=? i)%nat then json.grow backing n
    else backing in
  let n1 := if (n <=? i)%nat then S i else n in
  (i < List.length backing1)%nat /\ (n1 <= List.length backing1)%nat
  /\ (S i <= n1)%nat /\ firstn i backing1 = firstn i backing.
Proof.
  intros Hi Hn. cbv zeta.
  destruct (Nat.leb_spec (List.length backing) i) as [Hcap|Hcap].
  - pose proof (grow_length backing n Hn) as Hgrow.
    rewrite (grow_firstn backing n i Hi Hn).
    destruct (Nat.leb_spec n i); repeat split; lia.
  - destruct (Nat.leb_spec n i); repeat split; lia.
Qed.

Lemma fillArray_within (xs : list json.value) (i : nat)
    (backing : list string) (n : nat) (backing' : list string) (n' : nat) :
  (i <= n)%nat -> (n <= List.length backing)%nat ->
  json.fillArray xs i backing n = Some (backing', n') ->
  (n' <= List.length backing')%nat /\ (i + List.length xs <= n')%nat.
Proof.
  revert i backing n.
  induction xs as [|x xs IH]; intros i backing n Hi Hn; simpl.
  - intros H. inversion H; subst. lia.
  - destruct (fillArray_room i backing n Hi Hn) as (Hroom & Hn1 & Hi1 & _).
    cbv zeta in *.
    destruct (json.storeString x _) as [s|]; [|discriminate].
    intros H. apply IH in H; [lia|exact Hi1|now rewrite setNth_length].
Qed.

Lemma fillArray_Str (l : list string) (i : nat) (backing : list string)
    (n : nat) :
  (i <= n)%nat -> (n <= List.length backing)%nat ->
  exists backing' n',
    json.fillArray (map json.Str l) i backing n = Some (backing', n')
    /\ firstn (i + List.length l) backing'
       = (firstn i backing ++ l)%list.
Proof.
  revert i backing n.
  induction l as [|s l IH]; intros i backing n Hi Hn; simpl.
  - exists backing, n. split; [reflexivity|].
    now rewrite Nat.add_0_r, app_nil_r.
  - destruct (fillArray_room i backing n Hi Hn) as (Hroom & Hn1 & Hi1 & Hkeep).
    cbv zeta in *.
    match goal with
    | |- context [json.fillArray _ (S i) ?b ?m] =>
        destruct (IH (S i) b m) as (backing' & n' & Hfill & Hfirst);
          [exact Hi1|now rewrite setNth_length|]
    end.
    exists backing', n'. split; [exact Hfill|].
    rewrite Nat.add_succ_r, <- Nat.add_succ_l, Hfirst.
    rewrite firstn_setNth by exact Hroom.
    now rewrite Hkeep, <- app_assoc.
Qed.


Lemma storeSlice_Str (l : list string) (old : json.buffer) :
  withinArray old ->
  exists b,
    json.storeSlice (json.Arr (map json.Str l)) old = Some b
    /\ json.visible b = Some l.
Proof.
  intros Hold. simpl.
  set (start := match old with Some b0 => b0 | None => ([], 0%nat) end).
  assert (Hstart : (snd start <= List.length (fst start))%nat).
  { subst start. destruct old as [[backing n]|]; simpl in *; lia. }
  destruct start as [backing n]. simpl in Hstart.
  destruct (fillArray_Str l 0 backing n) as (backing' & n' & Hfill & Hfirst);
    [lia|exact Hstart|].
  rewrite Hfill. rewrite length_map.
  pose proof (fillArray_within _ _ _ _ _ _ (Nat.le_0_l n) Hstart Hfill)
    as [_ Hlen].
  rewrite length_map in Hlen. simpl in Hlen, Hfirst.
  destruct l as [|s l]; simpl.
  - now eexists.
  - cbn [List.length] in Hlen, Hfirst.
    eexists. split; [reflexivity|]. simpl.
    destruct (S (List.length l) <? n')%nat eqn:Hlt.
    + f_equal. exact Hfirst.
    + apply Nat.ltb_ge in Hlt. replace n' with (S (List.length l)) by lia.
      f_equal. exact Hfirst.
Qed.


(** *** The last member of a document *)






(** *** One member of the host configuration *)



(** *** One member of the body *)




(** *** The members of a document, one after the other *)







(** *** What the encoder wrote, decoded *)

Lemma storeSlice_sliceValue (s : Slice) :
  exists b,
    json.storeSlice (json.sliceValue s) None = Some b /\ json.visible b = s.
Proof.
  destruct s as [l|]; [|now exists None].
  exact (storeSlice_Str l None I).
Qed.

Lemma freshBuffer_visible (o : bool) (name : string) (s : Slice) :
  json.sliceMember o name (json.visible (freshBuffer o s))
  = json.sliceMember o name s.
Proof.
  unfold freshBuffer, json.sliceMember.
  destruct (o && (len s =? 0)) eqn:Homit.
  - apply andb_true_iff in Homit. destruct Homit as [-> _]. reflexivity.
  - destruct (storeSlice_sliceValue s) as (b & -> & ->). now rewrite Homit.
Qed.

Lemma storeSlice_freshBuffer (o : bool) (s : Slice) :
  o && (len s =? 0) = false ->
  json.storeSlice (json.sliceValue s) None = Some (freshBuffer o s).
Proof.
  intros Homit. unfold freshBuffer. rewrite Homit.
  now destruct (storeSlice_sliceValue s) as (b & -> & _).
Qed.

Lemma freshBuffer_omitted (o : bool) (s : Slice) :
  o && (len s =? 0) = true -> freshBuffer o s = None.
Proof. intros Homit. unfold freshBuffer. now rewrite Homit. Qed.

Lemma restAfter_all {Rest : Type}
    (store : string -> json.value -> Rest -> option Rest)
    (sel : string -> bool) (ms : list json.member) (start : Rest) :
  Forall (fun m => sel (fst m) = true) ms ->
  restAfter store sel ms start
  = storeMembers (fun rest m => store (fst m) (snd m) rest) ms start.
Proof.
  intros Hall. unfold restAfter. f_equal.
  induction Hall as [|m ms Hm _ IH]; [reflexivity|].
  cbn [filter]. now rewrite Hm, IH.
Qed.

(** The members of the other fields of the host configuration, stored. *)
Lemma storeMembers_host_others (ms : list json.member)
    (h : HostConfigStateT) :
  Forall (fun m => hostSelectsOther (fst m) = true) ms ->
  storeMembers storeHostConfigMember ms h
  = option_map
      (mkHostConfigState (sBinds h) (sDNS h) (sDNSSearch h))
      (storeMembers (fun rest m => storeHostRest (fst m) (snd m) rest) ms
         (sHostConfigRest h)).
Proof.
  intros Hall. revert h.
  induction Hall as [|[key v] ms Hm _ IH]; intros h; [now destruct h|].
  cbn [storeMembers fst snd]. cbn [fst] in Hm.
  unfold storeHostConfigMember at 1. unfold hostSelectsOther in Hm.
  destruct (json.selectField hostConfigFieldName hostConfigFields
              hostRestSelects key) as [f| |]; try discriminate.
  destruct (storeHostRest key v (sHostConfigRest h)) as [rest|];
    [|reflexivity].
  cbn [option_map]. now rewrite IH.
Qed.

(** The host configuration the encoder wrote, stored into a new one. *)
Lemma store_hostConfigMembers (h : HostConfigT) :
  storeMembers storeHostConfigMember (hostConfigMembers h)
    zeroHostConfigState
  = Some (mkHostConfigState
            (freshBuffer (omitBinds tags) (docker.Binds h))
            (freshBuffer (omitDNS tags) (docker.DNS h))
            (freshBuffer (omitDNSSearch tags) (docker.DNSSearch h))
            zeroHostRest).
Proof.
  unfold hostConfigMembers, json.sliceMember.
  destruct (omitBinds tags && (len (docker.Binds h) =? 0)) eqn:Hb;
    destruct (omitDNS tags && (len (docker.DNS h) =? 0)) eqn:Hd;
    destruct (omitDNSSearch tags && (len (docker.DNSSearch h) =? 0)) eqn:Hs;
    cbn -[json.storeSlice json.sliceValue freshBuffer];
    rewrite ?(storeSlice_freshBuffer _ _ Hb), ?(storeSlice_freshBuffer _ _ Hd),
      ?(storeSlice_freshBuffer _ _ Hs);
    cbn -[json.storeSlice json.sliceValue freshBuffer];
    rewrite ?(storeSlice_freshBuffer _ _ Hb), ?(storeSlice_freshBuffer _ _ Hd),
      ?(storeSlice_freshBuffer _ _ Hs);
    cbn -[json.storeSlice json.sliceValue freshBuffer];
    rewrite ?(storeSlice_freshBuffer _ _ Hb), ?(storeSlice_freshBuffer _ _ Hd),
      ?(storeSlice_freshBuffer _ _ Hs);
    cbn -[json.storeSlice json.sliceValue freshBuffer];
    rewrite ?(freshBuffer_omitted _ _ Hb), ?(freshBuffer_omitted _ _ Hd),
      ?(freshBuffer_omitted _ _ Hs);
    reflexivity.
Qed.

(** The members of the other fields of the configuration, stored: the
    first of them allocates the configuration if need be. *)
Lemma storeMembers_body_others (ms : list json.member) (st : BodyStateT) :
  Forall (fun m => selectsOther (fst m) = true) ms ->
  storeMembers storeBodyMember ms st
  = match ms with
    | [] => Some st
    | _ :: _ =>
        option_map
          (fun rest =>
             mkBodyState
               (Some
                  (mkConfigState (sHostname (configStateOf st))
                     (sDomainname (configStateOf st))
                     (sCmd (configStateOf st)) (sImage (configStateOf st))
                     (sEntrypoint (configStateOf st)) rest))
               (sHostConfig st) (sMacAddress st))
          (storeMembers
             (fun rest m => storeConfigRest (fst m) (snd m) rest) ms
             (sConfigRest (configStateOf st)))
    end.
Proof.
  intros Hall. revert st.
  induction Hall as [|[key v] ms Hm Hall IH]; intros st; [reflexivity|].
  cbn [storeMembers fst snd]. cbn [fst] in Hm.
  unfold storeBodyMember at 1. unfold selectsOther in Hm.
  fold (configStateOf st).
  destruct (json.selectField bodyFieldName bodyFields configRestSelects key)
    as [f| |]; try discriminate.
  destruct (storeConfigRest key v (sConfigRest (configStateOf st)))
    as [rest|]; [|reflexivity].
  cbn [option_map]. rewrite IH.
  destruct ms as [|m ms]; reflexivity.
Qed.

Lemma omitted_string (o : bool) (s : string) :
  o && String.eqb s "" = true -> s = "".
Proof. intros H. apply andb_true_iff in H. now apply String.eqb_eq. Qed.

(** The members of the five fields of a configuration, stored into the
    zero body. *)
Lemma store_configMembers (config : ConfigT) :
  let stored :=
    mkConfigState (docker.Hostname config) (docker.Domainname config)
      (freshBuffer (omitCmd tags) (docker.Cmd config)) (docker.Image config)
      (freshBuffer (omitEntrypoint tags) (docker.Entrypoint config))
      zeroConfigRest in
  storeMembers storeBodyMember (configMembers config) zeroBodyState
  = Some (mkBodyState
            match configMembers config with
            | [] => None
            | _ :: _ => Some stored
            end None "")
  /\ (configMembers config = [] -> stored = zeroConfigState).
Proof.
  destruct config as [h d cmd img ent rest].
  unfold configMembers, json.stringMember, json.sliceMember.
  cbn [docker.Hostname docker.Domainname docker.Cmd docker.Image
       docker.Entrypoint].
  destruct (omitHostname tags && String.eqb h "") eqn:Hh;
    [apply omitted_string in Hh; subst h|];
    (destruct (omitDomainname tags && String.eqb d "") eqn:Hd;
     [apply omitted_string in Hd; subst d|]);
    (destruct (omitImage tags && String.eqb img "") eqn:Hi;
     [apply omitted_string in Hi; subst img|]);
    destruct (omitCmd tags && (len cmd =? 0)) eqn:Hc;
    destruct (omitEntrypoint tags && (len ent =? 0)) eqn:He;
    (split; [|try discriminate]);
    cbn -[json.storeSlice json.sliceValue freshBuffer];
    rewrite ?(storeSlice_freshBuffer _ _ Hc), ?(storeSlice_freshBuffer _ _ He);
    cbn -[json.storeSlice json.sliceValue freshBuffer];
    rewrite ?(storeSlice_freshBuffer _ _ Hc), ?(storeSlice_freshBuffer _ _ He);
    cbn -[json.storeSlice json.sliceValue freshBuffer];
    rewrite ?(freshBuffer_omitted _ _ Hc), ?(freshBuffer_omitted _ _ He);
    reflexivity.
Qed.

Lemma configMembers_sealed (config : ConfigT) (rest : ConfigRest) :
  configMembers
    (sealConfig
       (mkConfigState (docker.Hostname config) (docker.Domainname config)
          (freshBuffer (omitCmd tags) (docker.Cmd config))
          (docker.Image config)
          (freshBuffer (omitEntrypoint tags) (docker.Entrypoint config))
          rest))
  = configMembers config.
Proof.
  unfold configMembers, sealConfig.
  cbn [sHostname sDomainname sCmd sImage sEntrypoint docker.Hostname
       docker.Domainname docker.Cmd docker.Image docker.Entrypoint].
  now rewrite !freshBuffer_visible.
Qed.

Lemma hostConfigMembers_sealed (h : HostConfigT) (rest : HostRest) :
  hostConfigMembers
    (sealHostConfig
       (mkHostConfigState (freshBuffer (omitBinds tags) (docker.Binds h))
          (freshBuffer (omitDNS tags) (docker.DNS h))
          (freshBuffer (omitDNSSearch tags) (docker.DNSSearch h)) rest))
  = hostConfigMembers h.
Proof.
  unfold hostConfigMembers, sealHostConfig.
  cbn [sBinds sDNS sDNSSearch docker.Binds docker.DNS docker.DNSSearch].
  now rewrite !freshBuffer_visible.
Qed.

(** Decoding what the encoder wrote succeeds, and gives a body that is
    written the same way. *)
Lemma decodeBody_encodeBody (c : BodyT) :
  configRestReturns -> hostRestReturns ->
  exists c', decodeBody (encodeBody c) = Some c' /\ encodeBody c' = encodeBody c.
Proof.
  intros Hconfig Hhost. destruct c as [config hostConfig mac].
  unfold decodeBody, encodeBody, decodeState, bodyMembers.
  cbn [Config HostConfig MacAddress].
  (* the configuration *)
  assert (Hfirst : exists st,
    storeMembers storeBodyMember
      match config with
      | Some config =>
          (configMembers config
           ++ configRestMembers (docker.ConfigRest config))%list
      | None => []
      end zeroBodyState = Some st
    /\ sHostConfig st = None /\ sMacAddress st = ""
    /\ match sConfig st with
       | Some stored =>
           (configMembers (sealConfig stored)
            ++ configRestMembers (sConfigRest stored))%list
       | None => []
       end
       = match config with
         | Some config =>
             (configMembers config
              ++ configRestMembers (docker.ConfigRest config))%list
         | None => []
         end).
  { destruct config as [config|]; [|now exists zeroBodyState].
    destruct (Hconfig (docker.ConfigRest config))
      as (Hkeys & rest' & Hstored & Hsame).
    rewrite (restAfter_all _ _ _ _ Hkeys) in Hstored.
    destruct (store_configMembers config) as [Hfive Hzero].
    cbv zeta in Hfive, Hzero.
    rewrite storeMembers_app, Hfive, (storeMembers_body_others _ _ Hkeys).
    destruct (configRestMembers (docker.ConfigRest config)) as [|m ms] eqn:Hms.
    - eexists. split; [reflexivity|]. cbn [sConfig sHostConfig sMacAddress].
      split; [reflexivity|]. split; [reflexivity|].
      cbn [storeMembers] in Hstored. inversion Hstored; subst rest'.
      destruct (configMembers config) as [|m ms] eqn:Hfivems;
        [reflexivity|].
      rewrite configMembers_sealed, Hfivems.
      cbn [sConfigRest]. now rewrite Hsame.
    - assert (Hstate :
        configStateOf
          (mkBodyState
             match configMembers config with
             | [] => None
             | _ :: _ =>
                 Some
                   (mkConfigState (docker.Hostname config)
                      (docker.Domainname config)
                      (freshBuffer (omitCmd tags) (docker.Cmd config))
                      (docker.Image config)
                      (freshBuffer (omitEntrypoint tags)
                         (docker.Entrypoint config)) zeroConfigRest)
             end None "")
        = mkConfigState (docker.Hostname config) (docker.Domainname config)
            (freshBuffer (omitCmd tags) (docker.Cmd config))
            (docker.Image config)
            (freshBuffer (omitEntrypoint tags) (docker.Entrypoint config))
            zeroConfigRest).
      { unfold configStateOf. cbn [sConfig].
        destruct (configMembers config); [|reflexivity].
        symmetry. now apply Hzero. }
      rewrite Hstate.
      cbn [sConfigRest sHostname sDomainname sCmd sImage sEntrypoint
           sHostConfig sMacAddress].
      rewrite Hstored. cbn [option_map].
      eexists. split; [reflexivity|]. cbn [sConfig sHostConfig sMacAddress].
      split; [reflexivity|]. split; [reflexivity|].
      rewrite configMembers_sealed. cbn [sConfigRest]. now rewrite Hsame. }
  destruct Hfirst as (st1 & Hst1 & Hnil & Hmac & Hwritten).
  rewrite storeMembers_app, Hst1, storeMembers_app.
  (* the host configuration *)
  match goal with
  | |- context [storeMembers storeBodyMember ?ms st1] =>
      set (written := ms)
  end.
  assert (Hsecond : exists st,
    storeMembers storeBodyMember written st1 = Some st
    /\ sConfig st = sConfig st1 /\ sMacAddress st = ""
    /\ match sHostConfig st with
       | Some stored =>
           [(bodyFieldName FHostConfig,
             json.Obj (hostConfigMembers (sealHostConfig stored)
                       ++ hostRestMembers (sHostConfigRest stored))%list)]
       | None => []
       end
       = match hostConfig with
         | Some h =>
             [(bodyFieldName FHostConfig,
               json.Obj (hostConfigMembers h
                         ++ hostRestMembers (docker.HostConfigRest h))%list)]
         | None => []
         end).
  { subst written.
    destruct hostConfig as [h|]; [|exists st1; now rewrite Hnil].
    destruct (Hhost (docker.HostConfigRest h))
      as (Hkeys & rest' & Hstored & Hsame).
    rewrite (restAfter_all _ _ _ _ Hkeys) in Hstored.
    cbn [storeMembers]. unfold storeBodyMember.
    cbn [json.selectField bodyFieldName bodyFields find String.eqb Ascii.eqb
         Bool.eqb].
    unfold storeHostConfig. rewrite Hnil.
    rewrite storeMembers_app, store_hostConfigMembers.
    rewrite (storeMembers_host_others _ _ Hkeys).
    cbn [sBinds sDNS sDNSSearch sHostConfigRest]. rewrite Hstored.
    cbn [option_map]. eexists. split; [reflexivity|].
    cbn [sConfig sHostConfig sMacAddress].
    split; [reflexivity|]. split; [exact Hmac|].
    rewrite hostConfigMembers_sealed. cbn [sHostConfigRest].
    now rewrite Hsame. }
  destruct Hsecond as (st2 & Hst2 & Hsame2 & Hmac2 & Hwritten2).
  rewrite Hst2. subst written.
  (* the MAC address *)
  assert (Hthird : exists st,
    storeMembers storeBodyMember
      (json.stringMember true (bodyFieldName FMacAddress) mac) st2 = Some st
    /\ sConfig st = sConfig st2 /\ sHostConfig st = sHostConfig st2
    /\ sMacAddress st = mac).
  { unfold json.stringMember. cbn [andb].
    destruct (String.eqb_spec mac "") as [->|Hne].
    - exists st2. auto.
    - cbn [storeMembers]. unfold storeBodyMember.
      cbn [json.selectField bodyFieldName bodyFields find String.eqb
           Ascii.eqb Bool.eqb json.storeString option_map].
      eexists. split; [reflexivity|]. auto. }
  destruct Hthird as (st3 & Hst3 & Hsame3 & Hhost3 & Hmac3).
  rewrite Hst3. cbn [option_map]. eexists. split; [reflexivity|].
  unfold encodeBody, bodyMembers, sealBody.
  cbn [Config HostConfig MacAddress]. rewrite Hsame3, Hsame2, Hhost3, Hmac3.
  f_equal. f_equal; [|f_equal].
  - rewrite <- Hwritten.
    destruct (sConfig st1) as [stored|]; reflexivity.
  - rewrite <- Hwritten2.
    destruct (sHostConfig st2) as [stored|]; reflexivity.
Qed.

(** ** The request as a whole *)

(** What the interceptor does with a body the resolver turns down. *)
Lemma InterceptRequest_ignored (i : InterceptorT)
    (r : Request Bytes) (body : Bytes) (doc : json.value)
    (container : BodyT) (err : foreignError) :
  Body r = Ok body ->
  jsonParse body = Ok doc ->
  decodeBody doc = Some container ->
  weaveCIDRsFromConfig (proxy i) (Config container) (HostConfig container)
  = Err err ->
  InterceptRequest i r
  = Some (Ok (mkRequest (Ok (jsonText (encodeBody container)))
                (byteLen (jsonText (encodeBody container))) (QueryName r)),
          [LogInfo ("Ignoring container due to " ++ foreignError_Error err)]).
Proof.
  intros Hbody Hparse Hdecode Hcidr.
  unfold InterceptRequest, json_Unmarshal.
  now rewrite Hbody, Hparse, Hdecode, Hcidr.
Qed.

(** C9. When the address resolver returns an error, [InterceptRequest]
    returns no error: it logs one line, calls neither the docker client nor
    the name service, and forwards the request with the decoded body
    encoded anew, none of the three steps applied to it, and with a content
    length that is the length of that new body. *)
Theorem InterceptRequest_resolver_error (i : InterceptorT)
    (r : Request Bytes) (body : Bytes)
    (container : BodyT) (err : foreignError) :
  Body r = Ok body ->
  json_Unmarshal body = Ok container ->
  weaveCIDRsFromConfig (proxy i) (Config container) (HostConfig container)
  = Err err ->
  exists r' newBody,
    InterceptRequest i r
    = Some (Ok r',
            [LogInfo ("Ignoring container due to "
                      ++ foreignError_Error err)])
    /\ json_Marshal container = Ok newBody
    /\ Body r' = Ok newBody
    /\ ContentLength r' = byteLen newBody
    /\ QueryName r' = QueryName r.
Proof.
  intros Hbody Hdecode Hcidr.
  exists (mkRequest (Ok (jsonText (encodeBody container)))
            (byteLen (jsonText (encodeBody container))) (QueryName r)),
         (jsonText (encodeBody container)).
  unfold InterceptRequest. rewrite Hbody, Hdecode, Hcidr.
  repeat split.
Qed.

(** A key that selects no field of the struct is skipped. *)
Lemma storeBodyMember_unknown_key (c : BodyStateT) (key : string)
    (v : json.value) :
  selectsNothing key = true -> storeBodyMember c (key, v) = Some c.
Proof.
  unfold selectsNothing, storeBodyMember.
  destruct (json.selectField bodyFieldName bodyFields configRestSelects key)
    as [f| |]; try discriminate.
  reflexivity.
Qed.




Lemma wrapEntrypoint_frame (c : ConfigT) :
  docker.Image (fst (wrapEntrypoint c)) = docker.Image c
  /\ docker.ConfigRest (fst (wrapEntrypoint c)) = docker.ConfigRest c.
Proof.
  rewrite wrapEntrypoint_spec.
  destruct (nothingToRun c); [now split|].
  now destruct (alreadyWrapped (docker.Entrypoint c)).
Qed.

Lemma imageDefaults_frame (c c1 : ConfigT) (image : ImageT) :
  imageDefaults c image = Some c1 ->
  docker.Image c1 = docker.Image c
  /\ docker.ConfigRest c1 = docker.ConfigRest c
  /\ docker.Hostname c1 = docker.Hostname c
  /\ docker.Domainname c1 = docker.Domainname c
  /\ (0 < len (docker.Cmd c) -> docker.Cmd c1 = docker.Cmd c)
  /\ (len (docker.Cmd c) = 0 ->
      exists imageConfig,
        docker.ImageConfig image = Some imageConfig
        /\ docker.Cmd c1 = docker.Cmd imageConfig)
  /\ (len (docker.Entrypoint c) = 0 ->
      len (docker.Entrypoint c1) = 0 \/ docker.Entrypoint c = None).
Proof using Type.
  forget_parameters.
  destruct (docker.ImageConfig image) as [imageConfig|] eqn:Himg.
  - rewrite (imageDefaults_Some c image imageConfig Himg).
    intros H. inversion H; subst c1; clear H.
    destruct c as [h d cmd img ent rest].
    cbn [docker.Cmd docker.Entrypoint docker.setCmd docker.setEntrypoint
         docker.Image docker.ConfigRest docker.Hostname docker.Domainname].
    destruct (Z.eqb_spec (len cmd) 0) as [Hcmd|Hcmd];
      destruct ent as [e|]; repeat apply conj;
      try reflexivity; intros; try lia; auto; eauto.
  - rewrite (imageDefaults_None c image Himg).
    destruct (Z.eqb_spec (len (docker.Cmd c)) 0) as [Hcmd|Hcmd];
      cbn [orb]; [discriminate|].
    destruct (docker.Entrypoint c) as [e|] eqn:Hent; [|discriminate].
    intros H. inversion H; subst c1; clear H.
    rewrite Hent. repeat apply conj; auto; intros; try lia; auto.
Qed.

Lemma afterImageDefaults_frame (i : InterceptorT) (c c1 : ConfigT) :
  afterImageDefaults i c = Some (Ok c1) ->
  docker.Image c1 = docker.Image c
  /\ docker.ConfigRest c1 = docker.ConfigRest c
  /\ docker.Hostname c1 = docker.Hostname c
  /\ docker.Domainname c1 = docker.Domainname c
  /\ (0 < len (docker.Cmd c) -> docker.Cmd c1 = docker.Cmd c).
Proof using Type.
  forget_parameters. unfold afterImageDefaults.
  destruct (len (docker.Entrypoint c) =? 0).
  - destruct (InspectImage (client (proxy i)) (docker.Image c))
      as [image|e]; [|discriminate].
    destruct (imageDefaults c image) as [c2|] eqn:Hdef; [|discriminate].
    intros H. inversion H; subst.
    pose proof (imageDefaults_frame c c1 image Hdef). tauto.
  - intros H. inversion H; subst. auto.
Qed.

Lemma setWeaveWaitEntrypoint_frame (i : InterceptorT) (c c' : ConfigT)
    (err : option error) (calls : list event) :
  setWeaveWaitEntrypoint i c = Some (c', err, calls) ->
  docker.Image c' = docker.Image c
  /\ docker.ConfigRest c' = docker.ConfigRest c.
Proof.
  rewrite setWeaveWaitEntrypoint_steps. cbv zeta.
  destruct (afterImageDefaults i c) as [[c1|[|msg]]|] eqn:Hstep;
    try discriminate;
    try (intros H; inversion H; subst; now split).
  destruct (afterImageDefaults_frame i c c1 Hstep) as (Hi & Hr & _).
  destruct (wrapEntrypoint_frame c1) as [Hwi Hwr].
  intros H. inversion H; subst. split; congruence.
Qed.




(** What a request that goes through the three steps is forwarded with. *)
Lemma InterceptRequest_steps (i : InterceptorT) (r r' : Request Bytes)
    (body : Bytes) (container : BodyT) (cidrs : list string)
    (events : list event) :
  Body r = Ok body ->
  json_Unmarshal body = Ok container ->
  weaveCIDRsFromConfig (proxy i) (Config container) (HostConfig container)
  = Ok cidrs ->
  InterceptRequest i r = Some (Ok r', events) ->
  exists config1 calls1 container' calls2,
    setWeaveWaitEntrypoint i (configOf container)
    = Some (config1, None, calls1)
    /\ setWeaveDNS i
         (mkBody (Some config1)
            (Some (addWeaveWaitVolume i (hostConfigOf container)))
            (MacAddress container)) r
       = Some (container', None, calls2)
    /\ r' = mkRequest (Ok (jsonText (encodeBody container')))
              (byteLen (jsonText (encodeBody container'))) (QueryName r)
    /\ events = creatingLine cidrs :: (calls1 ++ calls2)%list.
Proof.
  intros Hbody Hdecode Hcidr. unfold InterceptRequest.
  rewrite Hbody, Hdecode, Hcidr.
  fold (configOf container). fold (hostConfigOf container).
  destruct (setWeaveWaitEntrypoint i (configOf container))
    as [[[config1 [e|]] calls1]|]; try discriminate.
  destruct (setWeaveDNS i _ r) as [[[container' [e|]] calls2]|] eqn:Hdns;
    try discriminate.
  unfold forward, json_Marshal. intros H. inversion H; subst.
  now exists config1, calls1, container', calls2.
Qed.



(** [InterceptRequest] stops on a nil dereference only in its entrypoint
    step: those of [setWeaveDNS] are out of reach, since the configuration
    and the host configuration are allocated before the three steps. *)
Lemma InterceptRequest_panics (i : InterceptorT) (r : Request Bytes) :
  InterceptRequest i r = None <->
  exists body container cidrs,
    Body r = Ok body
    /\ json_Unmarshal body = Ok container
    /\ weaveCIDRsFromConfig (proxy i) (Config container)
         (HostConfig container) = Ok cidrs
    /\ setWeaveWaitEntrypoint i (configOf container) = None.
Proof.
  assert (Hback : forall body container,
    Body r = Ok body -> json_Unmarshal body = Ok container ->
    (exists body' container' cidrs,
       Body r = Ok body'
       /\ json_Unmarshal body' = Ok container'
       /\ weaveCIDRsFromConfig (proxy i) (Config container')
            (HostConfig container') = Ok cidrs
       /\ setWeaveWaitEntrypoint i (configOf container') = None) ->
    exists cidrs,
      weaveCIDRsFromConfig (proxy i) (Config container)
        (HostConfig container) = Ok cidrs
      /\ setWeaveWaitEntrypoint i (configOf container) = None).
  { intros body container Hbody Hdecode (b & c & ci & H1 & H2 & H3 & H4).
    rewrite Hbody in H1. inversion H1; subst b.
    rewrite Hdecode in H2. inversion H2; subst c. now exists ci. }
  unfold InterceptRequest.
  destruct (Body r) as [body|e] eqn:Hbody;
    [|split; [discriminate|intros (b & c & ci & H & _); discriminate]].
  destruct (json_Unmarshal body) as [container|e] eqn:Hdecode;
    [|split; [discriminate
             |intros (b & c & ci & H1 & H2 & _); inversion H1; subst;
              congruence]].
  specialize (Hback body container eq_refl Hdecode).
  destruct (weaveCIDRsFromConfig _ _ _) as [cidrs|e] eqn:Hcidr;
    [|split; [discriminate
             |intros H; destruct (Hback H) as (ci & H3 & _); discriminate]].
  fold (configOf container).
  destruct (setWeaveWaitEntrypoint i (configOf container))
    as [[[config1 [e|]] calls1]|] eqn:Hentry.
  - split; [discriminate|].
    intros H; destruct (Hback H) as (ci & _ & H4). discriminate.
  - assert (Hdns : setWeaveDNS i
                     (mkBody (Some config1)
                        (Some
                           (addWeaveWaitVolume i
                              match HostConfig container with
                              | Some h => h
                              | None => docker.zeroHostConfig zeroHostRest
                              end)) (MacAddress container)) r <> None).
    { unfold setWeaveDNS. cbn [Config HostConfig].
      destruct (WithoutDNS (proxy i)); [discriminate|].
      destruct (getDNSDomain i) as [[dnsDomain dnsRunning] calls0].
      destruct (negb (dnsRunning || WithDNS (proxy i))); [discriminate|].
      destruct (hostnameStep dnsDomain (QueryName r) config1). discriminate. }
    destruct (setWeaveDNS i _ r) as [[[container2 [e|]] calls2]|];
      [| |contradiction].
    + split; [discriminate|].
      intros H; destruct (Hback H) as (ci & _ & H4). discriminate.
    + split; [discriminate|].
      intros H; destruct (Hback H) as (ci & _ & H4). discriminate.
  - split; [|reflexivity]. intros _. now exists body, container, cidrs.
Qed.

(** ** More on the volume injector *)

Lemma strings_Split_no_separator (sep : ascii) (s : string) :
  hasByte sep s = false -> strings_Split s sep = [s].
Proof.
  induction s as [|c s IH]; simpl; intros Hno; [reflexivity|].
  apply orb_false_iff in Hno. destruct Hno as [Hc Hs].
  now rewrite Hc, (IH Hs).
Qed.

Lemma forallb_filter_same {A : Type} (f : A -> bool) (l : list A) :
  forallb f (filter f l) = true.
Proof.
  induction l as [|x l IH]; simpl; [reflexivity|].
  destruct (f x) eqn:Hx; simpl; [now rewrite Hx|exact IH].
Qed.

Lemma filter_targetIsW_kept (l : list string) :
  filter targetIsW (filter keepBind l) = [].
Proof.
  induction l as [|b l IH]; simpl; [reflexivity|].
  unfold keepBind at 1. destruct (targetIsW b) eqn:Hb; simpl; [exact IH|].
  now rewrite Hb.
Qed.

(** X1. In the binds [addWeaveWaitVolume] leaves, the last entry is the
    support volume's and no entry before it mounts [/w]; so at most one
    entry mounts [/w], and exactly one when the path of the support volume
    holds no colon. *)
Theorem addWeaveWaitVolume_single_mount (i : InterceptorT)
    (hostConfig : HostConfigT) :
  let binds := elems (docker.Binds (addWeaveWaitVolume i hostConfig)) in
  last binds "" = supportBind i
  /\ forallb keepBind (removelast binds) = true
  /\ (List.length (filter targetIsW binds) <= 1)%nat
  /\ (hasByte ":" (weaveWaitVolume (proxy i)) = false ->
      List.length (filter targetIsW binds) = 1%nat).
Proof using Type.
  forget_parameters.
  cbv zeta. rewrite addWeaveWaitVolume_Binds. cbn [elems].
  rewrite last_last, removelast_last, filter_app, filter_targetIsW_kept.
  cbn [app filter].
  repeat apply conj.
  - reflexivity.
  - apply forallb_filter_same.
  - destruct (targetIsW (supportBind i)); simpl; lia.
  - intros Hno. now rewrite (targetIsW_supportBind i Hno).
Qed.

(** X2. An entry is among the binds [addWeaveWaitVolume] leaves exactly
    when it is an original entry that does not mount [/w] or the support
    volume's entry. An original entry without any colon has no mount
    target and is always kept, even the entry [/w] itself. *)
Theorem addWeaveWaitVolume_membership (i : InterceptorT)
    (hostConfig : HostConfigT) (bind : string) :
  (In bind (elems (docker.Binds (addWeaveWaitVolume i hostConfig))) <->
   (In bind (elems (docker.Binds hostConfig)) /\ targetIsW bind = false)
   \/ bind = supportBind i)
  /\ (hasByte ":" bind = false ->
      In bind (elems (docker.Binds hostConfig)) ->
      In bind (elems (docker.Binds (addWeaveWaitVolume i hostConfig)))).
Proof using Type.
  forget_parameters.
  rewrite addWeaveWaitVolume_Binds. cbn [elems].
  assert (Hmem :
    In bind (filter keepBind (elems (docker.Binds hostConfig))
             ++ [supportBind i])%list <->
    (In bind (elems (docker.Binds hostConfig)) /\ targetIsW bind = false)
    \/ bind = supportBind i).
  { rewrite in_app_iff, filter_In. unfold keepBind.
    rewrite negb_true_iff. cbn [In]. intuition congruence. }
  split; [exact Hmem|].
  intros Hno Hin. apply Hmem. left. split; [exact Hin|].
  unfold targetIsW. now rewrite (strings_Split_no_separator _ _ Hno).
Qed.

(** X3. [strings_Split] cuts at every separator and nowhere else: joining
    the fields with the separator gives the string back, no field holds the
    separator, and there is one field more than there are separators. *)
Theorem strings_Split_Join (s : string) (sep : ascii) :
  strings_Join (strings_Split s sep) (String sep "") = s
  /\ Forall (fun field => hasByte sep field = false) (strings_Split s sep)
  /\ List.length (strings_Split s sep) = S (countByte sep s).
Proof using Type.
  forget_parameters.
  unfold strings_Join.
  induction s as [|c s (IHjoin & IHfields & IHlen)]; simpl.
  - repeat split. constructor; [reflexivity|constructor].
  - destruct (Ascii.eqb_spec c sep) as [->|Hc].
    + repeat apply conj.
      * destruct (strings_Split s sep) as [|f fs] eqn:Hs; [discriminate|].
        simpl. now rewrite <- IHjoin.
      * constructor; [reflexivity|exact IHfields].
      * simpl. now rewrite IHlen.
    + destruct (strings_Split s sep) as [|f fs] eqn:Hs; [discriminate|].
      repeat apply conj.
      * rewrite <- IHjoin. simpl. now destruct fs.
      * inversion IHfields as [|? ? Hf Hfs]; subst.
        constructor; [|exact Hfs]. simpl.
        apply Ascii.eqb_neq in Hc. now rewrite Hc, Hf.
      * simpl in *. exact IHlen.
Qed.

(** ** More on the entrypoint wrapper *)

Lemma wrapEntrypoint_keeps (c : ConfigT) :
  docker.Hostname (fst (wrapEntrypoint c)) = docker.Hostname c
  /\ docker.Domainname (fst (wrapEntrypoint c)) = docker.Domainname c
  /\ docker.Cmd (fst (wrapEntrypoint c)) = docker.Cmd c.
Proof.
  rewrite wrapEntrypoint_spec.
  destruct (nothingToRun c); [auto|].
  destruct (alreadyWrapped (docker.Entrypoint c)); auto.
Qed.

(** X4. When [setWeaveWaitEntrypoint] succeeds, the entrypoint it leaves
    starts with the first element of the wrapper sequence, and the image,
    the hostname and the domain name of the configuration are those it was
    given. *)
Theorem setWeaveWaitEntrypoint_success (i : InterceptorT)
    (c c' : ConfigT) (calls : list event) :
  setWeaveWaitEntrypoint i c = Some (c', None, calls) ->
  (exists rest, elems (docker.Entrypoint c') = weaveWaitBinary :: rest)
  /\ docker.Image c' = docker.Image c
  /\ docker.Hostname c' = docker.Hostname c
  /\ docker.Domainname c' = docker.Domainname c.
Proof using Type.
  forget_parameters. intros Hrun.
  rewrite setWeaveWaitEntrypoint_steps in Hrun. cbv zeta in Hrun.
  destruct (afterImageDefaults i c) as [[c1|[|msg]]|] eqn:Hstep;
    try discriminate.
  destruct (afterImageDefaults_frame i c c1 Hstep)
    as (Hi & _ & Hh & Hd & _).
  destruct (wrapEntrypoint_frame c1) as [Hwi _].
  destruct (wrapEntrypoint_keeps c1) as (Hwh & Hwd & _).
  assert (Hc' : c' = fst (wrapEntrypoint c1)) by (now inversion Hrun).
  assert (Herr : snd (wrapEntrypoint c1) = None) by (now inversion Hrun).
  subst c'. repeat apply conj; try congruence.
  rewrite wrapEntrypoint_spec in *.
  destruct (nothingToRun c1); [discriminate|].
  destruct (alreadyWrapped (docker.Entrypoint c1)) eqn:Hw; cbn [fst].
  - unfold alreadyWrapped in Hw.
    destruct (elems (docker.Entrypoint c1)) as [|first rest];
      [discriminate|].
    apply String.eqb_eq in Hw. subst first. now exists rest.
  - cbn. now exists (weaveWaitArgs ++ elems (docker.Entrypoint c1))%list.
Qed.

(** X5. [setWeaveWaitEntrypoint] fails only on an empty entrypoint and
    after exactly one inspection of the configuration's image. It then
    leaves the entrypoint empty, without the wrapper; unless the error is
    [ErrNoCommandSpecified] the configuration is wholly as it was, and with
    [ErrNoCommandSpecified] the command was empty and is empty still. *)
Theorem setWeaveWaitEntrypoint_failure (i : InterceptorT)
    (c c' : ConfigT) (err : error) (calls : list event) :
  setWeaveWaitEntrypoint i c = Some (c', Some err, calls) ->
  len (docker.Entrypoint c) = 0
  /\ len (docker.Entrypoint c') = 0
  /\ calls = [CallInspectImage (docker.Image c)]
  /\ (err <> ErrNoCommandSpecified -> c' = c)
  /\ (err = ErrNoCommandSpecified ->
      len (docker.Cmd c) = 0 /\ len (docker.Cmd c') = 0).
Proof using Type.
  forget_parameters. unfold setWeaveWaitEntrypoint.
  destruct (Z.eqb_spec (len (docker.Entrypoint c)) 0) as [Hlen|Hlen].
  - destruct (InspectImage (client (proxy i)) (docker.Image c))
      as [image|[|msg]].
    + destruct (imageDefaults c image) as [c1|] eqn:Hdef; [|discriminate].
      rewrite wrapEntrypoint_spec.
      destruct (imageDefaults_frame c c1 image Hdef)
        as (_ & _ & _ & _ & Hcmd & _ & Hent).
      destruct (nothingToRun c1) eqn:Hrun.
      * intros H. inversion H; subst.
        unfold nothingToRun in Hrun. apply andb_true_iff in Hrun.
        destruct Hrun as [He Hc]. apply Z.eqb_eq in He, Hc.
        repeat apply conj; auto; try congruence.
        intros _. split; [|exact Hc].
        destruct (Z.eqb_spec (len (docker.Cmd c)) 0) as [H0|H0]; [exact H0|].
        assert (Hpos : 0 < len (docker.Cmd c)) by (unfold len in *; lia).
        rewrite (Hcmd Hpos) in Hc. contradiction.
      * destruct (alreadyWrapped _); discriminate.
    + intros H. inversion H; subst.
      repeat apply conj; auto; try discriminate.
    + intros H. inversion H; subst.
      repeat apply conj; auto; try discriminate.
  - rewrite wrapEntrypoint_spec.
    assert (Hpos : 0 < len (docker.Entrypoint c)) by (unfold len in *; lia).
    rewrite (nothingToRun_nonempty c Hpos).
    destruct (alreadyWrapped _); discriminate.
Qed.

(** X6. A command that is not empty is never replaced, and with it
    [setWeaveWaitEntrypoint] never returns [ErrNoCommandSpecified],
    whatever the entrypoint and the image are. *)
Theorem setWeaveWaitEntrypoint_keeps_command
    (i : InterceptorT) (c c' : ConfigT) (err : option error)
    (calls : list event) :
  0 < len (docker.Cmd c) ->
  setWeaveWaitEntrypoint i c = Some (c', err, calls) ->
  docker.Cmd c' = docker.Cmd c /\ err <> Some ErrNoCommandSpecified.
Proof using Type.
  forget_parameters. intros Hcmd.
  rewrite setWeaveWaitEntrypoint_steps. cbv zeta.
  destruct (afterImageDefaults i c) as [[c1|[|msg]]|] eqn:Hstep;
    try discriminate;
    try (intros H; inversion H; subst; split; [reflexivity|discriminate]).
  destruct (afterImageDefaults_frame i c c1 Hstep) as (_ & _ & _ & _ & Hc1).
  destruct (wrapEntrypoint_keeps c1) as (_ & _ & Hkeep).
  intros H. inversion H; subst; clear H.
  split; [rewrite Hkeep; auto|].
  rewrite wrapEntrypoint_spec.
  assert (Hrun : nothingToRun c1 = false).
  { unfold nothingToRun. rewrite (Hc1 Hcmd).
    destruct (Z.eqb_spec (len (docker.Cmd c)) 0); [lia|].
    apply andb_false_r. }
  rewrite Hrun. destruct (alreadyWrapped _); discriminate.
Qed.

(** X7. An entrypoint that is present but empty keeps the image's
    entrypoint out: when a command is there, the configuration's own or
    else the image's, the entrypoint becomes the wrapper sequence alone. *)
Theorem setWeaveWaitEntrypoint_explicitly_empty
    (i : InterceptorT) (c : ConfigT) (image : ImageT) :
  docker.Entrypoint c = Some [] ->
  InspectImage (client (proxy i)) (docker.Image c) = Ok image ->
  let cmd1 :=
    if len (docker.Cmd c) =? 0 then
      match docker.ImageConfig image with
      | Some imageConfig => docker.Cmd imageConfig
      | None => None
      end
    else docker.Cmd c in
  0 < len cmd1 ->
  setWeaveWaitEntrypoint i c
  = Some (docker.setEntrypoint (docker.setCmd c cmd1)
            (Some weaveWaitEntrypoint),
          None, [CallInspectImage (docker.Image c)]).
Proof using Type.
  forget_parameters. intros Hent Hins cmd1 Hcmd.
  unfold setWeaveWaitEntrypoint. rewrite Hent, Hins.
  cbn [len elems List.length]. cbn [Z.of_nat Z.eqb].
  assert (Hdef : imageDefaults c image
                 = Some (docker.setEntrypoint (docker.setCmd c cmd1)
                           (Some []))).
  { subst cmd1.
    destruct (docker.ImageConfig image) as [imageConfig|] eqn:Himg.
    - rewrite (imageDefaults_Some c image imageConfig Himg). now rewrite Hent.
    - rewrite (imageDefaults_None c image Himg), Hent.
      destruct (len (docker.Cmd c) =? 0); [cbn in Hcmd; lia|].
      cbn [orb]. f_equal. destruct c as [h d cmd img ent rest].
      cbn in Hent. now subst ent. }
  rewrite Hdef, wrapEntrypoint_spec.
  unfold nothingToRun, alreadyWrapped, wrapped. cbn.
  destruct (Z.eqb_spec (len cmd1) 0) as [H0|H0]; [lia|].
  rewrite app_nil_r. reflexivity.
Qed.

(** ** More on the DNS configurator *)

Lemma getDNSDomain_no_log (i : InterceptorT) (msg : string) :
  ~ In (LogWarning msg) (snd (getDNSDomain i))
  /\ ~ In (LogInfo msg) (snd (getDNSDomain i)).
Proof.
  unfold getDNSDomain.
  repeat match goal with
    | |- context [match ?x with _ => _ end] => destruct x
    end; cbn [snd In]; split; intros H;
    repeat match goal with H : _ \/ _ |- _ => destruct H end;
    try discriminate; assumption.
Qed.

Lemma hostnameStep_cases (dnsDomain name : string) (c : ConfigT) :
  let c' := fst (hostnameStep dnsDomain name c) in
  (c' = c
   \/ (docker.Hostname c = "" /\ name <> ""
       /\ slen name + 1 + slen (strings_TrimSuffix dnsDomain ".")
          <= MaxDockerHostname
       /\ c' = docker.setDomainname (docker.setHostname c name)
                 (strings_TrimSuffix dnsDomain ".")))
  /\ (docker.Hostname c <> "" \/ name = "" ->
      hostnameStep dnsDomain name c = (c, [])).
Proof using Type.
  forget_parameters. unfold hostnameStep.
  destruct (String.eqb_spec (docker.Hostname c) "") as [Hh|Hh];
    destruct (String.eqb_spec name "") as [Hn|Hn]; cbn [andb negb fst];
    try (split; [left; reflexivity|reflexivity]).
  destruct (Z.gtb_spec (slen name + 1
                        + slen (strings_TrimSuffix dnsDomain "."))
              MaxDockerHostname) as [Hgt|Hle]; cbn [fst].
  - split; [left; reflexivity|]. intros [H|H]; contradiction.
  - split; [right; auto|]. intros [H|H]; contradiction.
Qed.

Lemma hostnameStep_again (dnsDomain name : string) (c : ConfigT) :
  fst (hostnameStep dnsDomain name (fst (hostnameStep dnsDomain name c)))
  = fst (hostnameStep dnsDomain name c).
Proof using Type.
  forget_parameters.
  destruct (hostnameStep_cases dnsDomain name c) as [Hcases _].
  cbv zeta in Hcases.
  destruct Hcases as [Hsame|(Hh & Hn & Hle & Hset)].
  - now rewrite Hsame.
  - rewrite Hset.
    destruct (hostnameStep_cases dnsDomain name
                (docker.setDomainname (docker.setHostname c name)
                   (strings_TrimSuffix dnsDomain "."))) as [_ Hkeep].
    rewrite Hkeep; [reflexivity|]. left. exact Hn.
Qed.

Lemma dnsSearchStep_nonempty (dnsDomain : string) (c : ConfigT)
    (h : HostConfigT) :
  0 < len (docker.DNSSearch (dnsSearchStep dnsDomain c h))
  /\ docker.Binds (dnsSearchStep dnsDomain c h) = docker.Binds h
  /\ docker.DNS (dnsSearchStep dnsDomain c h) = docker.DNS h.
Proof using Type.
  forget_parameters. unfold dnsSearchStep.
  destruct (Z.eqb_spec (len (docker.DNSSearch h)) 0) as [H0|H0].
  - destruct (String.eqb (docker.Hostname c) ""); cbn; repeat split; lia.
  - repeat split. unfold len in *. lia.
Qed.

Lemma setWeaveDNS_nil (i : InterceptorT)
    (container : BodyT) (r : Request Bytes) :
  dnsProceeds i = true ->
  HostConfig container = None \/ Config container = None ->
  setWeaveDNS i container r = None.
Proof.
  unfold setWeaveDNS, dnsProceeds. intros Hgo Hnil.
  apply andb_true_iff in Hgo. destruct Hgo as [Hwo Hrun].
  apply negb_true_iff in Hwo. rewrite Hwo.
  destruct (getDNSDomain i) as [[dnsDomain dnsRunning] calls0].
  cbn [fst snd] in *. rewrite Hrun. cbn [negb].
  destruct (HostConfig container) as [h|]; [|reflexivity].
  destruct (Config container) as [config|]; [|reflexivity].
  destruct Hnil; discriminate.
Qed.

(** X8. [setWeaveDNS] never returns an error. It stops on a nil
    dereference exactly when the DNS step goes on and the body lacks its
    host configuration or its configuration. *)
Theorem setWeaveDNS_outcome (i : InterceptorT)
    (container : BodyT) (r : Request Bytes) :
  (setWeaveDNS i container r = None <->
   dnsProceeds i = true
   /\ (HostConfig container = None \/ Config container = None))
  /\ (forall container' err calls,
        setWeaveDNS i container r = Some (container', err, calls) ->
        err = None).
Proof.
  unfold setWeaveDNS, dnsProceeds.
  destruct (WithoutDNS (proxy i)); cbn [negb andb].
  { split; [split; [discriminate|intros [H _]; discriminate]|].
    intros c' err calls H. now inversion H. }
  destruct (getDNSDomain i) as [[dnsDomain dnsRunning] calls0].
  cbn [fst snd]. destruct (dnsRunning || WithDNS (proxy i)); cbn [negb].
  2:{ split; [split; [discriminate|intros [H _]; discriminate]|].
      intros c' err calls H. now inversion H. }
  destruct (HostConfig container) as [h|];
    [|split; [split; auto|discriminate]].
  destruct (Config container) as [config|];
    [|split; [split; auto|discriminate]].
  destruct (hostnameStep dnsDomain (QueryName r) config) as [config1 logs].
  split.
  - split; [discriminate|]. intros [_ [H|H]]; discriminate.
  - intros c' err calls H. now inversion H.
Qed.

(** X9. When the DNS step goes on, the bridge address is appended to
    [hostConfig.DNS] as its last element and the search list is not empty
    afterwards; the binds, the MAC address, and the image, the command and
    the entrypoint of the configuration are left alone. *)
Theorem setWeaveDNS_appends_bridge (i : InterceptorT)
    (container : BodyT) (r : Request Bytes)
    (config : ConfigT) (hostConfig : HostConfigT) :
  dnsProceeds i = true ->
  Config container = Some config ->
  HostConfig container = Some hostConfig ->
  exists config' hostConfig' calls,
    setWeaveDNS i container r
    = Some (mkBody (Some config') (Some hostConfig') (MacAddress container),
            None, calls)
    /\ docker.DNS hostConfig'
       = Some (elems (docker.DNS hostConfig)
               ++ [dockerBridgeIP (proxy i)])%list
    /\ 0 < len (docker.DNSSearch hostConfig')
    /\ docker.Binds hostConfig' = docker.Binds hostConfig
    /\ docker.Image config' = docker.Image config
    /\ docker.Cmd config' = docker.Cmd config
    /\ docker.Entrypoint config' = docker.Entrypoint config.
Proof.
  intros Hgo Hc Hh.
  pose proof (setWeaveDNS_proceeds i container r config hostConfig Hgo Hc Hh)
    as Hrun. cbv zeta in Hrun. rewrite Hrun. clear Hrun.
  eexists _, _, _. split; [reflexivity|].
  match goal with
  | |- context [dnsSearchStep ?d ?c ?h] =>
      destruct (dnsSearchStep_nonempty d c h) as (Hne & Hb & Hd)
  end.
  rewrite Hd, Hb. cbn [docker.setDNS docker.DNS docker.Binds].
  destruct (hostnameStep_cases (dnsDomainOf i) (QueryName r) config)
    as [[Hsame|(_ & _ & _ & Hset)] _]; cbv zeta in *.
  - rewrite Hsame in *. repeat split; assumption || reflexivity.
  - rewrite Hset in *. repeat split; assumption || reflexivity.
Qed.

(** X10. A hostname the client gave is never overwritten, and without a
    name in the request none is set: in both cases the DNS step leaves the
    whole configuration as it was and logs no warning. *)
Theorem setWeaveDNS_keeps_hostname (i : InterceptorT)
    (container : BodyT) (r : Request Bytes)
    (config : ConfigT) (hostConfig : HostConfigT) :
  dnsProceeds i = true ->
  Config container = Some config ->
  HostConfig container = Some hostConfig ->
  docker.Hostname config <> "" \/ QueryName r = "" ->
  exists container' calls,
    setWeaveDNS i container r = Some (container', None, calls)
    /\ Config container' = Some config
    /\ forall msg, ~ In (LogWarning msg) calls.
Proof.
  intros Hgo Hc Hh Hkeep.
  pose proof (setWeaveDNS_proceeds i container r config hostConfig Hgo Hc Hh)
    as Hrun. cbv zeta in Hrun. rewrite Hrun. clear Hrun.
  destruct (hostnameStep_cases (dnsDomainOf i) (QueryName r) config)
    as [_ Hstep].
  rewrite (Hstep Hkeep). cbn [fst snd].
  eexists _, _. split; [reflexivity|]. split; [reflexivity|].
  intros msg. rewrite app_nil_r. apply getDNSDomain_no_log.
Qed.

(** X11. A hostname the DNS step sets is the name of the request, and
    together with the domain name set along with it, one byte between
    them, it is no longer than [MaxDockerHostname]. *)
Theorem setWeaveDNS_hostname_fits (i : InterceptorT)
    (container : BodyT) (r : Request Bytes)
    (config : ConfigT) (hostConfig : HostConfigT) :
  dnsProceeds i = true ->
  Config container = Some config ->
  HostConfig container = Some hostConfig ->
  docker.Hostname config = "" ->
  exists container' config' calls,
    setWeaveDNS i container r = Some (container', None, calls)
    /\ Config container' = Some config'
    /\ (docker.Hostname config' <> "" ->
        docker.Hostname config' = QueryName r
        /\ slen (docker.Hostname config') + 1
           + slen (docker.Domainname config') <= MaxDockerHostname).
Proof.
  intros Hgo Hc Hh Hunset.
  pose proof (setWeaveDNS_proceeds i container r config hostConfig Hgo Hc Hh)
    as Hrun. cbv zeta in Hrun. rewrite Hrun. clear Hrun.
  eexists _, _, _. split; [reflexivity|]. split; [reflexivity|].
  destruct (hostnameStep_cases (dnsDomainOf i) (QueryName r) config)
    as [[Hsame|(_ & _ & Hle & Hset)] _]; cbv zeta in *.
  - rewrite Hsame. intros Hset. contradiction.
  - rewrite Hset. intros _. split; [reflexivity|exact Hle].
Qed.

(** X12. Going through the DNS step a second time appends the bridge
    address once more and changes nothing else: the configuration, the
    search list and the binds stay as the first pass left them. *)
Theorem setWeaveDNS_twice (i : InterceptorT)
    (container container1 : BodyT) (r : Request Bytes)
    (calls1 : list event) :
  dnsProceeds i = true ->
  setWeaveDNS i container r = Some (container1, None, calls1) ->
  exists hostConfig1 hostConfig2 calls2,
    HostConfig container1 = Some hostConfig1
    /\ setWeaveDNS i container1 r
       = Some (mkBody (Config container1) (Some hostConfig2)
                 (MacAddress container1), None, calls2)
    /\ docker.DNS hostConfig2
       = Some (elems (docker.DNS hostConfig1)
               ++ [dockerBridgeIP (proxy i)])%list
    /\ docker.DNSSearch hostConfig2 = docker.DNSSearch hostConfig1
    /\ docker.Binds hostConfig2 = docker.Binds hostConfig1.
Proof.
  intros Hgo Hrun.
  destruct (Config container) as [config|] eqn:Hc.
  2:{ rewrite (setWeaveDNS_nil i container r Hgo) in Hrun by auto.
      discriminate. }
  destruct (HostConfig container) as [hostConfig|] eqn:Hh.
  2:{ rewrite (setWeaveDNS_nil i container r Hgo) in Hrun by auto.
      discriminate. }
  pose proof (setWeaveDNS_proceeds i container r config hostConfig Hgo Hc Hh)
    as Hfirst. cbv zeta in Hfirst. rewrite Hfirst in Hrun.
  inversion Hrun as [[Hc1 Hcalls]]. clear Hrun Hfirst Hcalls.
  set (config1 := fst (hostnameStep (dnsDomainOf i) (QueryName r) config)).
  set (hostConfig1 :=
         dnsSearchStep (dnsDomainOf i) config1
           (docker.setDNS hostConfig
              (Some (elems (docker.DNS hostConfig)
                     ++ [dockerBridgeIP (proxy i)])%list))).
  pose proof (setWeaveDNS_proceeds i
                (mkBody (Some config1) (Some hostConfig1)
                   (MacAddress container)) r config1 hostConfig1 Hgo
                eq_refl eq_refl) as Hsecond.
  cbv zeta in Hsecond. cbn [MacAddress Config HostConfig] in *.
  rewrite Hsecond. unfold config1 at 1 2. rewrite hostnameStep_again.
  fold config1.
  eexists hostConfig1, _, _. split; [reflexivity|]. split; [reflexivity|].
  destruct (dnsSearchStep_nonempty (dnsDomainOf i) config1
              (docker.setDNS hostConfig
                 (Some (elems (docker.DNS hostConfig)
                        ++ [dockerBridgeIP (proxy i)])%list)))
    as (Hne & _ & _). fold hostConfig1 in Hne.
  unfold dnsSearchStep at 1 2 3. cbn [docker.setDNS docker.DNSSearch].
  destruct (Z.eqb_spec (len (docker.DNSSearch hostConfig1)) 0) as [H0|H0];
    [lia|].
  cbn. auto.
Qed.

(** X14. [getDNSDomain] inspects the container [weavedns] once and first,
    asks the name service for its domain at most once, and only when the
    container was found with an address, at
    [http://<address>:<port>/domain]; it writes nothing to the logs. *)
Theorem getDNSDomain_calls (i : InterceptorT) :
  let found :=
    exists dnsContainer settings,
      InspectContainer (client (proxy i)) "weavedns" = Ok dnsContainer
      /\ docker.ContainerNetworkSettings dnsContainer = Some settings
      /\ docker.IPAddress settings <> ""
      /\ snd (getDNSDomain i)
         = [CallInspectContainer "weavedns";
            CallHttpGet ("http://" ++ docker.IPAddress settings ++ ":"
                         ++ fmt_d nameserver_DefaultHTTPPort ++ "/domain")] in
  (found
   \/ (snd (getDNSDomain i) = [CallInspectContainer "weavedns"]
       /\ snd (fst (getDNSDomain i)) = false))
  /\ forall msg,
       ~ In (LogWarning msg) (snd (getDNSDomain i))
       /\ ~ In (LogInfo msg) (snd (getDNSDomain i)).
Proof.
  cbv zeta. split; [|apply getDNSDomain_no_log].
  unfold getDNSDomain.
  destruct (InspectContainer (client (proxy i)) "weavedns")
    as [dnsContainer|e] eqn:Hins; [|right; split; reflexivity].
  destruct (docker.ContainerNetworkSettings dnsContainer) as [settings|]
    eqn:Hset; [|right; split; reflexivity].
  destruct (String.eqb_spec (docker.IPAddress settings) "") as [Hip|Hip];
    [right; split; reflexivity|].
  left. exists dnsContainer, settings.
  split; [reflexivity|]. split; [exact Hset|]. split; [exact Hip|].
  destruct (http_Get _) as [resp|e]; [|reflexivity].
  destruct (negb (StatusCode resp =? http_StatusOK)); [reflexivity|].
  destruct (ReadAllBody resp); reflexivity.
Qed.

(** ** More on the request as a whole *)

Lemma alreadyWrapped_starts (e : Slice) :
  alreadyWrapped e = true -> exists rest, elems e = weaveWaitBinary :: rest.
Proof using Type.
  forget_parameters. unfold alreadyWrapped.
  destruct (elems e) as [|first rest]; [discriminate|].
  intros H. apply String.eqb_eq in H. subst first. now exists rest.
Qed.

Lemma setWeaveWaitEntrypoint_alreadyWrapped
    (i : InterceptorT) (c c' : ConfigT)
    (calls : list event) :
  setWeaveWaitEntrypoint i c = Some (c', None, calls) ->
  alreadyWrapped (docker.Entrypoint c') = true.
Proof using Type.
  forget_parameters. intros Hrun.
  rewrite setWeaveWaitEntrypoint_steps in Hrun. cbv zeta in Hrun.
  destruct (afterImageDefaults i c) as [[c1|[|msg]]|]; try discriminate.
  rewrite wrapEntrypoint_spec in Hrun.
  destruct (nothingToRun c1); [discriminate|].
  destruct (alreadyWrapped (docker.Entrypoint c1)) eqn:Hw;
    cbn [fst snd] in Hrun; inversion Hrun; subst; [assumption|].
  apply alreadyWrapped_wrapped.
Qed.

(** What [setWeaveDNS] leaves alone, whether it goes on or not. *)
Lemma setWeaveDNS_keeps (i : InterceptorT)
    (container container' : BodyT) (r : Request Bytes)
    (config : ConfigT) (hostConfig : HostConfigT)
    (err : option error) (calls : list event) :
  Config container = Some config ->
  HostConfig container = Some hostConfig ->
  setWeaveDNS i container r = Some (container', err, calls) ->
  exists config' hostConfig',
    container' = mkBody (Some config') (Some hostConfig')
                   (MacAddress container)
    /\ docker.Entrypoint config' = docker.Entrypoint config
    /\ docker.Cmd config' = docker.Cmd config
    /\ docker.Image config' = docker.Image config
    /\ docker.Binds hostConfig' = docker.Binds hostConfig
    /\ forall msg, ~ In (LogInfo msg) calls.
Proof.
  intros Hc Hh.
  destruct (dnsProceeds i) eqn:Hgo.
  - pose proof (setWeaveDNS_proceeds i container r config hostConfig Hgo Hc
                  Hh) as Hrun. cbv zeta in Hrun. rewrite Hrun.
    intros H. inversion H; subst. eexists _, _. split; [reflexivity|].
    match goal with
    | |- context [dnsSearchStep ?d ?c ?h] =>
        destruct (dnsSearchStep_nonempty d c h) as (_ & Hb & _)
    end.
    rewrite Hb. cbn [docker.setDNS docker.Binds].
    assert (Hlog : forall msg,
              ~ In (LogInfo msg)
                  (snd (getDNSDomain i)
                   ++ snd (hostnameStep (dnsDomainOf i) (QueryName r)
                             config))%list).
    { intros msg Hin. apply in_app_or in Hin. destruct Hin as [Hin|Hin].
      - now apply (getDNSDomain_no_log i msg).
      - unfold hostnameStep in Hin.
        destruct (_ && _) in Hin; [|contradiction].
        destruct (_ >? _) in Hin; [|contradiction].
        destruct Hin as [Hin|Hin]; [discriminate|contradiction]. }
    destruct (hostnameStep_cases (dnsDomainOf i) (QueryName r) config)
      as [[Hsame|(_ & _ & _ & Hset)] _]; cbv zeta in *.
    + rewrite Hsame in *. auto 10.
    + rewrite Hset in *. auto 10.
  - unfold setWeaveDNS. unfold dnsProceeds in Hgo.
    destruct (WithoutDNS (proxy i)); cbn [negb andb] in Hgo.
    + intros H. inversion H as [[Hc' He Hcalls]]. exists config, hostConfig.
      destruct container as [c0 h0 m]. cbn in Hc, Hh. subst c0 h0.
      subst container' calls. cbn. repeat split; auto.
    + pose proof (getDNSDomain_no_log i) as Hlog.
      destruct (getDNSDomain i) as [[dnsDomain dnsRunning] calls0].
      cbn [fst snd] in *. rewrite Hgo. cbn [negb].
      intros H. inversion H as [[Hc' He Hcalls]]. exists config, hostConfig.
      destruct container as [c0 h0 m]. cbn in Hc, Hh. subst c0 h0.
      subst container' calls. cbn. repeat split; auto.
      intros msg. apply Hlog.
Qed.

(** When the entrypoint step stops on the nil [image.Config]. *)
Lemma setWeaveWaitEntrypoint_panics (i : InterceptorT) (c : ConfigT) :
  setWeaveWaitEntrypoint i c = None <->
  len (docker.Entrypoint c) = 0
  /\ exists image,
       InspectImage (client (proxy i)) (docker.Image c) = Ok image
       /\ docker.ImageConfig image = None
       /\ (len (docker.Cmd c) = 0 \/ docker.Entrypoint c = None).
Proof using Type.
  forget_parameters.
  destruct (Z.eq_dec (len (docker.Entrypoint c)) 0) as [Hlen|Hlen].
  - destruct (InspectImage (client (proxy i)) (docker.Image c))
      as [image|e] eqn:Hins.
    + pose proof (setWeaveWaitEntrypoint_inspected i c image Hlen Hins) as H.
      destruct (docker.ImageConfig image) as [imageConfig|] eqn:Himg.
      * destruct H as [c' Hrun]. rewrite Hrun. split; [discriminate|].
        intros (_ & image0 & Himage & Hnone & _).
        inversion Himage; subst. congruence.
      * destruct (Z.eqb_spec (len (docker.Cmd c)) 0) as [Hcmd|Hcmd];
          cbn [orb] in H.
        -- rewrite H. split; [|reflexivity]. intros _.
           split; [exact Hlen|]. exists image. auto.
        -- destruct (docker.Entrypoint c) as [e|] eqn:Hent.
           ++ destruct H as [c' Hrun]. rewrite Hrun. split; [discriminate|].
              intros (_ & image0 & _ & _ & [Hx|Hx]);
                [contradiction|discriminate].
           ++ rewrite H. split; [|reflexivity]. intros _.
              split; [exact Hlen|]. exists image. auto.
    + split.
      * unfold setWeaveWaitEntrypoint.
        rewrite (proj2 (len_zero_iff _) Hlen), Hins. now destruct e.
      * intros (_ & image & Himage & _). discriminate.
  - split; [|intros [H _]; contradiction].
    unfold setWeaveWaitEntrypoint. rewrite (proj2 (Z.eqb_neq _ _) Hlen).
    now destruct (wrapEntrypoint c).
Qed.

(** X15. [InterceptRequest] ends with a request to forward or with an
    error in every case but one: the body decodes, the resolver assigns
    addresses, the entrypoint is empty and the docker client answers the
    inspection with an image that has no configuration while the command
    is empty or the entrypoint unset; then line 105 or line 109 reads
    through the nil [image.Config]. The nil dereferences of [setWeaveDNS]
    are out of reach, since the configuration and the host configuration
    are allocated before the three steps. *)
Theorem InterceptRequest_nil_dereference (i : InterceptorT)
    (r : Request Bytes) :
  InterceptRequest i r = None <->
  exists body container cidrs image,
    Body r = Ok body
    /\ json_Unmarshal body = Ok container
    /\ weaveCIDRsFromConfig (proxy i) (Config container)
         (HostConfig container) = Ok cidrs
    /\ len (docker.Entrypoint (configOf container)) = 0
    /\ InspectImage (client (proxy i)) (docker.Image (configOf container))
       = Ok image
    /\ docker.ImageConfig image = None
    /\ (len (docker.Cmd (configOf container)) = 0
        \/ docker.Entrypoint (configOf container) = None).
Proof.
  rewrite InterceptRequest_panics. split.
  - intros (body & container & cidrs & Hbody & Hdecode & Hcidr & Hpanic).
    apply setWeaveWaitEntrypoint_panics in Hpanic.
    destruct Hpanic as (Hlen & image & Hins & Himg & Hwhy).
    exists body, container, cidrs, image. auto 10.
  - intros (body & container & cidrs & image & Hbody & Hdecode & Hcidr
            & Hlen & Hins & Himg & Hwhy).
    exists body, container, cidrs. repeat split; auto.
    apply setWeaveWaitEntrypoint_panics. split; [exact Hlen|].
    exists image. auto.
Qed.

(** X16. A body that cannot be read, that is no JSON text, or whose
    document does not fit the struct makes [InterceptRequest] return the
    error at once: nothing is forwarded, no collaborator is called and
    nothing is logged. *)
Theorem InterceptRequest_rejects (i : InterceptorT)
    (r : Request Bytes) :
  (forall e, Body r = Err e ->
             InterceptRequest i r = Some (Err (Foreign e), []))
  /\ (forall body e,
        Body r = Ok body -> jsonParse body = Err e ->
        InterceptRequest i r = Some (Err (Foreign e), []))
  /\ (forall body doc,
        Body r = Ok body -> jsonParse body = Ok doc ->
        decodeBody doc = None ->
        InterceptRequest i r
        = Some (Err (Foreign json_UnmarshalTypeError), [])).
Proof.
  unfold InterceptRequest, json_Unmarshal. repeat apply conj.
  - intros e Hbody. now rewrite Hbody.
  - intros body e Hbody Hparse. now rewrite Hbody, Hparse.
  - intros body doc Hbody Hparse Hdecode.
    now rewrite Hbody, Hparse, Hdecode.
Qed.

(** X17. Decoding fails on a document that is neither an object nor
    [null]; on an object that gives one of the string fields ([Hostname],
    [Domainname], [Image], [MacAddress]) a value that is neither a string
    nor [null]; and on an object that gives [HostConfig] a value that is
    neither an object nor [null]; wherever the member stands. *)
Theorem decodeBody_wrong_type (before after : list json.member)
    (v : json.value) :
  (forall f,
     In f stringFields -> fitsString v = false ->
     decodeBody (json.Obj (before ++ (bodyFieldName f, v) :: after)) = None)
  /\ (fitsStruct v = false ->
      decodeBody
        (json.Obj (before ++ (bodyFieldName FHostConfig, v) :: after))
      = None
      /\ decodeBody v = None).
Proof using Type.
  forget_parameters.
  assert (Hfail : forall key,
    (forall c, storeBodyMember c (key, v) = None) ->
    decodeBody (json.Obj (before ++ (key, v) :: after)) = None).
  { intros key Hstore. unfold decodeBody, decodeState.
    rewrite storeMembers_app.
    destruct (storeMembers storeBodyMember before zeroBodyState) as [c|];
      [|reflexivity].
    cbn [storeMembers]. now rewrite Hstore. }
  split.
  - intros f Hf Hv. apply Hfail. intros c.
    cbn [In stringFields] in Hf.
    destruct Hf as [<-|[<-|[<-|[<-|[]]]]];
      destruct v; try discriminate; reflexivity.
  - intros Hv. split.
    + apply Hfail. intros c. destruct v; try discriminate; reflexivity.
    + destruct v; try discriminate; reflexivity.
Qed.

(** X18. A key that selects no field of the struct, neither one of those
    spelled out nor any other field of [docker.Config], does not count: the
    document decodes as it would without that member, wherever the member
    stands and whatever its value is. *)
Theorem decodeBody_skips_unknown_keys (before after : list json.member)
    (key : string) (v : json.value) :
  selectsNothing key = true ->
  decodeBody (json.Obj (before ++ (key, v) :: after))
  = decodeBody (json.Obj (before ++ after)).
Proof using Type.
  forget_parameters. intros Hkey. unfold decodeBody, decodeState.
  rewrite !storeMembers_app.
  destruct (storeMembers storeBodyMember before zeroBodyState) as [c|];
    [|reflexivity].
  cbn [storeMembers]. now rewrite (storeBodyMember_unknown_key c key v Hkey).
Qed.

(** X19. Round trip. Decoding what the encoder wrote for a body never
    fails, and encoding the decoded body gives the same document again; so
    a request whose body is such a document and which the resolver turns
    down is forwarded with that document as its body and the length of its
    text as content length, one line being logged. This holds provided the
    other fields of go-dockerclient's structs come back from their own
    encoding. *)
Theorem InterceptRequest_round_trip (i : InterceptorT) (r : Request Bytes)
    (body : Bytes) (c : BodyT) :
  configRestReturns -> hostRestReturns ->
  Body r = Ok body ->
  jsonParse body = Ok (encodeBody c) ->
  exists c',
    decodeBody (encodeBody c) = Some c'
    /\ encodeBody c' = encodeBody c
    /\ forall err,
         weaveCIDRsFromConfig (proxy i) (Config c') (HostConfig c') = Err err ->
         InterceptRequest i r
         = Some (Ok (mkRequest (Ok (jsonText (encodeBody c)))
                       (byteLen (jsonText (encodeBody c))) (QueryName r)),
                 [LogInfo ("Ignoring container due to "
                           ++ foreignError_Error err)]).
Proof.
  intros Hconfig Hhost Hbody Hparse.
  destruct (decodeBody_encodeBody c Hconfig Hhost) as (c' & Hdecode & Hsame).
  exists c'. split; [exact Hdecode|]. split; [exact Hsame|].
  intros err Hcidr.
  rewrite (InterceptRequest_ignored i r body (encodeBody c) c' err Hbody
             Hparse Hdecode Hcidr).
  now rewrite Hsame.
Qed.

(** X20. Whenever [InterceptRequest] forwards a request, the body is the
    encoding of a body struct, the content length is the length of that
    new body, the name in the query is the one that came in, and the first
    thing logged is one Info line. *)
Theorem InterceptRequest_forwarded (i : InterceptorT)
    (r r' : Request Bytes) (calls : list event) :
  InterceptRequest i r = Some (Ok r', calls) ->
  exists container' msg rest,
    Body r' = Ok (jsonText (encodeBody container'))
    /\ ContentLength r' = byteLen (jsonText (encodeBody container'))
    /\ QueryName r' = QueryName r
    /\ calls = LogInfo msg :: rest.
Proof.
  unfold InterceptRequest.
  destruct (Body r) as [body|e]; [|discriminate].
  destruct (json_Unmarshal body) as [container|e]; [|discriminate].
  destruct (weaveCIDRsFromConfig _ _ _) as [cidrs|e].
  - destruct (setWeaveWaitEntrypoint i _) as [[[config1 [e|]] calls1]|];
      try discriminate.
    destruct (setWeaveDNS i _ r) as [[[container2 [e|]] calls2]|];
      try discriminate.
    unfold forward, json_Marshal. intros H. inversion H; subst.
    eexists container2, _, _. cbn. auto.
  - unfold forward, json_Marshal. intros H. inversion H; subst.
    eexists container, _, _. cbn. auto.
Qed.

(** X21. A container the resolver gives addresses to is forwarded with a
    configuration and a host configuration in place, with an entrypoint
    that starts with the wrapper's first element, with the binds of the
    volume injector (the entries kept, then the support volume's), and with
    the image and the MAC address as decoded; the line announcing the
    addresses is the first thing logged. *)
Theorem InterceptRequest_joins_network (i : InterceptorT)
    (r r' : Request Bytes) (body : Bytes)
    (container : BodyT) (cidrs : list string)
    (calls : list event) :
  Body r = Ok body ->
  json_Unmarshal body = Ok container ->
  weaveCIDRsFromConfig (proxy i) (Config container) (HostConfig container)
  = Ok cidrs ->
  InterceptRequest i r = Some (Ok r', calls) ->
  exists config' hostConfig' rest calls',
    Body r'
    = Ok (jsonText
            (encodeBody
               (mkBody (Some config') (Some hostConfig')
                  (MacAddress container))))
    /\ elems (docker.Entrypoint config') = weaveWaitBinary :: rest
    /\ docker.Binds hostConfig'
       = Some (filter keepBind (elems (docker.Binds (hostConfigOf container)))
               ++ [supportBind i])%list
    /\ docker.Image config' = docker.Image (configOf container)
    /\ calls = creatingLine cidrs :: calls'.
Proof.
  intros Hbody Hdecode Hcidr Hrun.
  destruct (InterceptRequest_steps i r r' body container cidrs calls
              Hbody Hdecode Hcidr Hrun)
    as (config1 & calls1 & container2 & calls2 & Hwrap & Hdns & Hr'
        & Hcalls).
  destruct (setWeaveWaitEntrypoint_frame _ _ _ _ _ Hwrap) as [Himg _].
  apply setWeaveWaitEntrypoint_alreadyWrapped in Hwrap.
  eapply (setWeaveDNS_keeps i) in Hdns; [|reflexivity|reflexivity].
  destruct Hdns as (config' & hostConfig' & Hc2 & Hent & _ & Himg2 & Hbinds
                    & _).
  cbn [MacAddress] in Hc2. subst container2 r' calls.
  rewrite <- Hent in Hwrap.
  destruct (alreadyWrapped_starts _ Hwrap) as [rest Hrest].
  exists config', hostConfig', rest, (calls1 ++ calls2)%list.
  split; [reflexivity|]. split; [exact Hrest|].
  split; [rewrite Hbinds; apply addWeaveWaitVolume_Binds|].
  split; [congruence|reflexivity].
Qed.

Lemma setWeaveWaitEntrypoint_failure_calls
    (i : InterceptorT) (c c' : ConfigT) (err : error)
    (calls : list event) :
  setWeaveWaitEntrypoint i c = Some (c', Some err, calls) ->
  calls = [CallInspectImage (docker.Image c)].
Proof using Type.
  forget_parameters. rewrite setWeaveWaitEntrypoint_steps. cbv zeta.
  destruct (Z.eqb_spec (len (docker.Entrypoint c)) 0) as [Hlen|Hlen].
  - destruct (afterImageDefaults i c) as [[c1|[|msg]]|];
      intros H; now inversion H.
  - assert (Hpos : 0 < len (docker.Entrypoint c)) by (unfold len in *; lia).
    destruct (afterImageDefaults_nonempty i c Hpos) as [_ ->].
    rewrite wrapEntrypoint_spec, (nothingToRun_nonempty c Hpos).
    destruct (alreadyWrapped _); discriminate.
Qed.

(** X22. When the entrypoint step fails for a container the resolver gives
    addresses to, [InterceptRequest] returns that error after the line
    announcing the addresses and the one inspection of the image: nothing
    is forwarded and the name service is not looked for. For an image the
    engine does not know, the error is [ErrNoSuchImage] with the image of
    the configuration, and its message ends with that name. *)
Theorem InterceptRequest_entrypoint_failure
    (i : InterceptorT) (r : Request Bytes) (body : Bytes)
    (container : BodyT) (cidrs : list string) :
  Body r = Ok body ->
  json_Unmarshal body = Ok container ->
  weaveCIDRsFromConfig (proxy i) (Config container) (HostConfig container)
  = Ok cidrs ->
  let image := docker.Image (configOf container) in
  (forall c' err calls,
     setWeaveWaitEntrypoint i (configOf container)
     = Some (c', Some err, calls) ->
     InterceptRequest i r
     = Some (Err err, [creatingLine cidrs; CallInspectImage image]))
  /\ (len (docker.Entrypoint (configOf container)) = 0 ->
      InspectImage (client (proxy i)) image = Err docker_ErrNoSuchImage ->
      InterceptRequest i r
      = Some (Err (ErrNoSuchImage image),
              [creatingLine cidrs; CallInspectImage image])
      /\ error_Error (ErrNoSuchImage image) = "No such image: " ++ image).
Proof.
  intros Hbody Hdecode Hcidr image.
  assert (Hfail : forall c' err calls,
    setWeaveWaitEntrypoint i (configOf container)
    = Some (c', Some err, calls) ->
    InterceptRequest i r
    = Some (Err err, [creatingLine cidrs; CallInspectImage image])).
  { intros c' err calls Hwrap.
    pose proof (setWeaveWaitEntrypoint_failure_calls i _ _ _ _ Hwrap)
      as Hcalls. fold image in Hcalls.
    unfold InterceptRequest. rewrite Hbody, Hdecode, Hcidr.
    fold (configOf container). rewrite Hwrap, Hcalls. reflexivity. }
  split; [exact Hfail|].
  intros Hlen Hins. split; [|reflexivity].
  apply (Hfail (configOf container) _ [CallInspectImage image]).
  unfold setWeaveWaitEntrypoint.
  rewrite (proj2 (len_zero_iff _) Hlen). fold image. now rewrite Hins.
Qed.

Lemma setWeaveWaitEntrypoint_names (i : InterceptorT) (c c' : ConfigT)
    (err : option error) (calls : list event) :
  setWeaveWaitEntrypoint i c = Some (c', err, calls) ->
  docker.Hostname c' = docker.Hostname c
  /\ docker.Domainname c' = docker.Domainname c
  /\ forall e, In e calls -> e = CallInspectImage (docker.Image c).
Proof using Type.
  forget_parameters. rewrite setWeaveWaitEntrypoint_steps. cbv zeta.
  assert (Hcalls : forall e,
    In e (if len (docker.Entrypoint c) =? 0
          then [CallInspectImage (docker.Image c)] else []) ->
    e = CallInspectImage (docker.Image c)).
  { intros e. destruct (len (docker.Entrypoint c) =? 0); cbn;
      [intros [H|H]; [auto|contradiction]|contradiction]. }
  destruct (afterImageDefaults i c) as [[c1|[|msg]]|] eqn:Hstep;
    try discriminate;
    try (intros H; inversion H; subst; auto).
  destruct (afterImageDefaults_frame i c c1 Hstep) as (_ & _ & Hh & Hd & _).
  destruct (wrapEntrypoint_keeps c1) as (Hwh & Hwd & _).
  repeat split; try congruence. exact Hcalls.
Qed.

(** X24. With DNS integration switched off, a container the interceptor
    forwards has the DNS servers, the search list, the hostname and the
    domain name it was decoded with (none at all if those parts were
    absent), and neither the name service's container is inspected nor its
    address asked for the domain. *)
Theorem InterceptRequest_without_DNS (i : InterceptorT)
    (r r' : Request Bytes) (body : Bytes)
    (container : BodyT) (calls : list event) :
  WithoutDNS (proxy i) = true ->
  Body r = Ok body ->
  json_Unmarshal body = Ok container ->
  InterceptRequest i r = Some (Ok r', calls) ->
  exists container',
    Body r' = Ok (jsonText (encodeBody container'))
    /\ docker.DNS (hostConfigOf container')
       = docker.DNS (hostConfigOf container)
    /\ docker.DNSSearch (hostConfigOf container')
       = docker.DNSSearch (hostConfigOf container)
    /\ docker.Hostname (configOf container')
       = docker.Hostname (configOf container)
    /\ docker.Domainname (configOf container')
       = docker.Domainname (configOf container)
    /\ (forall name, ~ In (CallInspectContainer name) calls)
    /\ (forall url, ~ In (CallHttpGet url) calls).
Proof.
  intros Hwo Hbody Hdecode. unfold InterceptRequest.
  rewrite Hbody, Hdecode.
  destruct (weaveCIDRsFromConfig _ _ _) as [cidrs|e].
  - fold (configOf container). fold (hostConfigOf container).
    destruct (setWeaveWaitEntrypoint i (configOf container))
      as [[[config1 [e|]] calls1]|] eqn:Hentry; try discriminate.
    destruct (setWeaveWaitEntrypoint_names i _ _ _ _ Hentry)
      as (Hh & Hd & Hcalls).
    unfold setWeaveDNS. rewrite Hwo.
    unfold forward, json_Marshal. intros H. inversion H; subst.
    eexists. split; [reflexivity|].
    cbn [hostConfigOf configOf Config HostConfig].
    repeat split; try assumption; try reflexivity.
    + intros name [Hin|Hin]; [discriminate|].
      rewrite app_nil_r in Hin. apply Hcalls in Hin. discriminate.
    + intros url [Hin|Hin]; [discriminate|].
      rewrite app_nil_r in Hin. apply Hcalls in Hin. discriminate.
  - unfold forward, json_Marshal. intros H. inversion H; subst.
    exists container. repeat split.
    + intros name [Hin|[]]. discriminate.
    + intros url [Hin|[]]. discriminate.
Qed.

End Interceptor.

Arguments weaveWaitEntrypoint weaveWaitBinary weaveWaitArgs : assert.
Arguments setWeaveWaitEntrypoint weaveWaitBinary weaveWaitArgs
  {ConfigRest HostRest} i container.
Arguments getDNSDomain nameserver_DefaultLocalDomain
  nameserver_DefaultHTTPPort http_Get {ConfigRest HostRest} i.
Arguments setWeaveDNS nameserver_DefaultLocalDomain
  nameserver_DefaultHTTPPort http_Get {ConfigRest HostRest Bytes} i
  container r.
Arguments dnsProceeds nameserver_DefaultLocalDomain
  nameserver_DefaultHTTPPort http_Get {ConfigRest HostRest} i.
Arguments supportBind {ConfigRest HostRest} i.
Arguments hostnameAfter {ConfigRest HostRest} out.
Arguments configOf {ConfigRest HostRest} zeroConfigRest c.
Arguments hostConfigOf {ConfigRest HostRest} zeroHostRest c.

(** * The statements on sample values

    The sample values carry [User] and [NetworkMode] besides the fields
    spelled out; the wrapper sequence is [/w/w] alone, the domain of the
    name service [weave.local.] and its port 6785. The text of a document
    is taken to be the document itself and its length the number of its
    members. *)
Local Abbreviation sampleDecode :=
  (decodeBody string string "" "" userSelects storeUser networkModeSelects
     storeNetworkMode).
Local Abbreviation sampleEncode :=
  (encodeBody string string userMembers networkModeMembers sampleTags).
Local Abbreviation sampleUnmarshal :=
  (json_Unmarshal string string "" "" userSelects storeUser
     networkModeSelects storeNetworkMode json.value (fun doc => Ok doc)).
Local Abbreviation sampleIntercept :=
  (InterceptRequest "/w/w" [] "weave.local." 6785 sampleGet string string
     "" "" userSelects storeUser userMembers networkModeSelects
     storeNetworkMode networkModeMembers sampleTags json.value
     (fun doc => Ok doc) (fun doc => doc) docSize).


(** C5, on a sample: a support volume without a colon, and binds holding a
    stale entry for [/w]. *)
Lemma addWeaveWaitVolume_filters_then_appends_witness :
  hasByte ":" (weaveWaitVolume (proxy sampleInterceptor)) = false
  /\ addWeaveWaitVolume sampleInterceptor staleBinds
     = docker.mkHostConfig
         (Some ["/home:/home"; "/var/lib/weave/w:/w:ro"]) None None "host"
  /\ addWeaveWaitVolume sampleInterceptor
       (addWeaveWaitVolume sampleInterceptor staleBinds)
     = addWeaveWaitVolume sampleInterceptor staleBinds.
Proof.
  destruct (addWeaveWaitVolume_filters_then_appends _ _ sampleInterceptor
              staleBinds) as [Hshape Hidem].
  split; [reflexivity|]. split; [exact Hshape|].
  apply Hidem. reflexivity.
Defined.

(** C5 as it stands fails when the path of the support volume holds a
    colon: the entry appended by the first pass is not recognised by the
    second, which appends it once more. *)
Lemma addWeaveWaitVolume_twice_differs :
  docker.Binds (addWeaveWaitVolume colonInterceptor (docker.zeroHostConfig ""))
  = Some ["a:b:/w:ro"]
  /\ docker.Binds
       (addWeaveWaitVolume colonInterceptor
          (addWeaveWaitVolume colonInterceptor (docker.zeroHostConfig "")))
     = Some ["a:b:/w:ro"; "a:b:/w:ro"]
  /\ addWeaveWaitVolume colonInterceptor
       (addWeaveWaitVolume colonInterceptor (docker.zeroHostConfig ""))
     <> addWeaveWaitVolume colonInterceptor (docker.zeroHostConfig "").
Proof. repeat split. discriminate. Qed.

(** C3, on a sample: the entrypoint is unset, the command empty. *)
Lemma setWeaveWaitEntrypoint_image_defaults_witness :
  len (docker.Entrypoint busybox) = 0
  /\ InspectImage (client (proxy sampleInterceptor)) (docker.Image busybox)
     = Ok shellImage
  /\ docker.ImageConfig shellImage = Some shellConfig
  /\ exists c',
       setWeaveWaitEntrypoint "/w/w" [] sampleInterceptor busybox
       = Some (c', None, [CallInspectImage "busybox"])
       /\ docker.Entrypoint c' = Some ["/w/w"; "/bin/sh"; "-c"]
       /\ elems (docker.Cmd c') = [].
Proof.
  split; [reflexivity|]. split; [reflexivity|]. split; [reflexivity|].
  destruct (setWeaveWaitEntrypoint_image_defaults "/w/w" [] _ _
              sampleInterceptor busybox shellImage shellConfig
              eq_refl eq_refl eq_refl)
    as (c' & err & calls & Hrun & Hcalls & _ & _ & _ & H).
  destruct (H eq_refl eq_refl eq_refl eq_refl) as (Herr & Hent & _ & Hcmd).
  - discriminate.
  - exists c'. subst err calls. auto.
Defined.

(** C3 as it stands fails for an entrypoint that is present but empty:
    the image's entrypoint is not taken over and, the command being empty
    too, the function returns [ErrNoCommandSpecified]. *)
Lemma setWeaveWaitEntrypoint_present_but_empty :
  len (docker.Entrypoint emptyEntrypoint) = 0
  /\ len (docker.Cmd emptyEntrypoint) = 0
  /\ InspectImage (client (proxy sampleInterceptor))
       (docker.Image emptyEntrypoint)
     = Ok shellImage
  /\ docker.ImageConfig shellImage = Some shellConfig
  /\ docker.Entrypoint shellConfig = Some ["/bin/sh"; "-c"]
  /\ setWeaveWaitEntrypoint "/w/w" [] sampleInterceptor emptyEntrypoint
     = Some (docker.mkConfig "" "" (Some []) "busybox" (Some []) "",
             Some ErrNoCommandSpecified, [CallInspectImage "busybox"]).
Proof. repeat split. Qed.

(** C2 on an image that comes without a configuration: the entrypoint is
    empty, the inspection succeeds, and the function neither succeeds nor
    returns an error, since line 105 reads through the nil
    [image.Config]. *)
Example setWeaveWaitEntrypoint_bare_image :
  len (docker.Entrypoint busybox) = 0
  /\ len (docker.Cmd busybox) = 0
  /\ InspectImage (client (proxy bareInterceptor)) (docker.Image busybox)
     = Ok bareImage
  /\ docker.ImageConfig bareImage = None
  /\ setWeaveWaitEntrypoint "/w/w" [] bareInterceptor busybox = None.
Proof. repeat split. Qed.

(** C2, on samples: the same outcome read off the statement, and a
    success next to it. *)
Lemma setWeaveWaitEntrypoint_errors_witness :
  setWeaveWaitEntrypoint "/w/w" [] bareInterceptor busybox = None
  /\ exists c' calls,
       setWeaveWaitEntrypoint "/w/w" [] sampleInterceptor listing
       = Some (c', None, calls).
Proof.
  split.
  - apply (setWeaveWaitEntrypoint_errors "/w/w" [] _ _ bareInterceptor
             busybox).
    split; [reflexivity|]. exists bareImage.
    split; [reflexivity|]. split; [reflexivity|]. left. reflexivity.
  - apply (setWeaveWaitEntrypoint_errors "/w/w" [] _ _ sampleInterceptor
             listing).
    left. reflexivity.
Defined.

(** C4, on a sample: an entrypoint that starts with the wrapper and goes
    on with arguments. *)
Lemma setWeaveWaitEntrypoint_wraps_once_witness :
  elems (docker.Entrypoint wrappedAlready) = "/w/w" :: ["-s"; "top"]
  /\ setWeaveWaitEntrypoint "/w/w" [] sampleInterceptor wrappedAlready
     = Some (wrappedAlready, None, []).
Proof.
  split; [reflexivity|].
  destruct (setWeaveWaitEntrypoint_wraps_once "/w/w" [] _ _ sampleInterceptor
              wrappedAlready) as (_ & Hwrapped & _).
  apply (Hwrapped ["-s"; "top"]). reflexivity.
Defined.

(** C10, on a sample: an entrypoint of the user's own. *)
Lemma setWeaveWaitEntrypoint_nonempty_entrypoint_witness :
  0 < len (docker.Entrypoint listing)
  /\ exists c',
       setWeaveWaitEntrypoint "/w/w" [] sampleInterceptor listing
       = Some (c', None, [])
       /\ docker.Cmd c' = docker.Cmd listing
       /\ (c' = listing
           \/ c' = docker.setEntrypoint listing
                     (Some (weaveWaitEntrypoint "/w/w" []
                            ++ elems (docker.Entrypoint listing))%list)).
Proof.
  split; [reflexivity|].
  apply (setWeaveWaitEntrypoint_nonempty_entrypoint "/w/w" [] _ _
           sampleInterceptor listing).
  reflexivity.
Defined.

(** C7, on a sample: the name service cannot be reached and DNS is not
    forced. *)
Lemma setWeaveDNS_skipped_witness :
  (WithoutDNS (proxy sampleInterceptor) = true
   \/ (snd (fst (getDNSDomain "weave.local." 6785 failingGet
                   sampleInterceptor)) = false
       /\ WithDNS (proxy sampleInterceptor) = false))
  /\ exists calls,
       setWeaveDNS "weave.local." 6785 failingGet sampleInterceptor
         sampleBody (sampleRequest json.Null "web")
       = Some (sampleBody, None, calls).
Proof.
  assert (Hskip :
    WithoutDNS (proxy sampleInterceptor) = true
    \/ (snd (fst (getDNSDomain "weave.local." 6785 failingGet
                    sampleInterceptor)) = false
        /\ WithDNS (proxy sampleInterceptor) = false))
    by (right; split; reflexivity).
  split; [exact Hskip|].
  destruct (setWeaveDNS_skipped "weave.local." 6785 failingGet _ _ json.value
              sampleInterceptor sampleBody (sampleRequest json.Null "web")
              Hskip) as (calls & Hrun & _).
  exists calls. exact Hrun.
Defined.

(** C6, on a sample: the name [web] and the domain [weave.local.]. *)
Lemma setWeaveDNS_hostname_witness :
  dnsProceeds "weave.local." 6785 sampleGet sampleInterceptor = true
  /\ Config sampleBody = Some busybox
  /\ HostConfig sampleBody = Some (docker.zeroHostConfig "")
  /\ docker.Hostname busybox = ""
  /\ QueryName (sampleRequest json.Null "web") <> ""
  /\ exists container' config' calls,
       setWeaveDNS "weave.local." 6785 sampleGet sampleInterceptor
         sampleBody (sampleRequest json.Null "web")
       = Some (container', None, calls)
       /\ Config container' = Some config'
       /\ docker.Hostname config' = "web"
       /\ docker.Domainname config' = "weave.local".
Proof.
  assert (Hname : QueryName (sampleRequest json.Null "web") <> "")
    by discriminate.
  repeat (split; [reflexivity || exact Hname|]).
  destruct (setWeaveDNS_hostname "weave.local." 6785 sampleGet _ _ json.value
              sampleInterceptor sampleBody (sampleRequest json.Null "web")
              busybox (docker.zeroHostConfig "") eq_refl eq_refl eq_refl eq_refl
              Hname)
    as (container' & config' & calls & Hrun & Hconfig & _ & Hle & _).
  exists container', config', calls.
  destruct Hle as (Hhost & Hdomain & _); [vm_compute; discriminate|].
  auto.
Defined.

(** C8, on a sample: no search domain given, the hostname taken from the
    request's name. *)
Lemma setWeaveDNS_search_witness :
  dnsProceeds "weave.local." 6785 sampleGet sampleInterceptor = true
  /\ Config sampleBody = Some busybox
  /\ HostConfig sampleBody = Some (docker.zeroHostConfig "")
  /\ exists container' hostConfig' calls,
       setWeaveDNS "weave.local." 6785 sampleGet sampleInterceptor
         sampleBody (sampleRequest json.Null "web")
       = Some (container', None, calls)
       /\ HostConfig container' = Some hostConfig'
       /\ docker.DNSSearch hostConfig' = Some ["."].
Proof.
  repeat (split; [reflexivity|]).
  destruct (setWeaveDNS_search "weave.local." 6785 sampleGet _ _ json.value
              sampleInterceptor sampleBody (sampleRequest json.Null "web")
              busybox (docker.zeroHostConfig "") eq_refl eq_refl eq_refl)
    as (container' & config' & hostConfig' & calls & Hrun & _ & Hhost
        & Hconfig & _ & Hset & _).
  exists container', hostConfig', calls.
  split; [exact Hrun|]. split; [exact Hhost|].
  apply Hset; [reflexivity|]. rewrite Hconfig. discriminate.
Defined.

(** C9, on a sample: the resolver turns the container down. *)
Lemma InterceptRequest_resolver_error_witness :
  Body (sampleRequest plainDoc "web") = Ok plainDoc
  /\ sampleUnmarshal plainDoc = Ok plainBody
  /\ weaveCIDRsFromConfig (proxy ignoringInterceptor) (Config plainBody)
       (HostConfig plainBody)
     = Err (otherError "no address requested")
  /\ exists r',
       sampleIntercept
         ignoringInterceptor (sampleRequest plainDoc "web")
       = Some (Ok r',
               [LogInfo "Ignoring container due to no address requested"])
       /\ Body r' = Ok plainDoc
       /\ ContentLength r' = 4.
Proof.
  repeat (split; [reflexivity|]).
  destruct (InterceptRequest_resolver_error "/w/w" [] "weave.local." 6785
              sampleGet string string "" "" userSelects storeUser userMembers
              networkModeSelects storeNetworkMode networkModeMembers
              sampleTags json.value (fun doc => Ok doc) (fun doc => doc)
              docSize ignoringInterceptor
              (sampleRequest plainDoc "web") plainDoc plainBody
              (otherError "no address requested") eq_refl eq_refl eq_refl)
    as (r' & newBody & Hrun & Hnew & Hbody & Hlen & _).
  exists r'. split; [exact Hrun|].
  inversion Hnew; subst newBody. split; [exact Hbody|exact Hlen].
Defined.



(** The cut of C6 on names of 52, 53 and 64 bytes, the trimmed domain
    [weave.local] having 11: a sum of 64 sets the hostname, a sum of 65
    does not, and a name of 64 bytes does not either. *)
Example setWeaveDNS_hostname_cut :
  hostnameAfter
    (setWeaveDNS "weave.local." 6785 sampleGet sampleInterceptor sampleBody
       (sampleRequest json.Null (letters 52)))
  = Some (letters 52)
  /\ hostnameAfter
       (setWeaveDNS "weave.local." 6785 sampleGet sampleInterceptor
          sampleBody (sampleRequest json.Null (letters 53)))
     = Some ""
  /\ hostnameAfter
       (setWeaveDNS "weave.local." 6785 sampleGet sampleInterceptor
          sampleBody (sampleRequest json.Null (letters 64)))
     = Some "".
Proof. repeat split. Qed.

(** X1, on a sample. *)
Lemma addWeaveWaitVolume_single_mount_witness :
  hasByte ":" (weaveWaitVolume (proxy sampleInterceptor)) = false
  /\ List.length
       (filter targetIsW
          (elems (docker.Binds
                    (addWeaveWaitVolume sampleInterceptor staleBinds))))
     = 1%nat.
Proof.
  split; [reflexivity|].
  destruct (addWeaveWaitVolume_single_mount _ _ sampleInterceptor staleBinds)
    as (_ & _ & _ & Hone).
  apply Hone. reflexivity.
Defined.

(** X2, on a sample: the entry [/w], without a colon, stays. *)
Lemma addWeaveWaitVolume_membership_witness :
  hasByte ":" "/w" = false
  /\ In "/w" (elems (docker.Binds bareBinds))
  /\ In "/w"
       (elems (docker.Binds (addWeaveWaitVolume sampleInterceptor bareBinds))).
Proof.
  split; [reflexivity|]. split; [left; reflexivity|].
  destruct (addWeaveWaitVolume_membership _ _ sampleInterceptor bareBinds "/w")
    as [_ Hkept].
  apply Hkept; [reflexivity|left; reflexivity].
Defined.

(** X4, on a sample. *)
Lemma setWeaveWaitEntrypoint_success_witness :
  setWeaveWaitEntrypoint "/w/w" [] sampleInterceptor listing
  = Some (docker.setEntrypoint listing (Some ["/w/w"; "/bin/ls"]), None, [])
  /\ exists rest,
       elems (docker.Entrypoint
                (docker.setEntrypoint listing (Some ["/w/w"; "/bin/ls"])))
       = "/w/w" :: rest.
Proof.
  split; [reflexivity|].
  destruct (setWeaveWaitEntrypoint_success "/w/w" [] _ _ sampleInterceptor
              listing _ [] eq_refl) as [Hstarts _].
  exact Hstarts.
Defined.

(** X5, on a sample: nothing to run. *)
Lemma setWeaveWaitEntrypoint_failure_witness :
  setWeaveWaitEntrypoint "/w/w" [] sampleInterceptor emptyEntrypoint
  = Some (docker.mkConfig "" "" (Some []) "busybox" (Some []) "",
          Some ErrNoCommandSpecified, [CallInspectImage "busybox"])
  /\ len (docker.Entrypoint emptyEntrypoint) = 0.
Proof.
  split; [reflexivity|].
  destruct (setWeaveWaitEntrypoint_failure "/w/w" [] _ _ sampleInterceptor
              emptyEntrypoint _ ErrNoCommandSpecified _ eq_refl)
    as [Hempty _].
  exact Hempty.
Defined.

(** X6, on a sample. *)
Lemma setWeaveWaitEntrypoint_keeps_command_witness :
  0 < len (docker.Cmd listing)
  /\ setWeaveWaitEntrypoint "/w/w" [] sampleInterceptor listing
     = Some (docker.setEntrypoint listing (Some ["/w/w"; "/bin/ls"]), None, [])
  /\ docker.Cmd (docker.setEntrypoint listing (Some ["/w/w"; "/bin/ls"]))
     = docker.Cmd listing.
Proof.
  split; [reflexivity|]. split; [reflexivity|].
  apply (setWeaveWaitEntrypoint_keeps_command "/w/w" [] _ _ sampleInterceptor
           listing _ None []); reflexivity.
Defined.

(** X7, on a sample: the entrypoint is reset, the command given. *)
Lemma setWeaveWaitEntrypoint_explicitly_empty_witness :
  docker.Entrypoint resetEntrypoint = Some []
  /\ InspectImage (client (proxy sampleInterceptor))
       (docker.Image resetEntrypoint) = Ok shellImage
  /\ 0 < len (docker.Cmd resetEntrypoint)
  /\ setWeaveWaitEntrypoint "/w/w" [] sampleInterceptor resetEntrypoint
     = Some (docker.mkConfig "" "" (Some ["top"]) "busybox" (Some ["/w/w"]) "",
             None, [CallInspectImage "busybox"]).
Proof.
  repeat (split; [reflexivity|]).
  apply (setWeaveWaitEntrypoint_explicitly_empty "/w/w" [] _ _
           sampleInterceptor resetEntrypoint shellImage eq_refl eq_refl).
  reflexivity.
Defined.

(** X9, on a sample. *)
Lemma setWeaveDNS_appends_bridge_witness :
  dnsProceeds "weave.local." 6785 sampleGet sampleInterceptor = true
  /\ Config sampleBody = Some busybox
  /\ HostConfig sampleBody = Some (docker.zeroHostConfig "")
  /\ exists config' hostConfig' calls,
       setWeaveDNS "weave.local." 6785 sampleGet sampleInterceptor
         sampleBody (sampleRequest json.Null "web")
       = Some (mkBody (Some config') (Some hostConfig')
                 (MacAddress sampleBody), None, calls)
       /\ docker.DNS hostConfig' = Some ["172.17.42.1"].
Proof.
  repeat (split; [reflexivity|]).
  destruct (setWeaveDNS_appends_bridge "weave.local." 6785 sampleGet _ _ json.value sampleInterceptor sampleBody
              (sampleRequest json.Null "web") busybox (docker.zeroHostConfig "")
              eq_refl eq_refl eq_refl)
    as (config' & hostConfig' & calls & Hrun & Hdns & _).
  exists config', hostConfig', calls. split; [exact Hrun|exact Hdns].
Defined.

(** X10, on a sample: the client named its host. *)
Lemma setWeaveDNS_keeps_hostname_witness :
  dnsProceeds "weave.local." 6785 sampleGet sampleInterceptor = true
  /\ Config namedBody = Some namedHost
  /\ HostConfig namedBody = Some (docker.zeroHostConfig "")
  /\ (docker.Hostname namedHost <> ""
      \/ QueryName (sampleRequest json.Null "web") = "")
  /\ exists container' calls,
       setWeaveDNS "weave.local." 6785 sampleGet sampleInterceptor
         namedBody (sampleRequest json.Null "web")
       = Some (container', None, calls)
       /\ Config container' = Some namedHost.
Proof.
  assert (Hnamed : docker.Hostname namedHost <> ""
                   \/ QueryName (sampleRequest json.Null "web") = "")
    by (left; discriminate).
  repeat (split; [reflexivity || exact Hnamed|]).
  destruct (setWeaveDNS_keeps_hostname "weave.local." 6785 sampleGet _ _ json.value sampleInterceptor namedBody
              (sampleRequest json.Null "web") namedHost
              (docker.zeroHostConfig "") eq_refl eq_refl eq_refl Hnamed)
    as (container' & calls & Hrun & Hconfig & _).
  exists container', calls. split; [exact Hrun|exact Hconfig].
Defined.

(** X11, on a sample. *)
Lemma setWeaveDNS_hostname_fits_witness :
  dnsProceeds "weave.local." 6785 sampleGet sampleInterceptor = true
  /\ Config sampleBody = Some busybox
  /\ HostConfig sampleBody = Some (docker.zeroHostConfig "")
  /\ docker.Hostname busybox = ""
  /\ exists container' config' calls,
       setWeaveDNS "weave.local." 6785 sampleGet sampleInterceptor
         sampleBody (sampleRequest json.Null "web")
       = Some (container', None, calls)
       /\ Config container' = Some config'
       /\ (docker.Hostname config' <> "" ->
           slen (docker.Hostname config') + 1
           + slen (docker.Domainname config') <= MaxDockerHostname).
Proof.
  repeat (split; [reflexivity|]).
  destruct (setWeaveDNS_hostname_fits "weave.local." 6785 sampleGet _ _ json.value sampleInterceptor sampleBody
              (sampleRequest json.Null "web") busybox (docker.zeroHostConfig "")
              eq_refl eq_refl eq_refl eq_refl)
    as (container' & config' & calls & Hrun & Hconfig & Hfits).
  exists container', config', calls.
  split; [exact Hrun|]. split; [exact Hconfig|].
  intros Hset. apply (Hfits Hset).
Defined.

(** X12, on a sample. *)
Lemma setWeaveDNS_twice_witness :
  dnsProceeds "weave.local." 6785 sampleGet sampleInterceptor = true
  /\ exists container1 calls1 hostConfig2 calls2,
       setWeaveDNS "weave.local." 6785 sampleGet sampleInterceptor
         sampleBody (sampleRequest json.Null "web")
       = Some (container1, None, calls1)
       /\ setWeaveDNS "weave.local." 6785 sampleGet sampleInterceptor
            container1 (sampleRequest json.Null "web")
          = Some (mkBody (Config container1) (Some hostConfig2)
                    (MacAddress container1), None, calls2)
       /\ docker.DNS hostConfig2 = Some ["172.17.42.1"; "172.17.42.1"].
Proof.
  split; [reflexivity|].
  eexists _, _.
  destruct (setWeaveDNS_twice "weave.local." 6785 sampleGet _ _ json.value
              sampleInterceptor sampleBody _ (sampleRequest json.Null "web")
              _ eq_refl eq_refl)
    as (hostConfig1 & hostConfig2 & calls2 & Hh1 & Hrun & Hdns & _).
  exists hostConfig2, calls2. split; [reflexivity|]. split; [exact Hrun|].
  rewrite Hdns. inversion Hh1. reflexivity.
Defined.

(** X16, on a sample: a body whose [MacAddress] is a number. *)
Lemma InterceptRequest_rejects_witness :
  Body (sampleRequest numericMacDoc "web") = Ok numericMacDoc
  /\ sampleDecode numericMacDoc = None
  /\ sampleIntercept
       sampleInterceptor (sampleRequest numericMacDoc "web")
     = Some (Err (Foreign json_UnmarshalTypeError), []).
Proof.
  split; [reflexivity|]. split; [reflexivity|].
  destruct (InterceptRequest_rejects "/w/w" [] "weave.local." 6785
              sampleGet string string "" "" userSelects storeUser userMembers
              networkModeSelects storeNetworkMode networkModeMembers
              sampleTags json.value (fun doc => Ok doc) (fun doc => doc)
              docSize sampleInterceptor (sampleRequest numericMacDoc "web"))
    as (_ & _ & Hfit).
  apply (Hfit numericMacDoc numericMacDoc); reflexivity.
Defined.

(** X17, on a sample. *)
Lemma decodeBody_wrong_type_witness :
  In FMacAddress stringFields
  /\ fitsString (json.Number "7") = false
  /\ sampleDecode numericMacDoc = None.
Proof.
  assert (Hin : In FMacAddress stringFields) by (cbn; auto).
  split; [exact Hin|]. split; [reflexivity|].
  destruct (decodeBody_wrong_type string string "" "" userSelects storeUser
              networkModeSelects storeNetworkMode
              [("Image", json.Str "busybox")] [] (json.Number "7"))
    as [Hstring _].
  apply (Hstring FMacAddress Hin). reflexivity.
Defined.

(** X18, on a sample: no field answers to [X-Request-Note]. *)
Lemma decodeBody_skips_unknown_keys_witness :
  selectsNothing userSelects "X-Request-Note" = true
  /\ sampleDecode labelledDoc
     = sampleDecode
         (json.Obj [("Image", json.Str "busybox");
                    ("MacAddress", json.Str "02:42:ac:11:00:02")]).
Proof.
  split; [reflexivity|].
  apply (decodeBody_skips_unknown_keys string string "" "" userSelects
           storeUser networkModeSelects storeNetworkMode
           [("Image", json.Str "busybox")]
           [("MacAddress", json.Str "02:42:ac:11:00:02")] "X-Request-Note"
           (json.Obj [])).
  reflexivity.
Defined.

(** The sample codec for the other fields brings a user back from its own
    encoding. *)
Lemma userReturns :
  configRestReturns string "" userSelects storeUser userMembers.
Proof.
  intros [|a user].
  - split; [constructor|]. exists "". split; reflexivity.
  - split.
    + constructor; [reflexivity|constructor].
    + exists (String a user). split; reflexivity.
Defined.

(** The same for the network mode of the host configuration. *)
Lemma networkModeReturns :
  hostRestReturns string "" networkModeSelects storeNetworkMode
    networkModeMembers.
Proof.
  intros [|a mode].
  - split; [constructor|]. exists "". split; reflexivity.
  - split.
    + constructor; [reflexivity|constructor].
    + exists (String a mode). split; reflexivity.
Defined.

(** X19 at a body with an image, a user and a MAC address, which the
    resolver turns down: the request goes on with the document it came
    with. *)
Lemma InterceptRequest_round_trip_witness :
  sampleIntercept ignoringInterceptor
    (sampleRequest (sampleEncode plainBody) "web")
  = Some (Ok (mkRequest (Ok (sampleEncode plainBody))
                (docSize (sampleEncode plainBody)) "web"),
          [LogInfo "Ignoring container due to no address requested"]).
Proof.
  destruct (InterceptRequest_round_trip "/w/w" [] "weave.local." 6785
              sampleGet string string "" "" userSelects storeUser
              userMembers networkModeSelects storeNetworkMode
              networkModeMembers sampleTags json.value (fun doc => Ok doc)
              (fun doc => doc) docSize ignoringInterceptor
              (sampleRequest (sampleEncode plainBody) "web")
              (sampleEncode plainBody) plainBody userReturns
              networkModeReturns eq_refl eq_refl)
    as (c' & _ & _ & Hrun).
  exact (Hrun (otherError "no address requested") eq_refl).
Defined.

(** X20, on a sample: a container the resolver turns down. *)
Lemma InterceptRequest_forwarded_witness :
  sampleIntercept
    ignoringInterceptor (sampleRequest plainDoc "web")
  = Some (Ok (mkRequest (Ok plainDoc) 4 "web"),
          [LogInfo "Ignoring container due to no address requested"])
  /\ exists container',
       Body (mkRequest (Ok plainDoc) 4 "web")
       = Ok (sampleEncode container')
       /\ ContentLength (mkRequest (Ok plainDoc) 4 "web")
          = docSize (sampleEncode container').
Proof.
  split; [reflexivity|].
  destruct (InterceptRequest_forwarded "/w/w" [] "weave.local." 6785
              sampleGet string string "" "" userSelects storeUser userMembers
              networkModeSelects storeNetworkMode networkModeMembers
              sampleTags json.value (fun doc => Ok doc) (fun doc => doc)
              docSize ignoringInterceptor
              (sampleRequest plainDoc "web")
              (mkRequest (Ok plainDoc) 4 "web")
              [LogInfo "Ignoring container due to no address requested"]
              eq_refl)
    as (container' & msg & rest & Hbody & Hlen & _).
  exists container'. split; [exact Hbody|exact Hlen].
Defined.

(** X21, on a sample: a container that gets an address. *)
Lemma InterceptRequest_joins_network_witness :
  Body (sampleRequest plainDoc "web") = Ok plainDoc
  /\ sampleUnmarshal plainDoc = Ok plainBody
  /\ weaveCIDRsFromConfig (proxy sampleInterceptor) (Config plainBody)
       (HostConfig plainBody) = Ok ["10.2.1.1/24"]
  /\ exists r' calls config' hostConfig' rest,
       sampleIntercept
         sampleInterceptor (sampleRequest plainDoc "web")
       = Some (Ok r', calls)
       /\ Body r'
          = Ok (sampleEncode
                  (mkBody (Some config') (Some hostConfig')
                     (MacAddress plainBody)))
       /\ elems (docker.Entrypoint config') = "/w/w" :: rest
       /\ docker.Binds hostConfig' = Some ["/var/lib/weave/w:/w:ro"].
Proof.
  repeat (split; [reflexivity|]).
  eexists _, _.
  destruct (InterceptRequest_joins_network "/w/w" [] "weave.local." 6785
              sampleGet string string "" "" userSelects storeUser userMembers
              networkModeSelects storeNetworkMode networkModeMembers
              sampleTags json.value (fun doc => Ok doc) (fun doc => doc)
              docSize sampleInterceptor
              (sampleRequest plainDoc "web") _ plainDoc plainBody
              ["10.2.1.1/24"] _ eq_refl eq_refl eq_refl eq_refl)
    as (config' & hostConfig' & rest & calls' & Hbody & Hent & Hbinds & _).
  exists config', hostConfig', rest.
  split; [reflexivity|]. split; [exact Hbody|].
  split; [exact Hent|exact Hbinds].
Defined.

(** X22, on a sample: an engine that knows no image. *)
Lemma InterceptRequest_entrypoint_failure_witness :
  Body (sampleRequest plainDoc "web") = Ok plainDoc
  /\ sampleUnmarshal plainDoc = Ok plainBody
  /\ weaveCIDRsFromConfig (proxy emptyRegistry) (Config plainBody)
       (HostConfig plainBody) = Ok ["10.2.1.1/24"]
  /\ sampleIntercept
       emptyRegistry (sampleRequest plainDoc "web")
     = Some (Err (ErrNoSuchImage "busybox"),
             [creatingLine ["10.2.1.1/24"]; CallInspectImage "busybox"])
  /\ error_Error (ErrNoSuchImage "busybox") = "No such image: busybox".
Proof.
  repeat (split; [reflexivity|]).
  destruct (InterceptRequest_entrypoint_failure "/w/w" [] "weave.local." 6785
              sampleGet string string "" "" userSelects storeUser userMembers
              networkModeSelects storeNetworkMode networkModeMembers
              sampleTags json.value (fun doc => Ok doc) (fun doc => doc)
              docSize emptyRegistry
              (sampleRequest plainDoc "web") plainDoc plainBody
              ["10.2.1.1/24"] eq_refl eq_refl eq_refl) as [_ Hmissing].
  apply Hmissing; reflexivity.
Defined.

(** X24, on a sample. *)
Lemma InterceptRequest_without_DNS_witness :
  WithoutDNS (proxy plainInterceptor) = true
  /\ Body (sampleRequest plainDoc "web") = Ok plainDoc
  /\ sampleUnmarshal plainDoc = Ok plainBody
  /\ exists r' calls container',
       sampleIntercept
         plainInterceptor (sampleRequest plainDoc "web")
       = Some (Ok r', calls)
       /\ Body r' = Ok (sampleEncode container')
       /\ docker.DNS (hostConfigOf "" container') = None
       /\ docker.Hostname (configOf "" container') = "".
Proof.
  repeat (split; [reflexivity|]).
  eexists _, _.
  destruct (InterceptRequest_without_DNS "/w/w" [] "weave.local." 6785
              sampleGet string string "" "" userSelects storeUser userMembers
              networkModeSelects storeNetworkMode networkModeMembers
              sampleTags json.value (fun doc => Ok doc) (fun doc => doc)
              docSize plainInterceptor
              (sampleRequest plainDoc "web") _ plainDoc plainBody _
              eq_refl eq_refl eq_refl eq_refl)
    as (container' & Hbody & Hdns & _ & Hhost & _).
  exists container'.
  split; [reflexivity|]. split; [exact Hbody|].
  split; [exact Hdns|exact Hhost].
Defined.
